(** * Verification model of the tender-response core services

    Shallow embedding of the Python services under
    [backend/app/services]: the AI-likeness detector and the humanisation
    chain ([ai_detector.py]), the response composer ([composer.py]), the
    vector matcher ([matcher.py]) and the requirement extractor
    ([extractor.py]).

    Text is modelled as [String.string]; a character is read as a code point
    below 256 (Latin-1), which fixes the meaning of Python's [str.isspace],
    [str.lower] and the regex classes [\s] and [\w] on it.  Python floats
    are modelled by exact rationals [Q]. *)

From Stdlib Require Import Ascii String List Bool Arith Lia ZArith QArith.
From Stdlib Require Import Qround Lqa DecimalString Sorted Permutation.
Import ListNotations.

Open Scope string_scope.
Open Scope list_scope.
Open Scope nat_scope.

(* ================================================================= *)
(** ** Characters and Python string primitives *)

Module Py.

Definition code (c : ascii) : nat := nat_of_ascii c.

(** [str.isspace] on code points below 256. *)
Definition is_space (c : ascii) : bool :=
  let n := code c in
  ((9 <=? n) && (n <=? 13)) || ((28 <=? n) && (n <=? 32))
  || (n =? 133) || (n =? 160).

Definition is_ascii_alnum (n : nat) : bool :=
  ((48 <=? n) && (n <=? 57)) || ((65 <=? n) && (n <=? 90))
  || ((97 <=? n) && (n <=? 122)).

(** Latin-1 letters and numerics counted by Python's [\w]. *)
Definition is_latin1_alnum (n : nat) : bool :=
  (n =? 170) || (n =? 178) || (n =? 179) || (n =? 181) || (n =? 185)
  || (n =? 186) || ((188 <=? n) && (n <=? 190))
  || ((192 <=? n) && (n <=? 214)) || ((216 <=? n) && (n <=? 246))
  || ((248 <=? n) && (n <=? 255)).

(** Regex [\w] for [str] patterns: alphanumerics and underscore. *)
Definition is_word (c : ascii) : bool :=
  let n := code c in is_ascii_alnum n || is_latin1_alnum n || (n =? 95).

(** [str.lower] on one character. *)
Definition lower_char (c : ascii) : ascii :=
  let n := code c in
  if ((65 <=? n) && (n <=? 90)) || ((192 <=? n) && (n <=? 222) && negb (n =? 215))
  then ascii_of_nat (n + 32) else c.

Definition is_upper (c : ascii) : bool :=
  let n := code c in
  ((65 <=? n) && (n <=? 90)) || ((192 <=? n) && (n <=? 222) && negb (n =? 215)).

Fixpoint lower (s : string) : string :=
  match s with
  | EmptyString => EmptyString
  | String c s' => String (lower_char c) (lower s')
  end.

Definition of_rev (acc : list ascii) : string := string_of_list_ascii (rev acc).

(** [str.split()] without arguments: maximal runs of non-space characters. *)
Fixpoint split_ws_acc (s : string) (acc : list ascii) : list string :=
  match s with
  | EmptyString => match acc with [] => [] | _ => [of_rev acc] end
  | String c s' =>
      if is_space c then
        match acc with
        | [] => split_ws_acc s' []
        | _ => of_rev acc :: split_ws_acc s' []
        end
      else split_ws_acc s' (c :: acc)
  end.

Definition split_ws (s : string) : list string := split_ws_acc s [].

(** [s.strip(chars)]: drop leading and trailing characters satisfying [p]. *)
Fixpoint lstrip_by (p : ascii -> bool) (s : string) : string :=
  match s with
  | EmptyString => EmptyString
  | String c s' => if p c then lstrip_by p s' else s
  end.

Definition rev_string (s : string) : string :=
  string_of_list_ascii (rev (list_ascii_of_string s)).

Definition strip_by (p : ascii -> bool) (s : string) : string :=
  rev_string (lstrip_by p (rev_string (lstrip_by p s))).

Definition strip (s : string) : string := strip_by is_space s.

Definition mem_char (c : ascii) (cs : string) : bool :=
  existsb (fun d => Ascii.eqb c d) (list_ascii_of_string cs).

(** [re.split(r'[.!?]+', s)]: the pieces between maximal runs of [.!?]. *)
Fixpoint split_terminators_acc (s : string) (acc : list ascii) (in_run : bool)
  : list string :=
  match s with
  | EmptyString => if in_run then [EmptyString] else [of_rev acc]
  | String c s' =>
      if mem_char c ".!?" then
        if in_run then split_terminators_acc s' [] true
        else of_rev acc :: split_terminators_acc s' [] true
      else split_terminators_acc s' (c :: acc) false
  end.

Definition split_terminators (s : string) : list string :=
  split_terminators_acc s [] false.

(** [re.sub(r'\s+', ' ', s)]: every maximal whitespace run becomes one space. *)
Fixpoint collapse_ws_acc (s : string) (in_run : bool) : string :=
  match s with
  | EmptyString => EmptyString
  | String c s' =>
      if is_space c then
        if in_run then collapse_ws_acc s' true
        else String " " (collapse_ws_acc s' true)
      else String c (collapse_ws_acc s' false)
  end.

Definition collapse_ws (s : string) : string := collapse_ws_acc s false.

(** [re.sub(r'\s+([.,!?])', r'\1', s)]: a maximal whitespace run directly
    followed by one of [.,!?] is deleted. *)
Fixpoint next_non_space (s : string) : option ascii :=
  match s with
  | EmptyString => None
  | String c s' => if is_space c then next_non_space s' else Some c
  end.

Fixpoint drop_space_before_punct (s : string) : string :=
  match s with
  | EmptyString => EmptyString
  | String c s' =>
      if is_space c then
        match next_non_space s' with
        | Some d => if mem_char d ".,!?" then drop_space_before_punct s'
                    else String c (drop_space_before_punct s')
        | None => String c (drop_space_before_punct s')
        end
      else String c (drop_space_before_punct s')
  end.

(** Cleanup of [remove_ai_markers] and [humanize_text]:
    [re.sub(r'\s+', ' ', t).strip()] then [re.sub(r'\s+([.,!?])', r'\1', t)]. *)
Definition cleanup (s : string) : string :=
  drop_space_before_punct (strip (collapse_ws s)).

End Py.

(* ================================================================= *)
(** ** Literal regular expressions

    Every regex of the detector and the humanisation chain is a literal
    text, optionally guarded by [\b] at its start and/or end, compiled with
    or without [re.IGNORECASE].  [re.escape] makes the text literal. *)

Module Lit.

Record pat := mk {
  lead_b : bool;   (** starts with [\b] *)
  body : string;   (** the literal text *)
  trail_b : bool;  (** ends with [\b] *)
  icase : bool     (** compiled with [re.IGNORECASE] *)
}.

Definition is_word_opt (c : option ascii) : bool :=
  match c with Some c => Py.is_word c | None => false end.

(** [\b] between [prev] and [next]. *)
Definition boundary (prev next : option ascii) : bool :=
  xorb (is_word_opt prev) (is_word_opt next).

Definition char_eq (ic : bool) (a b : ascii) : bool :=
  if ic then Ascii.eqb (Py.lower_char a) (Py.lower_char b) else Ascii.eqb a b.

Fixpoint prefix_by (ic : bool) (p s : string) : bool :=
  match p, s with
  | EmptyString, _ => true
  | String a p', String b s' => char_eq ic a b && prefix_by ic p' s'
  | _, _ => false
  end.

(** The pattern matches at the start of [s], [prev] being the character
    before that position. *)
Definition match_here (p : pat) (prev : option ascii) (s : string) : bool :=
  let n := String.length (body p) in
  (negb (lead_b p) || boundary prev (String.get 0 s))
  && prefix_by (icase p) (body p) s
  && (negb (trail_b p) || boundary (String.get (n - 1) s) (String.get n s)).

(** [pattern.search(s) is not None]. *)
Fixpoint search_from (p : pat) (prev : option ascii) (s : string) : bool :=
  match_here p prev s ||
  match s with
  | EmptyString => false
  | String c s' => search_from p (Some c) s'
  end.

Definition search (p : pat) (s : string) : bool := search_from p None s.

(** [len(re.findall(p, s))]: non-overlapping matches, left to right;
    [skip] counts the characters still inside the last match. *)
Fixpoint count_from (p : pat) (prev : option ascii) (skip : nat) (s : string) : nat :=
  match s with
  | EmptyString => 0
  | String c s' =>
      match skip with
      | S k => count_from p (Some c) k s'
      | O => if match_here p prev s
             then S (count_from p (Some c) (String.length (body p) - 1) s')
             else count_from p (Some c) 0 s'
      end
  end.

Definition count (p : pat) (s : string) : nat := count_from p None 0 s.

(** [p.sub(repl, s, count=lim)] ([lim = None]: replace all). *)
Fixpoint sub_from (p : pat) (repl : string) (lim : option nat)
  (prev : option ascii) (skip : nat) (s : string) : string :=
  match s with
  | EmptyString => EmptyString
  | String c s' =>
      match skip with
      | S k => sub_from p repl lim (Some c) k s'
      | O =>
          let go := match lim with Some 0 => false | _ => true end in
          if go && match_here p prev s then
            (repl ++ sub_from p repl (option_map pred lim) (Some c)
                      (String.length (body p) - 1) s')%string
          else String c (sub_from p repl lim (Some c) 0 s')
      end
  end.

Definition sub (p : pat) (repl s : string) : string := sub_from p repl None None 0 s.
Definition sub1 (p : pat) (repl s : string) : string := sub_from p repl (Some 1) None 0 s.

(** [re.compile(r'\b...\b')], [re.compile(re.escape(...), re.IGNORECASE)], ... *)
Definition word (w : string) : pat := mk true w true false.
Definition word_ci (w : string) : pat := mk true w true true.
Definition plain (w : string) : pat := mk false w false false.
Definition plain_ci (w : string) : pat := mk false w false true.

End Lit.

(* ================================================================= *)
(** ** The AI-likeness detector: [calculate_ai_score] *)

Module Detector.

Definition Qltb (x y : Q) : bool := negb (Qle_bool y x).
Definition Qofn (n : nat) : Q := inject_Z (Z.of_nat n).
Definition Qmin (x y : Q) : Q := if Qle_bool x y then x else y.

Definition sumn (l : list nat) : nat := fold_right Nat.add 0 l.
Definition sumQ (l : list Q) : Q := fold_right Qplus 0%Q l.

(** Python's [round(x, 2)]: round half to even at two decimals. *)
Definition round_half_even (q : Q) : Z :=
  let f := Qfloor q in
  let r := (q - inject_Z f)%Q in
  if Qltb r (1#2) then f
  else if Qltb (1#2) r then (f + 1)%Z
  else if Z.even f then f else (f + 1)%Z.

Definition round2 (q : Q) : Q := Qmake (round_half_even (q * 100)) 100.

(** [[s.strip() for s in re.split(r'[.!?]+', text)
       if s.strip() and len(s.strip()) > 3]] *)
Definition sentences_of (text : string) : list string :=
  filter (fun s => negb (String.eqb s EmptyString) && (3 <? String.length s))
         (map Py.strip (Py.split_terminators text)).

(** 1. Burstiness.  The source compares [sqrt(variance) / avg_len] with
    0.25, 0.40 and 0.55; as [avg_len > 0] this is decided exactly by
    comparing [variance] with [(t * avg_len)^2]. *)
Definition burstiness (sentences : list string) : nat * list string :=
  let n := length sentences in
  if 2 <=? n then
    let ls := map (fun s => length (Py.split_ws s)) sentences in
    let avg := (Qofn (sumn ls) / Qofn n)%Q in
    if Qltb 0 avg then
      let var := (sumQ (map (fun l => (Qofn l - avg) * (Qofn l - avg)) ls) / Qofn n)%Q in
      let below t := Qltb var ((t * avg) * (t * avg))%Q in
      if below (1#4) then (35, ["very_uniform_sentences"])
      else if below (2#5) then (20, ["uniform_sentences"])
      else if below (11#20) then (10, ["slightly_uniform"])
      else (0, [])
    else (0, [])
  else (0, []).

Fixpoint dedup (l : list string) : list string :=
  match l with
  | [] => []
  | x :: r => if existsb (String.eqb x) r then dedup r else x :: dedup r
  end.

(** The characters stripped from each word: [.,!?;:'-] and the double
    quote (code 34). *)
Definition word_strip_char (c : ascii) : bool :=
  Py.mem_char c ".,!?;:'-" || (Py.code c =? 34).

(** 2. Lexical diversity: the set of [w.lower().strip(...)] over the words
    [w] with [len(w) > 2]. *)
Definition unique_words (words : list string) : list string :=
  dedup (map (fun w => Py.strip_by word_strip_char (Py.lower w))
             (filter (fun w => 2 <? String.length w) words)).

Definition lexical (words : list string) : nat * list string :=
  let wc := length words in
  let ttr := (Qofn (length (unique_words words)) / Qofn wc)%Q in
  if Qltb ttr (45#100) then (25, ["low_vocabulary_diversity"])
  else if Qltb ttr (55#100) then (15, ["moderate_vocabulary_diversity"])
  else if Qltb ttr (65#100) then (8, [])
  else (0, []).

(** 3. Formality: contraction patterns are searched in [text] itself, the
    formal transitions in [text_lower]. *)
Definition contraction_patterns : list Lit.pat :=
  map Lit.word
    ["don't"; "can't"; "won't"; "isn't"; "aren't"; "wasn't"; "weren't";
     "hasn't"; "haven't"; "it's"; "that's"; "what's"; "they're"; "we're";
     "I'm"].

(** [(pattern, penalty)]; [r"\badditionall?y\b"] is the two literal
    alternatives [additionaly] and [additionally].  The tag is
    [pattern[2:-2]]. *)
Definition formal_transitions : list (list Lit.pat * string * nat) :=
  [([Lit.word "furthermore"], "furthermore", 8);
   ([Lit.word "moreover"], "moreover", 8);
   ([Lit.word "nevertheless"], "nevertheless", 8);
   ([Lit.word "nonetheless"], "nonetheless", 8);
   ([Lit.word "consequently"], "consequently", 7);
   ([Lit.word "subsequently"], "subsequently", 7);
   ([Lit.word "additionaly"; Lit.word "additionally"], "additionall?y", 5);
   ([Lit.word "however"], "however", 3);
   ([Lit.word "therefore"], "therefore", 4);
   ([Lit.word "thus"], "thus", 5);
   ([Lit.word "hence"], "hence", 6);
   ([Lit.word "particularly"], "particularly", 3)].

Definition formality (text text_lower : string) (word_count : nat) : nat * list string :=
  let has_contractions := existsb (fun p => Lit.search p text) contraction_patterns in
  let base := if (30 <? word_count) && negb has_contractions
              then (15, ["no_contractions"]) else (0, []) in
  let '(sc, tags) :=
    fold_left (fun acc '(ps, name, pen) =>
                 if existsb (fun p => Lit.search p text_lower) ps
                 then (fst acc + pen, snd acc ++ [("formal:" ++ name)%string])
                 else acc)
              formal_transitions base in
  (Nat.min sc 40, tags).

(** 4. Sentence starters: counts kept in insertion order, as a Python dict. *)
Fixpoint bump (k : string) (l : list (string * nat)) : list (string * nat) :=
  match l with
  | [] => [(k, 1)]
  | (k', c) :: r => if String.eqb k k' then (k', S c) :: r else (k', c) :: bump k r
  end.

Definition starters_of (sentences : list string) : list string :=
  flat_map (fun s => match Py.split_ws s with
                     | w :: _ => [Py.lower w]
                     | [] => []
                     end) sentences.

Definition starter_signal (sentences : list string) : nat * list string :=
  if 3 <=? length sentences then
    let starters := starters_of sentences in
    let counts := fold_left (fun acc s => bump s acc) starters [] in
    let '(sc, tags) :=
      fold_left (fun acc '(st, c) =>
                   let ratio := (Qofn c / Qofn (length starters))%Q in
                   if Qle_bool (1#2) ratio
                   then (fst acc + 20, snd acc ++ [("repetitive_starter:" ++ st)%string])
                   else if Qle_bool (33#100) ratio && (2 <=? c)
                   then (fst acc + 10, snd acc ++ [("common_starter:" ++ st)%string])
                   else acc)
                counts (0, []) in
    (Nat.min sc 25, tags)
  else (0, []).

(** 5. Known AI phrases, searched in [text_lower]; the tag is [phrase[:20]]. *)
Definition ai_phrases : list (string * nat) :=
  [("it is important to note", 15); ("it should be noted", 12);
   ("it is worth mentioning", 12); ("it is essential to", 8);
   ("this highlights the", 6); ("this underscores", 8);
   ("in today's world", 8); ("in the modern era", 8);
   ("plays a crucial role", 8); ("plays a vital role", 8);
   ("continues to be", 4); ("remains a key", 5)].

Definition phrase_signal (text_lower : string) : nat * list string :=
  let '(sc, tags) :=
    fold_left (fun acc '(ph, pen) =>
                 if Lit.search (Lit.plain ph) text_lower
                 then (fst acc + pen, snd acc ++ [("ai_phrase:" ++ substring 0 20 ph)%string])
                 else acc)
              ai_phrases (0, []) in
  (Nat.min sc 35, tags).

(** 6. Buzzwords, counted with [re.findall] in [text_lower]. *)
Definition ai_buzzwords : list (string * nat) :=
  [("delve", 15); ("tapestry", 12); ("landscape", 5); ("seamless", 6);
   ("robust", 5); ("innovative", 4); ("holistic", 8); ("synergy", 10);
   ("paradigm", 10); ("cutting-edge", 8); ("state-of-the-art", 8);
   ("evolving", 3); ("dynamic", 3); ("strategic", 3)].

Definition buzzword_signal (text_lower : string) : nat * list string :=
  let '(sc, tags) :=
    fold_left (fun acc '(w, pen) =>
                 let c := Lit.count (Lit.word w) text_lower in
                 if 0 <? c
                 then (fst acc + pen * Nat.min c 2, snd acc ++ [("buzzword:" ++ w)%string])
                 else acc)
              ai_buzzwords (0, []) in
  (Nat.min sc 30, tags).

(** [calculate_ai_score(text) -> (score, detected)]. *)
Definition calculate_ai_score (text : string) : Q * list string :=
  let text_lower := Py.lower text in
  let words := Py.split_ws text in
  let word_count := length words in
  if word_count <? 5 then (0%Q, ["text_too_short"])
  else
    let sentences := sentences_of text in
    let '(b, tb) := burstiness sentences in
    let '(l, tl) := lexical words in
    let '(f, tf) := formality text text_lower word_count in
    let '(s, ts) := starter_signal sentences in
    let '(p, tp) := phrase_signal text_lower in
    let '(z, tz) := buzzword_signal text_lower in
    let total_raw := b + l + f + s + p + z in
    let final_score :=
      if word_count <? 50 then Qmin (Qofn total_raw * (4#5)) 100
      else if word_count <? 100 then Qmin (Qofn total_raw * (9#10)) 100
      else Qmin (Qofn total_raw) 100 in
    (round2 final_score, tb ++ tl ++ tf ++ ts ++ tp ++ tz).

End Detector.

(* ================================================================= *)
(** ** The humanisation chain of [ai_detector.py]

    [random.random()] and [random.choice] draw from one generator.  It is
    modelled as an oracle indexed by the number of draws made so far:
    [rnd k] is the value of the [k]-th draw when it is [random.random()],
    [pick k n] the index chosen by the [k]-th draw when it is
    [random.choice] over [n] items.  Every function that draws takes the
    draw counter and returns the advanced one. *)

Module Humanizer.

Record Rng := {
  rnd : nat -> Q;
  pick : nat -> nat -> nat
}.

Definition choice (g : Rng) (k : nat) (xs : list string) : string :=
  nth (Nat.modulo (pick g k (length xs)) (length xs)) xs EmptyString.

Definition nat_to_string (n : nat) : string := NilEmpty.string_of_uint (Nat.to_uint n).

(** [remove_ai_markers]: the word patterns are built as
    [r'\b' + re.escape(word) + r'\\b'], so each one is [\b], the word, then
    a literal backslash followed by [b]. *)
Definition ai_word_replacements : list (string * string) :=
  [("delve", "explore"); ("tapestry", "mix"); ("realm", "area");
   ("landscape", "field"); ("journey", "process"); ("unlock", "discover");
   ("empower", "enable"); ("seamless", "smooth"); ("robust", "strong");
   ("holistic", "complete"); ("synergy", "cooperation"); ("paradigm", "approach");
   ("innovative", "new"); ("cutting-edge", "modern"); ("state-of-the-art", "latest");
   ("groundbreaking", "major"); ("revolutionary", "significant");
   ("unprecedented", "unique"); ("dynamic", "active"); ("evolving", "developing");
   ("strategic", "planned"); ("leverage", "use"); ("utilize", "use");
   ("comprehensive", "complete"); ("pivotal", "key"); ("paramount", "vital");
   ("facilitate", "help"); ("noteworthy", "important"); ("fortify", "strengthen");
   ("fostering", "encouraging"); ("bolster", "support"); ("underscore", "show");
   ("multifaceted", "varied"); ("vibrant", "lively"); ("ongoing", "current")].

Definition marker_pattern (w : string) : Lit.pat :=
  Lit.mk true (w ++ "\" ++ "b") false true.

Definition ai_phrase_replacements : list (string * string) :=
  [("in essence", EmptyString); ("at its core", EmptyString);
   ("plays a crucial role", "is important"); ("plays a vital role", "matters");
   ("it's worth noting", EmptyString); ("what's more", "also");
   ("in today's world", "today"); ("in the modern era", "now");
   ("further reinforced", "strengthened")].

(** One [if pattern.search(result): result = pattern.sub(...); count += 1]. *)
Definition sub_if_found (p : Lit.pat) (repl : string) (acc : string * nat) : string * nat :=
  let '(result, count) := acc in
  if Lit.search p result then (Lit.sub p repl result, S count) else acc.

Definition remove_ai_markers (text : string) : string * nat :=
  let acc := fold_left (fun acc '(w, r) => sub_if_found (marker_pattern w) r acc)
                       ai_word_replacements (text, 0) in
  let '(result, count) :=
    fold_left (fun acc '(ph, r) => sub_if_found (Lit.plain_ci ph) r acc)
              ai_phrase_replacements acc in
  (Py.cleanup result, count).

(** [PHRASE_PARAPHRASES] in dictionary order. *)
Definition phrase_paraphrases : list (string * list string) :=
  [("it is important to note that", ["notably"; EmptyString; "keep in mind that"]);
   ("it should be noted that", ["note that"; "importantly"; EmptyString]);
   ("in order to", ["to"; "so as to"; "for"]);
   ("due to the fact that", ["because"; "since"; "as"]);
   ("at this point in time", ["now"; "currently"; "at present"]);
   ("in the event that", ["if"; "should"; "in case"]);
   ("for the purpose of", ["to"; "for"]);
   ("with regard to", ["about"; "regarding"; "concerning"]);
   ("in terms of", ["regarding"; "concerning"; "for"]);
   ("a large number of", ["many"; "numerous"; "lots of"]);
   ("a significant amount of", ["much"; "considerable"]);
   ("on the other hand", ["however"; "but"; "conversely"]);
   ("as a result of", ["because of"; "due to"; "from"]);
   ("in light of", ["given"; "considering"; "because of"]);
   ("with respect to", ["regarding"; "about"; "concerning"]);
   ("in accordance with", ["following"; "per"; "according to"]);
   ("prior to", ["before"; "ahead of"]);
   ("subsequent to", ["after"; "following"]);
   ("the fact that", ["that"; "how"]);
   ("continues to be", ["remains"; "stays"; "is still"]);
   ("plays a crucial role", ["is key"; "matters greatly"; "is vital"]);
   ("plays a vital role", ["is essential"; "is key"]);
   ("plays an important role", ["matters"; "is significant"])].

(** [apply_phrase_paraphrasing]: the first occurrence of each phrase found
    is replaced by a [random.choice] among its alternatives. *)
Definition apply_phrase_paraphrasing (g : Rng) (k : nat) (text : string)
  : (string * nat) * nat :=
  fold_left (fun '((result, n), k) '(ph, alts) =>
               let p := Lit.plain_ci ph in
               if Lit.search p result
               then ((Lit.sub1 p (choice g k alts) result, S n), S k)
               else ((result, n), k))
            phrase_paraphrases ((text, 0), k).

(** [SYNONYMS] in dictionary order. *)
Definition synonyms : list (string * list string) :=
  [("use", ["employ"; "apply"; "adopt"; "make use of"]);
   ("utilize", ["use"; "employ"; "apply"; "harness"]);
   ("leverage", ["use"; "employ"; "capitalize on"; "take advantage of"]);
   ("implement", ["execute"; "carry out"; "put into practice"; "deploy"]);
   ("facilitate", ["enable"; "help"; "assist"; "support"]);
   ("enhance", ["improve"; "boost"; "strengthen"; "elevate"]);
   ("optimize", ["improve"; "refine"; "fine-tune"; "streamline"]);
   ("achieve", ["accomplish"; "attain"; "reach"; "realize"]);
   ("ensure", ["guarantee"; "make sure"; "confirm"; "secure"]);
   ("provide", ["offer"; "supply"; "deliver"; "give"]);
   ("enable", ["allow"; "permit"; "let"; "make possible"]);
   ("demonstrate", ["show"; "display"; "illustrate"; "prove"]);
   ("establish", ["set up"; "create"; "found"; "build"]);
   ("maintain", ["keep"; "preserve"; "sustain"; "uphold"]);
   ("require", ["need"; "demand"; "call for"]);
   ("develop", ["create"; "build"; "design"; "craft"]);
   ("consider", ["think about"; "examine"; "look at"; "review"]);
   ("evaluate", ["assess"; "analyze"; "examine"; "review"]);
   ("indicate", ["show"; "suggest"; "point to"; "reveal"]);
   ("address", ["tackle"; "handle"; "deal with"; "resolve"]);
   ("comprehensive", ["complete"; "thorough"; "full"; "extensive"]);
   ("robust", ["strong"; "solid"; "sturdy"; "reliable"]);
   ("innovative", ["new"; "novel"; "creative"; "original"]);
   ("significant", ["major"; "important"; "notable"; "considerable"]);
   ("essential", ["vital"; "crucial"; "key"; "necessary"]);
   ("effective", ["successful"; "productive"; "efficient"]);
   ("efficient", ["effective"; "productive"; "streamlined"]);
   ("various", ["different"; "diverse"; "several"; "multiple"]);
   ("complex", ["complicated"; "intricate"; "sophisticated"]);
   ("critical", ["crucial"; "vital"; "key"; "important"]);
   ("substantial", ["significant"; "considerable"; "major"]);
   ("pivotal", ["key"; "crucial"; "central"; "vital"]);
   ("paramount", ["supreme"; "top"; "chief"; "primary"]);
   ("seamless", ["smooth"; "effortless"; "fluid"]);
   ("strategic", ["planned"; "calculated"; "deliberate"]);
   ("dynamic", ["active"; "changing"; "fluid"; "energetic"]);
   ("evolving", ["developing"; "growing"; "changing"]);
   ("significantly", ["greatly"; "considerably"; "substantially"]);
   ("effectively", ["successfully"; "well"; "efficiently"]);
   ("subsequently", ["later"; "afterward"; "then"; "next"]);
   ("consequently", ["as a result"; "therefore"; "thus"]);
   ("additionally", ["also"; "plus"; "besides"; "as well"]);
   ("furthermore", ["also"; "in addition"; "plus"]);
   ("however", ["but"; "yet"; "still"; "though"]);
   ("therefore", ["so"; "thus"; "hence"; "as a result"]);
   ("moreover", ["also"; "besides"; "in addition"; "plus"]);
   ("particularly", ["especially"; "specifically"; "notably"])].

Fixpoint lookup (k : string) (l : list (string * list string)) : option (list string) :=
  match l with
  | [] => None
  | (k', v) :: r => if String.eqb k k' then Some v else lookup k r
  end.

Definition trail_char (c : ascii) : bool := Py.mem_char c ".,!?;:".

(** [str.capitalize()]: first character upper-cased, the rest lower-cased. *)
Definition upper_char (c : ascii) : ascii :=
  let n := Py.code c in
  if ((97 <=? n) && (n <=? 122)) || ((224 <=? n) && (n <=? 254) && negb (n =? 247))
  then ascii_of_nat (n - 32) else c.

Definition capitalize (s : string) : string :=
  match s with
  | EmptyString => EmptyString
  | String c s' => String (upper_char c) (Py.lower s')
  end.

Fixpoint take_while (p : ascii -> bool) (l : list ascii) : list ascii :=
  match l with
  | [] => []
  | c :: r => if p c then c :: take_while p r else []
  end.

(** The trailing run of [.,!?;:] characters of a word. *)
Definition trailing (w : string) : string :=
  string_of_list_ascii (rev (take_while trail_char (rev (list_ascii_of_string w)))).

(** [apply_synonym_replacement(text, intensity)]; [random.random()] is only
    drawn for words found in [SYNONYMS] ([and] short-circuits). *)
Definition synonym_word (g : Rng) (intensity : Q) (word : string) (k : nat)
  : string * bool * nat :=
  let word_lower := Py.strip_by trail_char (Py.lower word) in
  match lookup word_lower synonyms with
  | Some syns =>
      if Detector.Qltb (rnd g k) intensity then
        let r := choice g (S k) syns in
        let r := match String.get 0 word with
                 | Some c => if Py.is_upper c then capitalize r else r
                 | None => r
                 end in
        ((r ++ trailing word)%string, true, S (S k))
      else (word, false, S k)
  | None => (word, false, k)
  end.

Fixpoint join (sep : string) (l : list string) : string :=
  match l with
  | [] => EmptyString
  | [x] => x
  | x :: r => (x ++ sep ++ join sep r)%string
  end.

Definition apply_synonym_replacement (g : Rng) (k : nat) (text : string) (intensity : Q)
  : (string * nat) * nat :=
  let '(ws, n, k) :=
    fold_left (fun '(ws, n, k) w =>
                 let '(w', hit, k') := synonym_word g intensity w k in
                 (ws ++ [w'], if hit then S n else n, k'))
              (Py.split_ws text) ([], 0, k) in
  ((join " " ws, n), k).

Definition contractions : list (string * string) :=
  [("do not", "don't"); ("does not", "doesn't"); ("cannot", "can't");
   ("will not", "won't"); ("should not", "shouldn't"); ("would not", "wouldn't");
   ("could not", "couldn't"); ("is not", "isn't"); ("are not", "aren't");
   ("was not", "wasn't"); ("were not", "weren't"); ("has not", "hasn't");
   ("have not", "haven't"); ("it is", "it's"); ("that is", "that's");
   ("there is", "there's"); ("they are", "they're"); ("we are", "we're")].

(** [add_contractions]: one [random.random() > 0.3] draw per pattern. *)
Definition add_contractions (g : Rng) (k : nat) (text : string) : (string * nat) * nat :=
  fold_left (fun '((result, n), k) '(pat, r) =>
               if Detector.Qltb (3#10) (rnd g k) then
                 let result' := Lit.sub (Lit.word_ci pat) r result in
                 ((result', if String.eqb result result' then n else S n), S k)
               else ((result, n), S k))
            contractions ((text, 0), k).

(** Outcome of an LLM chat-completion request. *)
Inductive LlmOut :=
| LlmReply (content : string)  (** status 200 with this message content *)
| LlmStatus                    (** any other status code *)
| LlmRaise.                    (** the request raised (timeout, network, ...) *)

(** The collaborators of [humanize_text]: [langdetect.detect] ([None] when
    it raises) and the multilingual LLM request. *)
Record HEnv := {
  detect : string -> option string;
  humanize_llm : string -> LlmOut
}.

Definition intensity_of (intensity : string) : Q :=
  if String.eqb intensity "light" then 2#10
  else if String.eqb intensity "balanced" then 35#100
  else if String.eqb intensity "aggressive" then 5#10
  else 35#100.

Definition tag (name : string) (n : nat) : list string :=
  if 0 <? n then [(name ++ ":" ++ nat_to_string n)%string] else [].

(** [humanize_text(text, intensity)
      -> (humanized_text, original_score, new_score, techniques)]. *)
Definition humanize_text (h : HEnv) (g : Rng) (k : nat) (text intensity : string)
  : (string * Q * Q * list string) * nat :=
  let lang := match detect h text with Some l => l | None => "en" end in
  let original_score := fst (Detector.calculate_ai_score text) in
  let english (u : unit) :=
    let '(t1, n1) := remove_ai_markers text in
    let '((t2, n2), k) := apply_phrase_paraphrasing g k t1 in
    let '((t3, n3), k) := apply_synonym_replacement g k t2 (intensity_of intensity) in
    let '((t4, n4), k) := add_contractions g k t3 in
    let t5 := Py.cleanup t4 in
    ((t5, original_score, fst (Detector.calculate_ai_score t5),
      tag "ai_markers_removed" n1 ++ tag "phrases_replaced" n2
      ++ tag "synonyms_replaced" n3 ++ tag "contractions_added" n4), k) in
  if negb (String.eqb lang "en") then
    match humanize_llm h text with
    | LlmReply c => ((Py.strip c, original_score, 15%Q,
                      [("llm_multilingual_humanize:" ++ lang)%string]), k)
    | LlmStatus => english tt
    | LlmRaise => ((text, original_score, original_score, ["fallback_failed"]), k)
    end
  else english tt.

(** The second loop of [remove_ai_markers], over [ai_phrases]. *)
Definition phrase_stage (acc : string * nat) : string * nat :=
  fold_left (fun acc '(ph, r) => sub_if_found (Lit.plain_ci ph) r acc)
            ai_phrase_replacements acc.

End Humanizer.

(* ================================================================= *)
(** ** The vector matcher ([matcher.py])

    A knowledge-base item is a Python dict with string keys and string
    values, kept as an association list in insertion order.  The FAISS
    [IndexFlatIP] is the list of its vectors.  The sentence-embedding model
    followed by L2 normalisation is the function [nemb]; both normalisation
    routes of the source ([embedding / np.linalg.norm(embedding)] and
    [faiss.normalize_L2]) are this one function.  Disk persistence
    ([_save_index]) has no effect on the in-memory state and is not
    modelled. *)

Module Matcher.

Definition Item := list (string * string).

Fixpoint dict_get (k : string) (d : Item) : option string :=
  match d with
  | [] => None
  | (k', v) :: r => if String.eqb k k' then Some v else dict_get k r
  end.

(** [d[k] = v]: an existing key keeps its position. *)
Fixpoint dict_set (k v : string) (d : Item) : Item :=
  match d with
  | [] => [(k, v)]
  | (k', v') :: r => if String.eqb k k' then (k', v) :: r else (k', v') :: dict_set k v r
  end.

(** [{'id': item_id, 'content': content, **(metadata or {})}]. *)
Definition make_item (item_id content : string) (metadata : Item) : Item :=
  fold_left (fun d '(k, v) => dict_set k v d) metadata
            [("id", item_id); ("content", content)].

Record MatchResult := {
  kb_item_id : string;
  content : string;
  score : Q;
  rank : nat
}.

(** Python truthiness of an optional string. *)
Definition truthy (s : option string) : bool :=
  match s with Some s => negb (String.eqb s EmptyString) | None => false end.

Section WithEmbedding.

Variable V : Type.
Variable nemb : string -> V.

Record State := {
  index : list V;
  kb_items : list Item;
  id_to_index : list (string * nat)
}.

Definition id_set (k : string) (i : nat) (m : list (string * nat)) : list (string * nat) :=
  (k, i) :: filter (fun '(k', _) => negb (String.eqb k k')) m.

Definition id_mem (k : string) (m : list (string * nat)) : bool :=
  existsb (fun '(k', _) => String.eqb k k') m.

(** [_create_empty_index]. *)
Definition create_empty_index (st : State) : State :=
  {| index := []; kb_items := []; id_to_index := [] |}.

(** [add_item(item_id, content, metadata)]. *)
Definition add_item (st : State) (item_id content : string) (metadata : Item) : State :=
  let items := kb_items st ++ [make_item item_id content metadata] in
  {| index := index st ++ [nemb content];
     kb_items := items;
     id_to_index := id_set item_id (length items - 1) (id_to_index st) |}.

(** [_rebuild_index]: it starts with [_create_empty_index], which also
    empties [kb_items], so the [if not self.kb_items] branch is always
    taken. *)
Definition rebuild_from (st : State) : State :=
  let st := create_empty_index st in
  match kb_items st with
  | [] => st
  | _ =>
      {| index := map (fun it => match dict_get "content" it with
                                 | Some c => nemb c
                                 | None => nemb EmptyString
                                 end) (kb_items st);
         kb_items := kb_items st;
         id_to_index := combine (map (fun it => match dict_get "id" it with
                                                | Some i => i
                                                | None => EmptyString
                                                end) (kb_items st))
                                (seq 0 (length (kb_items st))) |}
  end.

Definition rebuild_index (st : State) : State := rebuild_from st.

(** [remove_item(item_id)]. *)
Definition remove_item (st : State) (item_id : string) : State :=
  if negb (id_mem item_id (id_to_index st)) then st
  else
    rebuild_index
      {| index := index st;
         kb_items := filter (fun it => negb (match dict_get "id" it with
                                             | Some i => String.eqb i item_id
                                             | None => false
                                             end)) (kb_items st);
         id_to_index := id_to_index st |}.

(** [sync_with_database(kb_items)]. *)
Definition sync_with_database (st : State) (items : list Item) : State :=
  rebuild_index {| index := index st; kb_items := items; id_to_index := id_to_index st |}.


End WithEmbedding.

Arguments index {V}.
Arguments kb_items {V}.
Arguments id_to_index {V}.
Arguments Build_State {V}.
Arguments create_empty_index {V}.

(** The tenant test of [search]:
    [tenant_id and kb_item.get('tenant_id') and kb_item.get('tenant_id') != tenant_id]. *)
Definition tenant_excluded (tenant_id : option string) (it : Item) : bool :=
  truthy tenant_id && truthy (dict_get "tenant_id" it)
  && match dict_get "tenant_id" it, tenant_id with
     | Some t, Some t' => negb (String.eqb t t')
     | _, _ => true
     end.

(** The loop of [search] over the FAISS hits [(score, idx)]; [None] is a
    [KeyError] on [kb_item['id']] or [kb_item['content']]. *)
Fixpoint search_loop (items : list Item) (top_k : Z) (min_score : Q)
  (tenant_id : option string) (hits : list (Q * Z)) (results : list MatchResult)
  : option (list MatchResult) :=
  match hits with
  | [] => Some results
  | (sc, idx) :: rest =>
      if (idx <? 0)%Z || (Z.of_nat (length items) <=? idx)%Z || Detector.Qltb sc min_score
      then search_loop items top_k min_score tenant_id rest results
      else
        match nth_error items (Z.to_nat idx) with
        | None => search_loop items top_k min_score tenant_id rest results
        | Some it =>
            if tenant_excluded tenant_id it
            then search_loop items top_k min_score tenant_id rest results
            else
              match dict_get "id" it, dict_get "content" it with
              | Some i, Some c =>
                  let results' := results ++ [{| kb_item_id := i; content := c;
                                                 score := sc;
                                                 rank := length results + 1 |}] in
                  if (top_k <=? Z.of_nat (length results'))%Z then Some results'
                  else search_loop items top_k min_score tenant_id rest results'
              | _, _ => None
              end
        end
  end.

(** [search(query, top_k, min_score, tenant_id)].  [ranked] is what the
    exhaustive inner-product index ranks for the normalised query embedding,
    best first; [index.search(q, search_k)] returns its first [search_k]
    entries, and FAISS rejects [search_k <= 0] (an exception, [None]). *)
Definition search {V : Type} (st : State V) (top_k : Z) (min_score : Q)
  (tenant_id : option string) (ranked : list (Q * Z)) : option (list MatchResult) :=
  let ntotal := Z.of_nat (length (index st)) in
  if (ntotal =? 0)%Z then Some []
  else
    let search_k := Z.min (if truthy tenant_id then top_k * 10 else top_k)%Z ntotal in
    if (search_k <=? 0)%Z then None
    else search_loop (kb_items st) top_k min_score tenant_id
                     (firstn (Z.to_nat search_k) ranked) [].

(** [self.id_to_index[item_id]]; [None] is the [KeyError]. *)
Fixpoint id_get (k : string) (m : list (string * nat)) : option nat :=
  match m with
  | [] => None
  | (k', i) :: r => if String.eqb k k' then Some i else id_get k r
  end.

(** A requirement [{'id', 'text', 'category'}] given to
    [match_requirements]; [req_category] is [req.get('category')]. *)
Record Requirement := {
  req_id : string;
  req_text : string;
  req_category : option string
}.

(** An element of the list returned by [match_requirements]. *)
Record MatchEntry := {
  requirement_id : string;
  requirement_text : string;
  m_category : option string;
  match_percentage : Q;
  matches : list MatchResult
}.

(** One iteration of [match_requirements]: [search] with the default
    [min_score = 0.0]; [ranking q] is the index ranking of query [q]. *)
Definition match_one {V : Type} (st : State V) (top_k : Z) (tenant_id : option string)
  (ranking : string -> list (Q * Z)) (req : Requirement) : option MatchEntry :=
  match search st top_k 0%Q tenant_id (ranking (req_text req)) with
  | None => None
  | Some ms =>
      let match_percentage := match ms with
                              | best :: _ => (score best * 100)%Q
                              | [] => 0%Q
                              end in
      Some {| requirement_id := req_id req; requirement_text := req_text req;
              m_category := req_category req;
              match_percentage := Detector.Qmin match_percentage 100;
              matches := ms |}
  end.

(** [match_requirements(requirements, top_k, tenant_id)]. *)
Fixpoint match_requirements {V : Type} (st : State V) (requirements : list Requirement)
  (top_k : Z) (tenant_id : option string) (ranking : string -> list (Q * Z))
  : option (list MatchEntry) :=
  match requirements with
  | [] => Some []
  | req :: rest =>
      match match_one st top_k tenant_id ranking req with
      | None => None
      | Some e =>
          match match_requirements st rest top_k tenant_id ranking with
          | None => None
          | Some es => Some (e :: es)
          end
      end
  end.

(** [calculate_summary(match_results)].  [by_category] is a dict in
    insertion order from the category ([result.get('category', ...)], the
    key always being present in the results of [match_requirements]) to
    [(scores, total, matched)]. *)
Definition opt_eqb (a b : option string) : bool :=
  match a, b with
  | Some x, Some y => String.eqb x y
  | None, None => true
  | _, _ => false
  end.

Fixpoint cat_add (cat : option string) (mp : Q)
  (bc : list (option string * (list Q * nat * nat)))
  : list (option string * (list Q * nat * nat)) :=
  match bc with
  | [] => [(cat, ([mp], 1, if Qle_bool 50 mp then 1 else 0))]
  | (c, (sc, t, m)) :: r =>
      if opt_eqb cat c
      then (c, (sc ++ [mp], S t, if Qle_bool 50 mp then S m else m)) :: r
      else (c, (sc, t, m)) :: cat_add cat mp r
  end.

Definition by_category (results : list MatchEntry)
  : list (option string * (list Q * nat * nat)) :=
  fold_left (fun bc r => cat_add (m_category r) (match_percentage r) bc) results [].

Definition avg (l : list Q) : Q := (Detector.sumQ l / Detector.Qofn (length l))%Q.

(** [summary[key] = ...] for [key in summary]: the eligibility, technical
    and compliance entries. *)
Definition set_match (key : string) (v : Q) (s : Q * Q * Q) : Q * Q * Q :=
  let '(e, t, c) := s in
  if String.eqb key "eligibility_match" then (v, t, c)
  else if String.eqb key "technical_match" then (e, v, c)
  else if String.eqb key "compliance_match" then (e, t, v)
  else s.

(** The loop [for cat, data in by_category.items()] filling [summary];
    [None] is the [AttributeError] of [None.lower()]. *)
Fixpoint summary_loop (bc : list (option string * (list Q * nat * nat))) (s : Q * Q * Q)
  : option (Q * Q * Q) :=
  match bc with
  | [] => Some s
  | (None, _) :: _ => None
  | (Some cat, (sc, _, _)) :: r =>
      summary_loop r (match sc with
                      | [] => s
                      | _ => set_match (Py.lower cat ++ "_match") (avg sc) s
                      end)
  end.

(** [breakdown[key] = {'total', 'matched'}] for [key in breakdown]. *)
Definition set_bd (key : string) (v : nat * nat)
  (b : (nat * nat) * (nat * nat) * (nat * nat)) : (nat * nat) * (nat * nat) * (nat * nat) :=
  let '(e, t, c) := b in
  if String.eqb key "eligibility" then (v, t, c)
  else if String.eqb key "technical" then (e, v, c)
  else if String.eqb key "compliance" then (e, t, v)
  else b.

Record Summary := {
  eligibility_match : Q;
  technical_match : Q;
  compliance_match : Q;
  overall_match : Q
}.

(** The result: the summary and the breakdown [(total, matched)] of the
    eligibility, technical and compliance categories. *)
Definition calculate_summary (match_results : list MatchEntry)
  : option (Summary * ((nat * nat) * (nat * nat) * (nat * nat))) :=
  let bc := by_category match_results in
  match summary_loop bc (0%Q, 0%Q, 0%Q) with
  | None => None
  | Some (e, t, c) =>
      let active :=
        flat_map (fun '(name, v) =>
                    if existsb (opt_eqb (Some name)) (map fst bc) then [v] else [])
                 [("ELIGIBILITY", e); ("TECHNICAL", t); ("COMPLIANCE", c)] in
      let overall := match active with [] => 0%Q | _ => avg active end in
      let breakdown :=
        fold_left (fun b '(cat, (_, tot, m)) =>
                     match cat with
                     | Some cat => set_bd (Py.lower cat) (tot, m) b
                     | None => b
                     end)
                  bc ((0, 0), (0, 0), (0, 0)) in
      Some ({| eligibility_match := e; technical_match := t; compliance_match := c;
               overall_match := overall |}, breakdown)
  end.

(** Properties used to state the matcher's results: a search result taken
    from a stored item; a percentage in [0, 100]; the invariants of
    [by_category], of the summary triple and of the breakdown. *)
Definition from_item (items : list Item) (tenant : option string) (ranked : list (Q * Z))
  (r : MatchResult) : Prop :=
  exists idx it, In (score r, idx) ranked /\ nth_error items (Z.to_nat idx) = Some it
    /\ dict_get "id" it = Some (kb_item_id r) /\ dict_get "content" it = Some (content r)
    /\ tenant_excluded tenant it = false.

Definition in_pct (q : Q) : Prop := (0 <= q)%Q /\ (q <= 100)%Q.

Definition bc_ok (e : option string * (list Q * nat * nat)) : Prop :=
  let '(_, (sc, t, m)) := e in sc <> [] /\ Forall in_pct sc /\ m <= t.

Definition triple_ok (s : Q * Q * Q) : Prop :=
  let '(e, t, c) := s in in_pct e /\ in_pct t /\ in_pct c.

Definition bd_ok (b : (nat * nat) * (nat * nat) * (nat * nat)) : Prop :=
  let '((e1, e2), (t1, t2), (c1, c2)) := b in e2 <= e1 /\ t2 <= t1 /\ c2 <= c1.

End Matcher.

(* ================================================================= *)
(** ** The response composer ([composer.py]) *)

Module Composer.

Import Matcher.

Inductive Source := KNOWLEDGE_BASE | AI_GENERATED.

Record ProvenanceItem := {
  start : nat;
  end_ : nat;
  source : Source;
  prov_kb_item_id : option string
}.

Record ComposedResponse := {
  text : string;
  provenance : list ProvenanceItem;
  kb_percentage : Q;
  ai_percentage : Q
}.

(** The collaborators and settings the composer depends on:
    [settings.mistral_api_key] (its truthiness), [settings.max_ai_percentage],
    the LLM of [_refine_for_tender] (answer to the request of a given
    attempt, knowing the previous rejected text), and those of
    [humanize_text]. *)
Record Env := {
  henv : Humanizer.HEnv;
  rng : Humanizer.Rng;
  api_key : bool;
  max_ai_percentage : Q;
  refine_llm : nat -> option string -> Humanizer.LlmOut
}.

(** An entry of [kb_content]: [{'id', 'content', 'score'}]. *)
Record KbEntry := { e_id : string; e_content : string; e_score : Q }.

(** [_select_kb_content]: the first match, if its score exceeds 0.2. *)
Definition select_kb_content (matches : list MatchResult) : list KbEntry :=
  flat_map (fun m => if Detector.Qltb (2#10) (score m)
                     then [{| e_id := kb_item_id m; e_content := content m;
                              e_score := score m |}]
                     else [])
           (firstn 1 matches).

(** [re.split(r'(?<=[.!?])\s+', s)]: split at every maximal whitespace run
    that follows one of [.!?]. *)
Fixpoint split_sentences_acc (s : string) (prev : option ascii) (acc : list ascii)
  (in_run : bool) : list string :=
  match s with
  | EmptyString => [Py.of_rev acc]
  | String c s' =>
      if in_run && Py.is_space c then split_sentences_acc s' (Some c) acc true
      else if Py.is_space c
              && match prev with Some p => Py.mem_char p ".!?" | None => false end
      then Py.of_rev acc :: split_sentences_acc s' (Some c) [] true
      else split_sentences_acc s' (Some c) (c :: acc) false
  end.

Definition split_sentences (s : string) : list string :=
  split_sentences_acc s None [] false.

(** [s.split('.')[0]]: the text before the first period. *)
Fixpoint before_period (s : string) : string :=
  match s with
  | EmptyString => EmptyString
  | String c s' => if Ascii.eqb c "." then EmptyString else String c (before_period s')
  end.

Definition stopwords : list string :=
  ["the"; "a"; "an"; "of"; "in"; "to"; "for"; "and"; "or"; "be"; "is"; "are";
   "must"; "shall"; "should"; "have"; "has"; "with"].

(** [set(s.lower().split()) - stopwords]. *)
Definition word_set (s : string) : list string :=
  Detector.dedup (filter (fun w => negb (existsb (String.eqb w) stopwords))
                         (Py.split_ws (Py.lower s))).

Definition overlap (a b : list string) : nat :=
  length (filter (fun w => existsb (String.eqb w) b) a).

(** [list.sort(reverse=True, key=lambda x: x[0])]: stable, descending. *)
Fixpoint insert_desc (x : nat * string * string) (l : list (nat * string * string))
  : list (nat * string * string) :=
  match l with
  | [] => [x]
  | y :: r => if fst (fst y) <? fst (fst x) then x :: y :: r else y :: insert_desc x r
  end.

Definition sort_desc (l : list (nat * string * string)) : list (nat * string * string) :=
  fold_right insert_desc [] (rev l).

(** [_extract_relevant_content(requirement, kb_content)]. *)
Definition extract_relevant_content (requirement : string) (kb_content : list KbEntry)
  : string :=
  let req_words := word_set requirement in
  let scored :=
    flat_map (fun item =>
      flat_map (fun sentence =>
        if String.length sentence <? 20 then []
        else
          let ov := overlap req_words (word_set sentence) in
          if 1 <=? ov then [(ov, Py.strip sentence, e_id item)] else [])
        (split_sentences (e_content item)))
      kb_content in
  let selected := firstn 2 (sort_desc scored) in
  match selected with
  | [] => match kb_content with
          | item :: _ => (before_period (e_content item) ++ ".")%string
          | [] => EmptyString
          end
  | _ => Humanizer.join " " (map (fun x => snd (fst x)) selected)
  end.

(** The sort key of a scored sentence [(overlap, sentence, id)], and the
    order [scored_sentences.sort(reverse=True, key=lambda x: x[0])]
    produces. *)
Definition overlap_key (x : nat * string * string) : nat := fst (fst x).

Definition desc_overlap (a b : nat * string * string) : Prop :=
  overlap_key b <= overlap_key a.

(** [_generate_minimal_response]. *)
Definition minimal_text : string :=
  "Please refer to our company documentation for detailed information on this requirement.".

Definition generate_minimal_response (requirement : string) : ComposedResponse :=
  {| text := minimal_text;
     provenance := [{| start := 0; end_ := String.length minimal_text;
                       source := AI_GENERATED; prov_kb_item_id := None |}];
     kb_percentage := 0; ai_percentage := 100 |}.

(** [_compose_kb_only(kb_content, matches)]. *)
Fixpoint take_long_sentences (ss : list string) (sel : list string) : list string :=
  match ss with
  | [] => sel
  | s :: r =>
      let sel := if 20 <=? String.length s then sel ++ [Py.strip s] else sel in
      if 2 <=? length sel then sel else take_long_sentences r sel
  end.

Definition compose_kb_only (kb_content : list KbEntry) (matches : list MatchResult)
  : ComposedResponse :=
  match kb_content with
  | [] => {| text := "[Response pending - requires knowledge base content]";
             provenance := []; kb_percentage := 0; ai_percentage := 0 |}
  | best :: _ =>
      let response_text := Humanizer.join " "
                             (take_long_sentences (split_sentences (e_content best)) []) in
      let response_text := if String.eqb response_text EmptyString
                           then substring 0 200 (e_content best) else response_text in
      {| text := response_text;
         provenance := [{| start := 0; end_ := String.length response_text;
                           source := KNOWLEDGE_BASE; prov_kb_item_id := Some (e_id best) |}];
         kb_percentage := 100; ai_percentage := 0 |}
  end.

(** [_calculate_percentages(text, provenance)]. *)
Definition span_sum (src : Source) (prov : list ProvenanceItem) : nat :=
  Detector.sumn (map (fun p => end_ p - start p)
    (filter (fun p => match source p, src with
                      | KNOWLEDGE_BASE, KNOWLEDGE_BASE | AI_GENERATED, AI_GENERATED => true
                      | _, _ => false
                      end) prov)).

Definition calculate_percentages (t : string) (prov : list ProvenanceItem) : Q * Q :=
  let total_len := String.length t in
  if total_len =? 0 then (0%Q, 0%Q)
  else
    let n := Detector.Qofn total_len in
    ((Detector.Qofn (span_sum KNOWLEDGE_BASE prov) / n * 100)%Q,
     (Detector.Qofn (span_sum AI_GENERATED prov) / n * 100)%Q).

(** [self.replacements], applied with [re.sub(..., flags=re.IGNORECASE)]. *)
Definition replacements : list (string * string) :=
  [("utilize", "use"); ("leverage", "use"); ("facilitate", "help");
   ("implement", "set up"); ("furthermore", "also"); ("in order to", "to");
   ("it is important to note that", EmptyString);
   ("it should be noted that", EmptyString)].

(** [_humanize(composed, mode)]: the text is rewritten and re-scored; the
    provenance and [kb_percentage] are those of [composed], and
    [ai_percentage] becomes the new detector score. *)
Definition humanize (env : Env) (k : nat) (composed : ComposedResponse) (mode : string)
  : ComposedResponse * nat :=
  let '((humanized_text, _, new_score, _), k) :=
    Humanizer.humanize_text (henv env) (rng env) k (text composed) mode in
  let humanized_text :=
    fold_left (fun t '(p, r) => Lit.sub (Lit.plain_ci p) r t) replacements humanized_text in
  let humanized_text := Py.strip (Py.collapse_ws humanized_text) in
  ({| text := humanized_text; provenance := provenance composed;
      kb_percentage := kb_percentage composed; ai_percentage := new_score |}, k).

(** The attempt loop of [_refine_for_tender] ([range(10)]): [n] attempts
    left, [attempt] the current one, [current] the last rejected text. *)
Fixpoint refine_loop (env : Env) (mode : string) (n attempt : nat)
  (current : option string) (k : nat) : option ComposedResponse * nat :=
  match n with
  | 0 => (None, k)
  | S n' =>
      match refine_llm env attempt current with
      | Humanizer.LlmReply c =>
          let raw := Py.strip c in
          let temp := {| text := raw;
                         provenance := [{| start := 0; end_ := String.length raw;
                                           source := KNOWLEDGE_BASE;
                                           prov_kb_item_id := None |}];
                         kb_percentage := 50; ai_percentage := 100 |} in
          let '(humanized, k) := humanize env k temp mode in
          if Qle_bool (ai_percentage humanized) (max_ai_percentage env)
          then (Some humanized, k)
          else refine_loop env mode n' (S attempt) (Some (text humanized)) k
      | Humanizer.LlmStatus => (None, k)
      | Humanizer.LlmRaise => (None, k)
      end
  end.

(** [_refine_for_tender(requirement, kb_text, mode, tone)]. *)
Definition refine_for_tender (env : Env) (k : nat) (requirement kb_text mode tone : string)
  : option ComposedResponse * nat :=
  if negb (api_key env) then (None, k)
  else refine_loop env mode 10 0 None k.

(** [compose(requirement, matches, style, mode, tone)]; the draw counter
    of the random generator is threaded through. *)
Definition compose (env : Env) (k : nat) (requirement : string)
  (matches : list MatchResult) (style mode tone : string) : ComposedResponse * nat :=
  match matches with
  | [] => (generate_minimal_response requirement, k)
  | _ =>
    let kb_content := select_kb_content matches in
    match kb_content with
    | [] => (generate_minimal_response requirement, k)
    | best :: _ =>
      let relevant_text := extract_relevant_content requirement kb_content in
      let '(refined, k) :=
        if 30 <=? String.length relevant_text
        then refine_for_tender env k requirement relevant_text mode tone
        else (None, k) in
      match refined with
      | Some r => (r, k)
      | None =>
        if negb (String.eqb relevant_text EmptyString) && (20 <=? String.length relevant_text)
        then humanize env k
               {| text := relevant_text;
                  provenance := [{| start := 0; end_ := String.length relevant_text;
                                    source := KNOWLEDGE_BASE;
                                    prov_kb_item_id := Some (e_id best) |}];
                  kb_percentage := 100; ai_percentage := 0 |} mode
        else humanize env k (compose_kb_only kb_content matches) mode
      end
    end
  end.

(** [_compose_single(kb_item, requirement, max_tokens)]. *)
Definition compose_single (kb_item : KbEntry) : ComposedResponse :=
  let prov := [{| start := 0; end_ := String.length (e_content kb_item);
                  source := KNOWLEDGE_BASE; prov_kb_item_id := Some (e_id kb_item) |}] in
  let '(kb_pct, ai_pct) := calculate_percentages (e_content kb_item) prov in
  {| text := e_content kb_item; provenance := prov;
     kb_percentage := kb_pct; ai_percentage := ai_pct |}.

(** The loop of [_compose_with_connectors] over [enumerate(kb_content)];
    [gen before after max_tokens] is what [_generate_connector] returns
    (the LLM transition, or its fallback [Additionally,]). *)
Fixpoint connectors_loop (gen : string -> string -> Z -> string) (share : Z)
  (items : list KbEntry) (response_text : string) (prov : list ProvenanceItem)
  : string * list ProvenanceItem :=
  match items with
  | [] => (response_text, prov)
  | content :: rest =>
      let st := String.length response_text in
      let response_text := (response_text ++ e_content content)%string in
      let prov := prov ++ [{| start := st; end_ := String.length response_text;
                              source := KNOWLEDGE_BASE;
                              prov_kb_item_id := Some (e_id content) |}] in
      match rest with
      | [] => (response_text, prov)
      | nxt :: _ =>
          let connector := gen (e_content content) (e_content nxt) share in
          if String.eqb connector EmptyString
          then connectors_loop gen share rest response_text prov
          else
            let st := String.length response_text in
            let response_text := (response_text ++ " " ++ connector ++ " ")%string in
            connectors_loop gen share rest response_text
              (prov ++ [{| start := st; end_ := String.length response_text;
                           source := AI_GENERATED; prov_kb_item_id := None |}])
      end
  end.

(** [_compose_with_connectors(requirement, kb_content, max_tokens, style)]. *)
Definition compose_with_connectors (gen : string -> string -> Z -> string)
  (requirement : string) (kb_content : list KbEntry) (max_tokens : Z) (style : string)
  : ComposedResponse :=
  match kb_content with
  | [item] => compose_single item
  | _ =>
      let share := (max_tokens / Z.of_nat (length kb_content))%Z in
      let '(response_text, prov) := connectors_loop gen share kb_content EmptyString [] in
      let '(kb_pct, ai_pct) := calculate_percentages response_text prov in
      {| text := response_text; provenance := prov;
         kb_percentage := kb_pct; ai_percentage := ai_pct |}
  end.

(** Provenance spans that, in order, tile [[a, b)]: each span starts where
    the previous one ended; [Some b] is the end of the last one. *)
Fixpoint tiles (a : nat) (prov : list ProvenanceItem) : option nat :=
  match prov with
  | [] => Some a
  | p :: r => if (start p =? a) && (start p <=? end_ p) then tiles (end_ p) r else None
  end.

(** The length [end - start] of a span, and whether it is knowledge-base text. *)
Definition span_len (p : ProvenanceItem) : nat := end_ p - start p.

Definition is_kb (p : ProvenanceItem) : bool :=
  match source p with KNOWLEDGE_BASE => true | AI_GENERATED => false end.

End Composer.

(* ================================================================= *)
(** ** The requirement extractor ([extractor.py]) *)

Module Extractor.

Inductive RequirementCategory := ELIGIBILITY | TECHNICAL | COMPLIANCE.

(** [RequirementCategory(value)]; [None] is the [ValueError] it raises. *)
Definition category_of_string (s : string) : option RequirementCategory :=
  if String.eqb s "ELIGIBILITY" then Some ELIGIBILITY
  else if String.eqb s "TECHNICAL" then Some TECHNICAL
  else if String.eqb s "COMPLIANCE" then Some COMPLIANCE
  else None.

Record ExtractedRequirement := {
  r_text : string;
  category : RequirementCategory;
  subcategory : option string;
  confidence : Q;
  page_number : option Z;
  order : nat
}.

(** A page [{'page_num', 'content'}]. *)
Record Page := { page_num : option Z; page_content : string }.

(** [_find_page_number(sentence, pages)]. *)
Definition find_page_number (sentence : string) (pages : list Page) : option Z :=
  let needle := substring 0 50 (Py.lower sentence) in
  match find (fun p => Lit.search (Lit.plain needle) (Py.lower (page_content p))) pages with
  | Some p => page_num p
  | None => None
  end.

Definition page_of (sentence : string) (pages : list Page) : option Z :=
  match pages with [] => None | _ => find_page_number sentence pages end.

(** An element of the JSON list returned by the LLM:
    [item.get("text", "")], [item.get("category", "TECHNICAL")] and
    [item.get("subcategory")]; [None] is an absent key. *)
Record LlmItem := {
  li_text : option string;
  li_category : option string;
  li_subcategory : option string
}.

(** Result of the extraction request: the item list ([parsed_data] itself
    or its ["requirements"] entry), or a failure (non-200 status,
    exception, malformed JSON). *)
Inductive LlmExtraction := XItems (items : list LlmItem) | XFail.

(** The loop of [_extract_llm] over [enumerate(items)]; a category that is
    not a [RequirementCategory] raises, and the exception handler returns
    [[]]. *)
Fixpoint llm_items_loop (pages : list Page) (i : nat) (items : list LlmItem)
  (extracted : list ExtractedRequirement) : option (list ExtractedRequirement) :=
  match items with
  | [] => Some extracted
  | item :: rest =>
      let best_text := match li_text item with Some t => t | None => EmptyString end in
      if String.eqb best_text EmptyString then llm_items_loop pages (S i) rest extracted
      else
        let cat := match li_category item with Some c => c | None => "TECHNICAL" end in
        match category_of_string cat with
        | None => None
        | Some c =>
            llm_items_loop pages (S i) rest
              (extracted ++ [{| r_text := best_text; category := c;
                                subcategory := li_subcategory item;
                                confidence := 95#100;
                                page_number := page_of best_text pages;
                                order := i |}])
        end
  end.

Definition extract_llm (reply : LlmExtraction) (pages : list Page)
  : list ExtractedRequirement :=
  match reply with
  | XItems items => match llm_items_loop pages 0 items [] with
                    | Some l => l
                    | None => []
                    end
  | XFail => []
  end.

(** What the loop of [_extract_llm] records for an accepted item of the
    list [all]: confidence 0.95, a non-empty text, [order] the index of an
    item with that text, and the page found for that text. *)
Definition llm_good (all : list LlmItem) (pages : list Page) (r : ExtractedRequirement)
  : Prop :=
  confidence r = 95#100 /\ r_text r <> EmptyString
  /\ (exists it, nth_error all (order r) = Some it /\ li_text it = Some (r_text r))
  /\ page_number r = page_of (r_text r) pages.

(** The collaborators of [extract]: [langdetect.detect] on [text[:2000]]
    ([None] when it raises), the truthiness of [settings.mistral_api_key]
    and the LLM extraction request for a text and a language. *)
Record Env := {
  detect : string -> option string;
  mistral_key : bool;
  llm_extract : string -> string -> LlmExtraction
}.

Section RuleBased.

(** The regex stages of the rule-based path: [_split_sentences],
    [_is_requirement] and [_categorize].  The bookkeeping of [extract]
    (length and duplicate filter, [order] counter, the cap of 50) is
    modelled for every choice of them. *)
Variable split_sentences : string -> list string.
Variable is_requirement : string -> bool.
Variable categorize : string -> RequirementCategory * Q * option string.

Fixpoint rule_loop (pages : list Page) (ss : list string) (seen : list string)
  (order : nat) (requirements : list ExtractedRequirement)
  : list ExtractedRequirement :=
  match ss with
  | [] => requirements
  | s :: rest =>
      let sentence := Py.strip s in
      if (String.length sentence <? 20)
         || existsb (String.eqb (Py.lower sentence)) seen
         || negb (is_requirement sentence)
      then rule_loop pages rest seen order requirements
      else
        let '(cat, conf, sub) := categorize sentence in
        let requirements' :=
          requirements ++ [{| r_text := sentence; category := cat; subcategory := sub;
                              confidence := conf; page_number := page_of sentence pages;
                              order := order |}] in
        if 50 <=? S order then requirements'
        else rule_loop pages rest (Py.lower sentence :: seen) (S order) requirements'
  end.

(** What the rule-based path checks of an accepted sentence. *)
Definition rule_good (r : ExtractedRequirement) : Prop :=
  20 <= String.length (r_text r) /\ is_requirement (r_text r) = true.

(** [extract(text, pages)]. *)
Definition extract (env : Env) (text : string) (pages : list Page)
  : list ExtractedRequirement :=
  let lang := match detect env (substring 0 2000 text) with
              | Some l => l | None => "en" end in
  if negb (String.eqb lang "en") && mistral_key env
  then extract_llm (llm_extract env text lang) pages
  else
    let requirements := rule_loop pages (split_sentences text) [] 0 [] in
    match requirements with
    | [] => if String.eqb lang "hi" && mistral_key env
            then extract_llm (llm_extract env text lang) pages
            else []
    | _ => requirements
    end.

End RuleBased.

End Extractor.

(* ================================================================= *)
(** ** Concrete configurations used by the theorems below *)

Module Fixtures.

(** A deployment without an LLM key: language detection answers English,
    LLM requests raise, and every random draw is 0, so no
    [random.random() > 0.3] test of [add_contractions] passes.  The texts
    below contain no word of [SYNONYMS] and no paraphrased phrase, so no
    other draw is made. *)
Definition no_llm_env : Composer.Env := {|
  Composer.henv := {| Humanizer.detect := fun _ => Some "en";
                      Humanizer.humanize_llm := fun _ => Humanizer.LlmRaise |};
  Composer.rng := {| Humanizer.rnd := fun _ => 0%Q; Humanizer.pick := fun _ _ => 0 |};
  Composer.api_key := false;
  Composer.max_ai_percentage := 30;
  Composer.refine_llm := fun _ _ => Humanizer.LlmRaise
|}.

Definition kb_match (c : string) : Matcher.MatchResult :=
  {| Matcher.kb_item_id := "kb-1"; Matcher.content := c;
     Matcher.score := 9#10; Matcher.rank := 1 |}.

(** Knowledge-base content with two equally long sentences. *)
Definition uniform_kb : string :=
  "We hold ISO certification today. We hold ISO certification now.".

(** Knowledge-base content with a doubled space inside its sentence. *)
Definition spaced_kb : string := "We hold ISO  certification today.".

(** An extraction run on Hindi text with an LLM key, whose LLM reply has an
    item with an empty text before a valid one. *)
Definition hindi_llm_env : Extractor.Env := {|
  Extractor.detect := fun _ => Some "hi";
  Extractor.mistral_key := true;
  Extractor.llm_extract := fun _ _ =>
    Extractor.XItems
      [{| Extractor.li_text := Some EmptyString; Extractor.li_category := Some "TECHNICAL";
          Extractor.li_subcategory := None |};
       {| Extractor.li_text := Some "The bidder must submit an ISO certificate.";
          Extractor.li_category := Some "COMPLIANCE";
          Extractor.li_subcategory := Some "Documentation" |}]
|}.

(** A matcher with an item of tenant [acme] and an item without tenant,
    built by [add_item] from the empty index; the embedding is irrelevant
    to [search] once the index ranking is given, so it is [unit]. *)
Definition empty_matcher {V : Type} : Matcher.State V :=
  {| Matcher.index := []; Matcher.kb_items := []; Matcher.id_to_index := [] |}.

Definition two_tenant_matcher : Matcher.State unit :=
  Matcher.add_item unit (fun _ => tt)
    (Matcher.add_item unit (fun _ => tt) empty_matcher "kb-a" "Alpha content"
       [("tenant_id", "acme")])
    "kb-b" "Beta content" [].

(** The index ranking of a query: item 0 then item 1. *)
Definition two_hits : list (Q * Z) := [(9#10, 0%Z); (8#10, 1%Z)].

End Fixtures.

(* ================================================================= *)
(** ** Theorems *)

Import Composer.

(** Python's [round] to an integer, applied to the two percentages. *)
Definition round_pct (q : Q) : Z := Detector.round_half_even q.

(** Sum of the provenance span lengths [end - start]. *)
Definition span_total (r : ComposedResponse) : nat :=
  Detector.sumn (map (fun p => end_ p - start p) (provenance r)).

(** C1 (code_bug).  Without an LLM key, [compose] takes the excerpt path:
    [_humanize] keeps [kb_percentage = 100] and sets [ai_percentage] to the
    detector score 40 of the excerpt, so the rounded percentages of this
    non-empty response add up to 140, not 100. *)
Theorem compose_kb_plus_ai_not_100 :
  let r := fst (compose Fixtures.no_llm_env 0 "ISO certification"
                  [Fixtures.kb_match Fixtures.uniform_kb]
                  "professional" "balanced" "professional") in
  text r = Fixtures.uniform_kb
  /\ round_pct (kb_percentage r) = 100%Z
  /\ round_pct (ai_percentage r) = 40%Z
  /\ (round_pct (kb_percentage r) + round_pct (ai_percentage r))%Z = 140%Z.
Proof. vm_compute. repeat split. Qed.

(** C2 (code_bug).  [_humanize] collapses the doubled space of the excerpt
    but returns the provenance computed on the excerpt before rewriting:
    the span covers 33 characters of a 32-character text. *)
Theorem compose_provenance_exceeds_text :
  let r := fst (compose Fixtures.no_llm_env 0 "ISO certification"
                  [Fixtures.kb_match Fixtures.spaced_kb]
                  "professional" "balanced" "professional") in
  text r = "We hold ISO certification today."
  /\ String.length (text r) = 32
  /\ span_total r = 33
  /\ String.length (text r) < span_total r.
Proof. vm_compute. repeat split; lia. Qed.

(** C3 (code_bug).  The word patterns of [remove_ai_markers] end in a
    literal backslash followed by [b] instead of a word boundary, so the
    standalone buzzword [delve] is left in place (and nothing is counted). *)
Theorem remove_ai_markers_keeps_delve :
  Humanizer.remove_ai_markers "We delve into the tender terms." =
  ("We delve into the tender terms.", 0).
Proof. vm_compute. reflexivity. Qed.

(** C5.  With an empty match list, [compose] returns the fixed minimal
    response: non-empty text, [ai_percentage = 100], [kb_percentage = 0], and
    one [AI_GENERATED] span covering the whole text. *)
Theorem compose_no_matches_minimal :
  forall env k requirement style mode tone,
    let r := fst (compose env k requirement [] style mode tone) in
    text r <> EmptyString
    /\ ai_percentage r = 100%Q
    /\ kb_percentage r = 0%Q
    /\ provenance r = [{| start := 0; end_ := String.length (text r);
                          source := AI_GENERATED; prov_kb_item_id := None |}].
Proof.
  intros env k requirement style mode tone r.
  subst r; simpl.
  repeat split; discriminate.
Qed.

(** C7 (code_bug).  On the LLM path [order] is the item's index in the
    LLM's list, so an item skipped for its empty text leaves a gap: the
    only requirement returned has [order = 1]. *)
Theorem extract_llm_order_starts_at_1 :
  forall split_sentences is_requirement categorize text pages,
    map Extractor.order
      (Extractor.extract split_sentences is_requirement categorize
         Fixtures.hindi_llm_env text pages) = [1].
Proof. intros. reflexivity. Qed.

(** C8.  The spec's uniform text scores 64 (> 40), tagged as very uniform
    and with a repetitive starter. *)
Theorem uniform_text_score :
  let '(sc, tags) :=
    Detector.calculate_ai_score "This is good. This is fine. This is nice. This is great." in
  (40 < sc)%Q /\ In "very_uniform_sentences" tags /\ In "repetitive_starter:this" tags.
Proof. vm_compute. split; [reflexivity | split; auto 6]. Qed.

(** *** Bounds of the detector score *)

Module DetectorFacts.

Import Detector.
Local Open Scope Q_scope.

Lemma round_half_even_cases (q : Q) :
  round_half_even q = Qfloor q
  \/ (round_half_even q = (Qfloor q + 1)%Z /\ inject_Z (Qfloor q) < q).
Proof.
  unfold round_half_even, Qltb.
  destruct (Qle_bool (1#2) (q - inject_Z (Qfloor q))) eqn:E1; simpl.
  - apply Qle_bool_iff in E1.
    assert (Hlt : inject_Z (Qfloor q) < q) by lra.
    destruct (Qle_bool (q - inject_Z (Qfloor q)) (1#2)); simpl;
      [destruct (Z.even (Qfloor q)) |]; auto.
  - left; reflexivity.
Qed.

Lemma round2_bounds (q : Q) : 0 <= q -> q <= 100 -> 0 <= round2 q /\ round2 q <= 100.
Proof.
  intros H0 H1.
  assert (Hlo : (0 <= Qfloor (q * 100))%Z).
  { change 0%Z with (Qfloor 0). apply Qfloor_resp_le. lra. }
  assert (Hhi : (Qfloor (q * 100) <= 10000)%Z).
  { change 10000%Z with (Qfloor 10000). apply Qfloor_resp_le. lra. }
  assert (Hz : (0 <= round_half_even (q * 100) <= 10000)%Z).
  { destruct (round_half_even_cases (q * 100)) as [-> | [-> Hlt]]; [lia |].
    assert (Hlt' : inject_Z (Qfloor (q * 100)) < inject_Z 10000) by
      (unfold inject_Z at 2; lra).
    rewrite <- Zlt_Qlt in Hlt'. lia. }
  unfold round2, Qle; simpl; split; lia.
Qed.

Lemma Qmin_bounds (x : Q) : 0 <= x -> 0 <= Qmin x 100 /\ Qmin x 100 <= 100.
Proof.
  intros H. unfold Qmin.
  destruct (Qle_bool x 100) eqn:E.
  - apply Qle_bool_iff in E. split; assumption.
  - split; lra.
Qed.

Lemma Qofn_nonneg (n : nat) : 0 <= Qofn n.
Proof.
  unfold Qofn. change 0 with (inject_Z 0). rewrite <- Zle_Qle. lia.
Qed.

Lemma score_bounds (text : string) :
  0 <= fst (calculate_ai_score text) /\ fst (calculate_ai_score text) <= 100.
Proof.
  unfold calculate_ai_score; cbv zeta.
  destruct (length (Py.split_ws text) <? 5); [simpl; lra |].
  destruct (burstiness _) as [b tb].
  destruct (lexical _) as [l tl].
  destruct (formality _ _ _) as [f tf].
  destruct (starter_signal _) as [s ts].
  destruct (phrase_signal _) as [p tp].
  destruct (buzzword_signal _) as [z tz].
  pose proof (Qofn_nonneg (b + l + f + s + p + z)) as Hn.
  simpl fst.
  destruct (length (Py.split_ws text) <? 50);
    [| destruct (length (Py.split_ws text) <? 100)];
    apply round2_bounds; apply Qmin_bounds;
    try (apply Qmult_le_0_compat; [exact Hn | lra]); exact Hn.
Qed.

End DetectorFacts.

(** *** Search results *)

Module SearchFacts.

Import Matcher.

Lemma search_loop_spec (items : list Item) (top_k : Z) (min_score : Q)
  (tenant : option string) (hits : list (Q * Z)) :
  forall results rs,
    search_loop items top_k min_score tenant hits results = Some rs ->
    (Z.of_nat (length results) < top_k)%Z ->
    Forall (fun r => Qle min_score (score r)) results ->
    map rank results = seq 1 (length results) ->
    (Z.of_nat (length rs) <= top_k)%Z
    /\ Forall (fun r => Qle min_score (score r)) rs
    /\ map rank rs = seq 1 (length rs).
Proof.
  induction hits as [| [sc idx] rest IH]; intros results rs Hrun Hlen Hsc Hrk.
  - simpl in Hrun. injection Hrun as <-. repeat split; auto; lia.
  - simpl in Hrun.
    destruct ((idx <? 0)%Z || (Z.of_nat (length items) <=? idx)%Z
              || Detector.Qltb sc min_score) eqn:Eskip;
      [eapply IH; eauto |].
    apply orb_false_iff in Eskip as [_ Esc].
    unfold Detector.Qltb in Esc. apply negb_false_iff, Qle_bool_iff in Esc.
    destruct (nth_error items (Z.to_nat idx)) as [it |]; [| eapply IH; eauto].
    destruct (tenant_excluded tenant it); [eapply IH; eauto |].
    destruct (dict_get "id" it) as [i |]; [| discriminate].
    destruct (dict_get "content" it) as [c |]; [| discriminate].
    cbv zeta in Hrun.
    set (r := {| kb_item_id := i; content := c; score := sc; rank := length results + 1 |})
      in Hrun.
    assert (Hsc' : Forall (fun r => Qle min_score (score r)) (results ++ [r])).
    { apply Forall_app; split; [exact Hsc | constructor; [exact Esc | constructor]]. }
    assert (Hrk' : map rank (results ++ [r]) = seq 1 (length (results ++ [r]))).
    { rewrite map_app, Hrk, length_app; simpl.
      rewrite Nat.add_1_r, seq_S. reflexivity. }
    assert (Hlen' : (Z.of_nat (length (results ++ [r])) <= top_k)%Z).
    { rewrite length_app; simpl. lia. }
    destruct (top_k <=? Z.of_nat (length (results ++ [r])))%Z eqn:Ek.
    + injection Hrun as <-. auto.
    + apply Z.leb_gt in Ek. eapply IH; eauto.
Qed.

End SearchFacts.

(** *** Alignment of the index with the item list *)

Module AlignFacts.

Import Matcher.

Lemma dict_get_set_other (k k' v : string) (d : Item) :
  String.eqb k k' = false -> dict_get k (dict_set k' v d) = dict_get k d.
Proof.
  intros Hne. induction d as [| [k0 v0] r IH]; simpl.
  - rewrite Hne. reflexivity.
  - destruct (String.eqb k' k0) eqn:E1; simpl.
    + apply String.eqb_eq in E1; subst k0. rewrite Hne. reflexivity.
    + destruct (String.eqb k k0); [reflexivity | exact IH].
Qed.


End AlignFacts.

(** *** Claim theorems on the detector and the matcher *)

(** C9.  [calculate_ai_score] is a function of the text alone: the model
    takes no random source and no collaborator (unlike [humanize_text]),
    so two calls on one text give the same score and tags; the score lies
    in [0, 100]. *)
Theorem calculate_ai_score_deterministic_bounded :
  forall text,
    let r1 := Detector.calculate_ai_score text in
    let r2 := Detector.calculate_ai_score text in
    fst r1 = fst r2 /\ snd r1 = snd r2
    /\ (0 <= fst r1)%Q /\ (fst r1 <= 100)%Q.
Proof.
  intros text r1 r2.
  destruct (DetectorFacts.score_bounds text) as [H0 H1].
  repeat split; assumption.
Qed.

(** C4 (counterexample).  With [top_k = -1] on an empty index, [search]
    returns [[]]: zero results, which is more than [top_k]. *)
Lemma search_negative_top_k_empty_index :
  Matcher.search (@Fixtures.empty_matcher unit) (-1)%Z 0%Q None [] = Some []
  /\ ~ (Z.of_nat (length (@nil Matcher.MatchResult)) <= -1)%Z.
Proof. split; [reflexivity | simpl; lia]. Qed.

(** C4 (amended).  For [top_k >= 0], every list returned by [search] has
    at most [top_k] results, each scoring at least [min_score], ranked
    1, 2, ..., n in order. *)
Theorem search_results_bounded_ranked :
  forall (V : Type) (st : Matcher.State V) (top_k : Z) (min_score : Q)
         (tenant_id : option string) (ranked : list (Q * Z)) rs,
    (0 <= top_k)%Z ->
    Matcher.search st top_k min_score tenant_id ranked = Some rs ->
    (Z.of_nat (length rs) <= top_k)%Z
    /\ Forall (fun r => Qle min_score (Matcher.score r)) rs
    /\ map Matcher.rank rs = seq 1 (length rs).
Proof.
  intros V st top_k min_score tenant_id ranked rs Hk Hrun.
  unfold Matcher.search in Hrun.
  destruct (Z.of_nat (length (Matcher.index st)) =? 0)%Z.
  - injection Hrun as <-. repeat split; auto; simpl; lia.
  - destruct (Z.min _ _ <=? 0)%Z eqn:Ek; [discriminate |].
    apply Z.leb_gt in Ek.
    eapply SearchFacts.search_loop_spec; [exact Hrun | | constructor | reflexivity].
    simpl. destruct (Matcher.truthy tenant_id); lia.
Qed.

Lemma search_results_bounded_ranked_witness :
  (0 <= 5)%Z /\
  Matcher.search Fixtures.two_tenant_matcher 5%Z 0%Q None Fixtures.two_hits
    = Some [{| Matcher.kb_item_id := "kb-a"; Matcher.content := "Alpha content";
               Matcher.score := 9#10; Matcher.rank := 1 |};
            {| Matcher.kb_item_id := "kb-b"; Matcher.content := "Beta content";
               Matcher.score := 8#10; Matcher.rank := 2 |}] /\
  (Z.of_nat 2 <= 5)%Z
  /\ Forall (fun r => Qle 0 (Matcher.score r))
       [{| Matcher.kb_item_id := "kb-a"; Matcher.content := "Alpha content";
           Matcher.score := 9#10; Matcher.rank := 1 |};
        {| Matcher.kb_item_id := "kb-b"; Matcher.content := "Beta content";
           Matcher.score := 8#10; Matcher.rank := 2 |}]
  /\ map Matcher.rank
       [{| Matcher.kb_item_id := "kb-a"; Matcher.content := "Alpha content";
           Matcher.score := 9#10; Matcher.rank := 1 |};
        {| Matcher.kb_item_id := "kb-b"; Matcher.content := "Beta content";
           Matcher.score := 8#10; Matcher.rank := 2 |}] = seq 1 2.
Proof.
  assert (Hrun : Matcher.search Fixtures.two_tenant_matcher 5%Z 0%Q None Fixtures.two_hits
    = Some [{| Matcher.kb_item_id := "kb-a"; Matcher.content := "Alpha content";
               Matcher.score := 9#10; Matcher.rank := 1 |};
            {| Matcher.kb_item_id := "kb-b"; Matcher.content := "Beta content";
               Matcher.score := 8#10; Matcher.rank := 2 |}]) by reflexivity.
  split; [lia |]. split; [exact Hrun |].
  exact (search_results_bounded_ranked unit Fixtures.two_tenant_matcher 5%Z 0%Q None
           Fixtures.two_hits _ ltac:(lia) Hrun).
Defined.


(** C10.  The tenant test of [search] excludes an item exactly when the
    caller gives a non-empty [tenant_id] and the item has a non-empty
    [tenant_id] that differs from it.  Hence an item without [tenant_id]
    is returned to every tenant, and a caller without [tenant_id] gets the
    items of any tenant, as on the two-item index below. *)
Theorem search_tenant_filter_semantics :
  (forall tenant_id it,
     Matcher.tenant_excluded tenant_id it = true <->
     Matcher.truthy tenant_id = true
     /\ Matcher.truthy (Matcher.dict_get "tenant_id" it) = true
     /\ Matcher.dict_get "tenant_id" it <> tenant_id)
  /\ Matcher.search Fixtures.two_tenant_matcher 5%Z 0%Q None Fixtures.two_hits
     = Some [{| Matcher.kb_item_id := "kb-a"; Matcher.content := "Alpha content";
                Matcher.score := 9#10; Matcher.rank := 1 |};
             {| Matcher.kb_item_id := "kb-b"; Matcher.content := "Beta content";
                Matcher.score := 8#10; Matcher.rank := 2 |}]
  /\ Matcher.search Fixtures.two_tenant_matcher 5%Z 0%Q (Some "other") Fixtures.two_hits
     = Some [{| Matcher.kb_item_id := "kb-b"; Matcher.content := "Beta content";
                Matcher.score := 8#10; Matcher.rank := 1 |}].
Proof.
  split; [| split; reflexivity].
  intros tenant_id it. unfold Matcher.tenant_excluded.
  destruct tenant_id as [t |]; simpl; [| split; [discriminate | intros [H _]; discriminate H]].
  destruct (Matcher.dict_get "tenant_id" it) as [s |]; simpl;
    [| rewrite andb_false_r; split; [discriminate | intros [_ [H _]]; discriminate H]].
  destruct (String.eqb_spec s t) as [-> | Hne]; simpl.
  - rewrite !andb_false_r. split; [discriminate |].
    intros [_ [_ H]]. exfalso. apply H. reflexivity.
  - rewrite andb_true_r. split.
    + intros H. apply andb_true_iff in H as [H1 H2].
      repeat split; auto. intros E. injection E as E. contradiction.
    + intros [H1 [H2 _]]. rewrite H1, H2. reflexivity.
Qed.

(* ================================================================= *)
(** ** Further properties of the services *)

(** *** Provenance and percentages *)

Module ComposerFacts.

Import Composer.

Lemma str_length_app (s1 s2 : string) :
  String.length (s1 ++ s2) = String.length s1 + String.length s2.
Proof. induction s1 as [| c s1 IH]; simpl; [reflexivity | rewrite IH; reflexivity]. Qed.

Lemma sumn_app (l1 l2 : list nat) :
  Detector.sumn (l1 ++ l2) = Detector.sumn l1 + Detector.sumn l2.
Proof. induction l1 as [| x l1 IH]; simpl; [reflexivity | rewrite IH; lia]. Qed.

Lemma span_sum_split (prov : list ProvenanceItem) :
  span_sum KNOWLEDGE_BASE prov + span_sum AI_GENERATED prov
  = Detector.sumn (map span_len prov).
Proof.
  unfold span_sum.
  induction prov as [| p r IH]; [reflexivity |].
  simpl. destruct (source p); simpl; unfold span_len in *; lia.
Qed.

Lemma Qofn_add (a b : nat) :
  Detector.Qofn (a + b) == Detector.Qofn a + Detector.Qofn b.
Proof. unfold Detector.Qofn. rewrite Nat2Z.inj_add, inject_Z_plus. reflexivity. Qed.

Lemma Qofn_pos (n : nat) : 0 < n -> ~ Detector.Qofn n == 0.
Proof.
  intros Hn E. unfold Detector.Qofn, Qeq in E. simpl in E. lia.
Qed.

Lemma percentages_total (t : string) (prov : list ProvenanceItem) :
  fst (calculate_percentages t prov) + snd (calculate_percentages t prov)
  == (if String.length t =? 0 then 0
      else Detector.Qofn (Detector.sumn (map span_len prov))
           / Detector.Qofn (String.length t) * 100)%Q.
Proof.
  unfold calculate_percentages.
  destruct (String.length t =? 0) eqn:E; simpl; [reflexivity |].
  apply Nat.eqb_neq in E.
  rewrite <- span_sum_split, Qofn_add.
  pose proof (Qofn_pos (String.length t) ltac:(lia)) as Hn.
  field. exact Hn.
Qed.

Lemma tiles_app (a : nat) (l : list ProvenanceItem) (p : ProvenanceItem) :
  tiles a (l ++ [p]) =
  match tiles a l with
  | Some b => if (start p =? b) && (start p <=? end_ p) then Some (end_ p) else None
  | None => None
  end.
Proof.
  revert a. induction l as [| q r IH]; intros a; simpl; [reflexivity |].
  destruct ((start q =? a) && (start q <=? end_ q)); [apply IH | reflexivity].
Qed.

Lemma tiles_sum (prov : list ProvenanceItem) :
  forall a b, tiles a prov = Some b ->
  a <= b /\ Detector.sumn (map span_len prov) = b - a.
Proof.
  induction prov as [| p r IH]; intros a b H; simpl in H.
  - injection H as <-. simpl. lia.
  - destruct ((start p =? a) && (start p <=? end_ p)) eqn:E; [| discriminate].
    apply andb_true_iff in E as [E1 E2].
    apply Nat.eqb_eq in E1. apply Nat.leb_le in E2.
    destruct (IH _ _ H) as [H1 H2]. simpl. unfold span_len at 1. lia.
Qed.

Lemma connectors_loop_spec (gen : string -> string -> Z -> string) (share : Z)
  (items : list KbEntry) :
  forall response_text prov,
    tiles 0 prov = Some (String.length response_text) ->
    let '(t, prov') := connectors_loop gen share items response_text prov in
    tiles 0 prov' = Some (String.length t)
    /\ map prov_kb_item_id (filter is_kb prov')
       = map prov_kb_item_id (filter is_kb prov) ++ map (fun e => Some (e_id e)) items.
Proof.
  induction items as [| it rest IH]; intros response_text prov Ht.
  - simpl. rewrite app_nil_r. split; [exact Ht | reflexivity].
  - cbn [connectors_loop].
    set (t1 := (response_text ++ e_content it)%string).
    set (p1 := {| start := String.length response_text; end_ := String.length t1;
                  source := KNOWLEDGE_BASE; prov_kb_item_id := Some (e_id it) |}).
    assert (Ht1 : tiles 0 (prov ++ [p1]) = Some (String.length t1)).
    { rewrite tiles_app, Ht. simpl. rewrite Nat.eqb_refl. simpl.
      unfold t1. rewrite str_length_app.
      replace (String.length response_text <=? String.length response_text
                                                + String.length (e_content it))
        with true by (symmetry; apply Nat.leb_le; lia).
      reflexivity. }
    assert (Hk1 : map prov_kb_item_id (filter is_kb (prov ++ [p1]))
                  = map prov_kb_item_id (filter is_kb prov) ++ [Some (e_id it)]).
    { rewrite filter_app, map_app. reflexivity. }
    destruct rest as [| nxt rest'].
    + split; [exact Ht1 | rewrite Hk1; reflexivity].
    + destruct (String.eqb (gen (e_content it) (e_content nxt) share) EmptyString).
      * specialize (IH t1 (prov ++ [p1]) Ht1).
        destruct (connectors_loop gen share (nxt :: rest') t1 (prov ++ [p1])) as [t' pr'].
        destruct IH as [IH1 IH2]. split; [exact IH1 |].
        rewrite IH2, Hk1, <- app_assoc. reflexivity.
      * set (c := gen (e_content it) (e_content nxt) share).
        set (t2 := (t1 ++ " " ++ c ++ " ")%string).
        set (p2 := {| start := String.length t1; end_ := String.length t2;
                      source := AI_GENERATED; prov_kb_item_id := None |}).
        assert (Ht2 : tiles 0 ((prov ++ [p1]) ++ [p2]) = Some (String.length t2)).
        { rewrite tiles_app, Ht1. simpl. rewrite Nat.eqb_refl. simpl.
          unfold t2. rewrite str_length_app.
          replace (String.length t1 <=? String.length t1
                                        + String.length (" " ++ c ++ " "))
            with true by (symmetry; apply Nat.leb_le; lia).
          reflexivity. }
        specialize (IH t2 ((prov ++ [p1]) ++ [p2]) Ht2).
        destruct (connectors_loop gen share (nxt :: rest') t2 ((prov ++ [p1]) ++ [p2]))
          as [t' pr'].
        destruct IH as [IH1 IH2]. split; [exact IH1 |].
        rewrite IH2, filter_app, map_app, Hk1. simpl. rewrite app_nil_r, <- app_assoc.
        reflexivity.
Qed.

Lemma pct_in_range (a n : nat) :
  0 < n -> a <= n ->
  (0 <= Detector.Qofn a / Detector.Qofn n * 100)%Q
  /\ (Detector.Qofn a / Detector.Qofn n * 100 <= 100)%Q.
Proof.
  intros Hn Ha.
  assert (Hn' : (0 < Detector.Qofn n)%Q).
  { unfold Detector.Qofn. change 0%Q with (inject_Z 0). rewrite <- Zlt_Qlt. lia. }
  assert (H0 : (0 <= Detector.Qofn a / Detector.Qofn n)%Q).
  { apply Qle_shift_div_l; [exact Hn' |].
    unfold Detector.Qofn. rewrite Qmult_0_l. change 0%Q with (inject_Z 0).
    rewrite <- Zle_Qle. lia. }
  assert (H1 : (Detector.Qofn a / Detector.Qofn n <= 1)%Q).
  { apply Qle_shift_div_r; [exact Hn' |]. rewrite Qmult_1_l.
    unfold Detector.Qofn. rewrite <- Zle_Qle. lia. }
  split; lra.
Qed.

Lemma span_sum_other (src other : Source) (prov : list ProvenanceItem) :
  src <> other -> Forall (fun p => source p = src) prov -> span_sum other prov = 0.
Proof.
  intros Hne Hall. unfold span_sum.
  induction Hall as [| p r Hp _ IH]; [reflexivity |].
  simpl. rewrite Hp.
  destruct src, other; try (exfalso; apply Hne; reflexivity); exact IH.
Qed.

Lemma percentages_in_range (t : string) (prov : list ProvenanceItem) :
  tiles 0 prov = Some (String.length t) ->
  (0 <= fst (calculate_percentages t prov) <= 100)%Q
  /\ (0 <= snd (calculate_percentages t prov) <= 100)%Q
  /\ (String.length t = 0 ->
      fst (calculate_percentages t prov) = 0%Q /\ snd (calculate_percentages t prov) = 0%Q).
Proof.
  intros Ht.
  destruct (tiles_sum _ _ _ Ht) as [_ Hs]. rewrite Nat.sub_0_r in Hs.
  pose proof (span_sum_split prov) as Hsplit.
  unfold calculate_percentages.
  destruct (String.length t =? 0) eqn:E.
  - simpl. split; [split; lra | split; [split; lra | split; reflexivity]].
  - apply Nat.eqb_neq in E. cbv zeta. cbn [fst snd].
    destruct (pct_in_range (span_sum KNOWLEDGE_BASE prov) (String.length t)) as [Hk1 Hk2];
      [lia | lia |].
    destruct (pct_in_range (span_sum AI_GENERATED prov) (String.length t)) as [Ha1 Ha2];
      [lia | lia |].
    split; [split; assumption | split; [split; assumption | intros; contradiction]].
Qed.

Lemma percentages_single_source (t : string) (prov : list ProvenanceItem) (src : Source) :
  tiles 0 prov = Some (String.length t) -> 0 < String.length t ->
  Forall (fun p => source p = src) prov ->
  calculate_percentages t prov
  = match src with
    | KNOWLEDGE_BASE => (Detector.Qofn (String.length t) / Detector.Qofn (String.length t) * 100,
                         Detector.Qofn 0 / Detector.Qofn (String.length t) * 100)%Q
    | AI_GENERATED => (Detector.Qofn 0 / Detector.Qofn (String.length t) * 100,
                       Detector.Qofn (String.length t) / Detector.Qofn (String.length t) * 100)%Q
    end.
Proof.
  intros Ht Hpos Hall.
  destruct (tiles_sum _ _ _ Ht) as [_ Hs]. rewrite Nat.sub_0_r in Hs.
  pose proof (span_sum_split prov) as Hsplit.
  unfold calculate_percentages.
  destruct (String.length t =? 0) eqn:E; [apply Nat.eqb_eq in E; lia |].
  destruct src.
  - rewrite (span_sum_other KNOWLEDGE_BASE AI_GENERATED prov ltac:(discriminate) Hall) in *.
    replace (span_sum KNOWLEDGE_BASE prov) with (String.length t) by lia. reflexivity.
  - rewrite (span_sum_other AI_GENERATED KNOWLEDGE_BASE prov ltac:(discriminate) Hall) in *.
    replace (span_sum AI_GENERATED prov) with (String.length t) by lia. reflexivity.
Qed.

Lemma full_share_100 (n : nat) : 0 < n ->
  (Detector.Qofn n / Detector.Qofn n * 100 == 100)%Q.
Proof. intros Hn. pose proof (Qofn_pos n Hn). field. assumption. Qed.

Lemma zero_share_0 (n : nat) : 0 < n ->
  (Detector.Qofn 0 / Detector.Qofn n * 100 == 0)%Q.
Proof.
  intros _. change (Detector.Qofn 0) with 0%Q.
  unfold Qdiv. rewrite !Qmult_0_l. reflexivity.
Qed.

End ComposerFacts.

(** X1.  [_calculate_percentages]: when the provenance spans tile the
    text from 0 to its length, both percentages lie in [0, 100]; both are
    0 for an empty text; a text credited only to the knowledge base gets
    (100, 0), and one credited only to AI gets (0, 100).  (Their sum is
    not claimed to be 100: [(1/3)*100 + (2/3)*100] is not 100 in floats.
    The bounds and the two exact values do hold in floats, since
    [n/n*100] and [0/n*100] are exact.) *)
Theorem calculate_percentages_in_range :
  forall (t : string) (prov : list Composer.ProvenanceItem),
    Composer.tiles 0 prov = Some (String.length t) ->
    (0 <= fst (Composer.calculate_percentages t prov) <= 100)%Q
    /\ (0 <= snd (Composer.calculate_percentages t prov) <= 100)%Q
    /\ (String.length t = 0 ->
        fst (Composer.calculate_percentages t prov) = 0%Q
        /\ snd (Composer.calculate_percentages t prov) = 0%Q)
    /\ (0 < String.length t ->
        Forall (fun p => Composer.source p = Composer.KNOWLEDGE_BASE) prov ->
        (fst (Composer.calculate_percentages t prov) == 100
         /\ snd (Composer.calculate_percentages t prov) == 0)%Q)
    /\ (0 < String.length t ->
        Forall (fun p => Composer.source p = Composer.AI_GENERATED) prov ->
        (fst (Composer.calculate_percentages t prov) == 0
         /\ snd (Composer.calculate_percentages t prov) == 100)%Q).
Proof.
  intros t prov Ht.
  destruct (ComposerFacts.percentages_in_range t prov Ht) as [H1 [H2 H3]].
  split; [exact H1 | split; [exact H2 | split; [exact H3 | split]]].
  - intros Hpos Hall.
    rewrite (ComposerFacts.percentages_single_source t prov _ Ht Hpos Hall). simpl.
    split; [apply ComposerFacts.full_share_100 | apply ComposerFacts.zero_share_0]; exact Hpos.
  - intros Hpos Hall.
    rewrite (ComposerFacts.percentages_single_source t prov _ Ht Hpos Hall). simpl.
    split; [apply ComposerFacts.zero_share_0 | apply ComposerFacts.full_share_100]; exact Hpos.
Qed.

Lemma calculate_percentages_in_range_witness :
  Composer.tiles 0 [{| Composer.start := 0; Composer.end_ := 4; Composer.source := Composer.KNOWLEDGE_BASE;
              Composer.prov_kb_item_id := Some "kb-1" |};
           {| Composer.start := 4; Composer.end_ := 14; Composer.source := Composer.AI_GENERATED;
              Composer.prov_kb_item_id := None |}] = Some (String.length "ISO certified.")
  /\ (0 <= fst (Composer.calculate_percentages "ISO certified." [{| Composer.start := 0; Composer.end_ := 4; Composer.source := Composer.KNOWLEDGE_BASE;
              Composer.prov_kb_item_id := Some "kb-1" |};
           {| Composer.start := 4; Composer.end_ := 14; Composer.source := Composer.AI_GENERATED;
              Composer.prov_kb_item_id := None |}]) <= 100)%Q
  /\ (0 <= snd (Composer.calculate_percentages "ISO certified." [{| Composer.start := 0; Composer.end_ := 4; Composer.source := Composer.KNOWLEDGE_BASE;
              Composer.prov_kb_item_id := Some "kb-1" |};
           {| Composer.start := 4; Composer.end_ := 14; Composer.source := Composer.AI_GENERATED;
              Composer.prov_kb_item_id := None |}]) <= 100)%Q.
Proof.
  assert (Ht : Composer.tiles 0 [{| Composer.start := 0; Composer.end_ := 4; Composer.source := Composer.KNOWLEDGE_BASE;
              Composer.prov_kb_item_id := Some "kb-1" |};
           {| Composer.start := 4; Composer.end_ := 14; Composer.source := Composer.AI_GENERATED;
              Composer.prov_kb_item_id := None |}] = Some (String.length "ISO certified."))
    by reflexivity.
  split; [exact Ht |].
  destruct (calculate_percentages_in_range "ISO certified." [{| Composer.start := 0; Composer.end_ := 4; Composer.source := Composer.KNOWLEDGE_BASE;
              Composer.prov_kb_item_id := Some "kb-1" |};
           {| Composer.start := 4; Composer.end_ := 14; Composer.source := Composer.AI_GENERATED;
              Composer.prov_kb_item_id := None |}] Ht) as [H1 [H2 _]].
  split; [exact H1 | exact H2].
Defined.

(** X2.  [_compose_with_connectors]: the provenance spans tile the whole
    response text in order (each span starts where the previous ended, the
    first at 0, the last ending at the text length), so both percentages
    lie in [0, 100] and are 0 for an empty text; the knowledge-base spans
    credit the items of [kb_content] once each, in order. *)
Theorem compose_with_connectors_provenance :
  forall gen requirement kb_content max_tokens style,
    let r := Composer.compose_with_connectors gen requirement kb_content max_tokens style in
    Composer.tiles 0 (Composer.provenance r) = Some (String.length (Composer.text r))
    /\ (0 <= Composer.kb_percentage r <= 100)%Q
    /\ (0 <= Composer.ai_percentage r <= 100)%Q
    /\ (String.length (Composer.text r) = 0 ->
        Composer.kb_percentage r = 0%Q /\ Composer.ai_percentage r = 0%Q)
    /\ map Composer.prov_kb_item_id (filter Composer.is_kb (Composer.provenance r))
       = map (fun e => Some (Composer.e_id e)) kb_content.
Proof.
  intros gen requirement kb_content max_tokens style r.
  subst r. unfold Composer.compose_with_connectors.
  destruct kb_content as [| it [| it2 rest]].
  - vm_compute. repeat split; try reflexivity; discriminate.
  - unfold Composer.compose_single.
    set (prov := [{| Composer.start := 0; Composer.end_ := String.length (Composer.e_content it);
                     Composer.source := Composer.KNOWLEDGE_BASE;
                     Composer.prov_kb_item_id := Some (Composer.e_id it) |}]).
    assert (Ht : Composer.tiles 0 prov = Some (String.length (Composer.e_content it))).
    { simpl. destruct (String.length (Composer.e_content it)); reflexivity. }
    destruct (ComposerFacts.percentages_in_range _ _ Ht) as [H1 [H2 H3]].
    destruct (Composer.calculate_percentages (Composer.e_content it) prov) as [kb ai].
    simpl in H1, H2, H3 |- *.
    split; [exact Ht | split; [exact H1 | split; [exact H2 | split; [exact H3 | reflexivity]]]].
  - set (items := it :: it2 :: rest).
    pose proof (ComposerFacts.connectors_loop_spec gen
                  (max_tokens / Z.of_nat (length items))%Z items EmptyString []
                  eq_refl) as Hl.
    destruct (Composer.connectors_loop gen _ items EmptyString []) as [t prov].
    destruct Hl as [Ht Hk].
    destruct (ComposerFacts.percentages_in_range _ _ Ht) as [H1 [H2 H3]].
    destruct (Composer.calculate_percentages t prov) as [kb ai].
    simpl in H1, H2, H3 |- *.
    split; [exact Ht | split; [exact H1 | split; [exact H2 | split; [exact H3 | exact Hk]]]].
Qed.

(** X3.  [compose] only ever uses the first match: whatever follows it in
    [matches] has no effect on the response (nor on the random draws). *)
Theorem compose_uses_first_match_only :
  forall env k requirement m rest style mode tone,
    Composer.compose env k requirement (m :: rest) style mode tone
    = Composer.compose env k requirement [m] style mode tone.
Proof. intros. reflexivity. Qed.

(** X4.  When the first match scores at most 0.2, [compose] returns the
    minimal AI-generated response, whatever the other matches score. *)
Theorem compose_low_first_score_minimal :
  forall env k requirement m rest style mode tone,
    (Matcher.score m <= 2#10)%Q ->
    Composer.compose env k requirement (m :: rest) style mode tone
    = (Composer.generate_minimal_response requirement, k).
Proof.
  intros env k requirement m rest style mode tone Hs.
  unfold Composer.compose, Composer.select_kb_content. simpl.
  unfold Detector.Qltb.
  apply Qle_bool_iff in Hs. rewrite Hs. reflexivity.
Qed.

Lemma compose_low_first_score_minimal_witness :
  (1#10 <= 2#10)%Q /\
  Composer.compose Fixtures.no_llm_env 0 "ISO certification"
    [{| Matcher.kb_item_id := "kb-1"; Matcher.content := Fixtures.uniform_kb;
        Matcher.score := 1#10; Matcher.rank := 1 |};
     Fixtures.kb_match Fixtures.uniform_kb]
    "professional" "balanced" "professional"
  = (Composer.generate_minimal_response "ISO certification", 0).
Proof.
  split; [vm_compute; discriminate |].
  apply compose_low_first_score_minimal. vm_compute. discriminate.
Defined.

(** X5.  [humanize_text] reports as [original_score] the detector score of
    its input and, on every path but the multilingual LLM rewrite, as
    [new_score] the detector score of the text it returns; on that path the
    text is the stripped LLM answer and [new_score] is the fixed 15.  In
    every case [new_score] lies in [0, 100]. *)
Theorem humanize_text_scores :
  forall h g k text intensity,
    let '((t, o, n, _), _) := Humanizer.humanize_text h g k text intensity in
    o = fst (Detector.calculate_ai_score text)
    /\ (n = fst (Detector.calculate_ai_score t)
        \/ exists c, Humanizer.humanize_llm h text = Humanizer.LlmReply c
                     /\ t = Py.strip c /\ n = 15%Q)
    /\ (0 <= n)%Q /\ (n <= 100)%Q.
Proof.
  intros h g k text intensity. unfold Humanizer.humanize_text. cbv zeta.
  destruct (negb (String.eqb _ "en")).
  - destruct (Humanizer.humanize_llm h text) as [c | |] eqn:Ec.
    + split; [reflexivity |]. split; [right; exists c; auto |]. split; discriminate.
    + destruct (Humanizer.remove_ai_markers text) as [t1 n1].
      destruct (Humanizer.apply_phrase_paraphrasing g k t1) as [[t2 n2] k2].
      destruct (Humanizer.apply_synonym_replacement g k2 t2 _) as [[t3 n3] k3].
      destruct (Humanizer.add_contractions g k3 t3) as [[t4 n4] k4].
      destruct (DetectorFacts.score_bounds (Py.cleanup t4)).
      repeat split; auto.
    + destruct (DetectorFacts.score_bounds text).
      repeat split; auto.
  - destruct (Humanizer.remove_ai_markers text) as [t1 n1].
    destruct (Humanizer.apply_phrase_paraphrasing g k t1) as [[t2 n2] k2].
    destruct (Humanizer.apply_synonym_replacement g k2 t2 _) as [[t3 n3] k3].
    destruct (Humanizer.add_contractions g k3 t3) as [[t4 n4] k4].
    destruct (DetectorFacts.score_bounds (Py.cleanup t4)).
    repeat split; auto.
Qed.

(** *** Random draws of the humanisation chain *)

Module HumanizerFacts.

Import Humanizer.

Lemma synonym_word_no_hit (g : Rng) (intensity : Q) (w : string) (k : nat) :
  (intensity <= 0)%Q -> (forall j, 0 <= rnd g j)%Q ->
  exists k', synonym_word g intensity w k = (w, false, k').
Proof.
  intros Hi Hr. unfold synonym_word.
  destruct (lookup _ synonyms); [| eexists; reflexivity].
  unfold Detector.Qltb.
  replace (Qle_bool intensity (rnd g k)) with true.
  - eexists; reflexivity.
  - symmetry. apply Qle_bool_iff. specialize (Hr k). lra.
Qed.

Lemma fold_left_cons {A B : Type} (F : A -> B -> A) (x : B) (L : list B) (a : A) :
  fold_left F (x :: L) a = fold_left F L (F a x).
Proof. reflexivity. Qed.

Lemma zero_intensity :
  forall (g : Humanizer.Rng) k text intensity,
    (intensity <= 0)%Q -> (forall j, 0 <= Humanizer.rnd g j)%Q ->
    fst (Humanizer.apply_synonym_replacement g k text intensity)
    = (Humanizer.join " " (Py.split_ws text), 0).
Proof.
  intros g k text intensity Hi Hr. unfold Humanizer.apply_synonym_replacement.
  match goal with |- context [fold_left ?F _ _] => set (f := F) end.
  assert (H : forall L ws k0, exists k',
             fold_left f L (ws, 0, k0) = (ws ++ L, 0, k')).
  { induction L as [| w L IH]; intros ws k0; simpl.
    - exists k0. rewrite app_nil_r. reflexivity.
    - destruct (synonym_word_no_hit g intensity w k0 Hi Hr) as [k1 E].
      rewrite E.
      destruct (IH (ws ++ [w]) k1) as [k' IH'].
      exists k'. rewrite IH', <- app_assoc. reflexivity. }
  destruct (H (Py.split_ws text) [] k) as [k' ->]. reflexivity.
Qed.

End HumanizerFacts.

(** X6.  [apply_synonym_replacement] replaces a word only when a draw of
    [random.random()] falls below [intensity]: with [intensity <= 0] (and
    draws in [[0, 1)]) it replaces nothing and only normalises whitespace,
    returning [' '.join(text.split())] with a count of 0. *)
Theorem apply_synonym_replacement_zero_intensity :
  forall (g : Humanizer.Rng) k text intensity,
    (intensity <= 0)%Q -> (forall j, 0 <= Humanizer.rnd g j)%Q ->
    fst (Humanizer.apply_synonym_replacement g k text intensity)
    = (Humanizer.join " " (Py.split_ws text), 0).
Proof.
  exact HumanizerFacts.zero_intensity.
Qed.

Lemma apply_synonym_replacement_zero_intensity_witness :
  (0 <= 0)%Q /\ (forall j : nat, 0 <= Humanizer.rnd
     {| Humanizer.rnd := fun _ => 1#2; Humanizer.pick := fun _ _ => 0%nat |} j)%Q /\
  fst (Humanizer.apply_synonym_replacement
         {| Humanizer.rnd := fun _ => 1#2; Humanizer.pick := fun _ _ => 0 |}
         0 "We  utilize robust tools." 0)
  = (Humanizer.join " " (Py.split_ws "We  utilize robust tools."), 0).
Proof.
  assert (Hr : forall j : nat, (0 <= Humanizer.rnd
     {| Humanizer.rnd := fun _ => 1#2; Humanizer.pick := fun _ _ => 0%nat |} j)%Q)
    by (intros j; simpl; discriminate).
  split; [apply Qle_refl |]. split; [exact Hr |].
  apply apply_synonym_replacement_zero_intensity; [apply Qle_refl | exact Hr].
Defined.

(** X7.  [apply_synonym_replacement] counts at most one replacement per
    whitespace-separated word of its input. *)
Theorem apply_synonym_replacement_count_le_words :
  forall (g : Humanizer.Rng) k text intensity,
    snd (fst (Humanizer.apply_synonym_replacement g k text intensity))
    <= length (Py.split_ws text).
Proof.
  intros g k text intensity. unfold Humanizer.apply_synonym_replacement.
  match goal with |- context [fold_left ?F _ _] => set (f := F) end.
  assert (H : forall L ws n0 k0,
             let '(_, n, _) := fold_left f L (ws, n0, k0) in n <= n0 + length L).
  { induction L as [| w L IH]; intros ws n0 k0; simpl; [lia |].
    destruct (f (ws, n0, k0) w) as [[ws1 n1] k1] eqn:E.
    unfold f in E.
    destruct (Humanizer.synonym_word g intensity w k0) as [[w' hit] k'].
    injection E as <- <- <-.
    specialize (IH (ws ++ [w']) (if hit then S n0 else n0) k').
    destruct (fold_left f L _) as [[ws2 n2] k2].
    destruct hit; lia. }
  specialize (H (Py.split_ws text) [] 0 k).
  destruct (fold_left f (Py.split_ws text) ([], 0, k)) as [[ws n] k'].
  simpl. exact H.
Qed.

(** X8.  [apply_phrase_paraphrasing] makes exactly one [random.choice]
    draw per phrase it replaces, and replaces at most one occurrence of
    each of the 23 phrases. *)
Theorem apply_phrase_paraphrasing_draws :
  forall (g : Humanizer.Rng) k text,
    let '((_, n), k') := Humanizer.apply_phrase_paraphrasing g k text in
    k' = k + n /\ n <= 23.
Proof.
  intros g k text. unfold Humanizer.apply_phrase_paraphrasing.
  match goal with |- context [fold_left ?F _ _] => set (f := F) end.
  assert (H : forall L r n0 k0,
             let '((_, n), k') := fold_left f L ((r, n0), k0) in
             k' + n0 = k0 + n /\ n0 <= n <= n0 + length L).
  { induction L as [| [ph alts] L IH]; intros r n0 k0; [simpl; lia |].
    rewrite HumanizerFacts.fold_left_cons.
    destruct (f ((r, n0), k0) (ph, alts)) as [[r1 n1] k1] eqn:E.
    assert (Hs : n1 = S n0 /\ k1 = S k0 \/ n1 = n0 /\ k1 = k0).
    { unfold f in E. destruct (Lit.search _ r); injection E as _ <- <-; auto. }
    specialize (IH r1 n1 k1).
    destruct (fold_left f L _) as [[r2 n2] k2]. simpl length. lia. }
  specialize (H Humanizer.phrase_paraphrases text 0 k).
  destruct (fold_left f Humanizer.phrase_paraphrases ((text, 0), k)) as [[t n] k'].
  simpl in H. lia.
Qed.

(** X9.  [add_contractions] always draws exactly 18 random numbers (one per
    contraction pattern, replaced or not) and counts at most 18 changes. *)
Theorem add_contractions_draws :
  forall (g : Humanizer.Rng) k text,
    let '((_, n), k') := Humanizer.add_contractions g k text in
    k' = k + 18 /\ n <= 18.
Proof.
  intros g k text. unfold Humanizer.add_contractions.
  match goal with |- context [fold_left ?F _ _] => set (f := F) end.
  assert (H : forall L r n0 k0,
             let '((_, n), k') := fold_left f L ((r, n0), k0) in
             k' = k0 + length L /\ n0 <= n <= n0 + length L).
  { induction L as [| [pat rp] L IH]; intros r n0 k0; [simpl; lia |].
    rewrite HumanizerFacts.fold_left_cons.
    destruct (f ((r, n0), k0) (pat, rp)) as [[r1 n1] k1] eqn:E.
    assert (Hs : (n1 = S n0 \/ n1 = n0) /\ k1 = S k0).
    { unfold f in E. destruct (Detector.Qltb _ _); injection E as _ <- <-; [| auto].
      destruct (String.eqb _ _); auto. }
    specialize (IH r1 n1 k1).
    destruct (fold_left f L _) as [[r2 n2] k2]. simpl length. lia. }
  specialize (H Humanizer.contractions text 0 k).
  destruct (fold_left f Humanizer.contractions ((text, 0), k)) as [[t n] k'].
  simpl in H. lia.
Qed.

(** *** The word patterns of [remove_ai_markers] *)

Module MarkerFacts.

Import Humanizer.

Lemma lower_char_backslash (b : ascii) :
  Py.lower_char b = "\"%char -> b = "\"%char.
Proof.
  destruct b as [[] [] [] [] [] [] [] []]; vm_compute;
    intros H; first [reflexivity | discriminate H].
Qed.

Lemma char_eq_backslash (ic : bool) (b : ascii) :
  Lit.char_eq ic "\"%char b = true -> b = "\"%char.
Proof.
  unfold Lit.char_eq. destruct ic; intros H; apply Ascii.eqb_eq in H.
  - apply lower_char_backslash. rewrite <- H. reflexivity.
  - symmetry. exact H.
Qed.

Lemma mem_char_cons (x c : ascii) (s : string) :
  Py.mem_char x (String c s) = Ascii.eqb x c || Py.mem_char x s.
Proof. reflexivity. Qed.

Lemma prefix_by_backslash (ic : bool) (w r : string) :
  forall s, Lit.prefix_by ic (w ++ String "\" r) s = true -> Py.mem_char "\" s = true.
Proof.
  induction w as [| a w IH]; intros s H; destruct s as [| b s]; simpl in H;
    try discriminate H.
  - apply andb_true_iff in H as [H _]. apply char_eq_backslash in H. subst b.
    reflexivity.
  - apply andb_true_iff in H as [_ H]. rewrite mem_char_cons, (IH s H), orb_true_r.
    reflexivity.
Qed.

Lemma search_marker_backslash (w : string) :
  forall s prev, Lit.search_from (marker_pattern w) prev s = true -> Py.mem_char "\" s = true.
Proof.
  induction s as [| c s IH]; intros prev H; cbn [Lit.search_from] in H;
    apply orb_true_iff in H as [H | H];
    try (unfold Lit.match_here in H; apply andb_true_iff in H as [H _];
         apply andb_true_iff in H as [_ H];
         exact (prefix_by_backslash _ w "b" _ H)).
  - discriminate H.
  - rewrite mem_char_cons, (IH _ H), orb_true_r. reflexivity.
Qed.

Lemma word_stage_identity (text : string) :
  Py.mem_char "\" text = false ->
  forall L : list (string * string),
    fold_left (fun acc '(w, r) => sub_if_found (marker_pattern w) r acc) L (text, 0)
    = (text, 0).
Proof.
  intros Hb L. induction L as [| [w r] L IH]; [reflexivity |].
  rewrite HumanizerFacts.fold_left_cons.
  unfold sub_if_found at 2.
  destruct (Lit.search (marker_pattern w) text) eqn:E.
  - apply search_marker_backslash in E. congruence.
  - exact IH.
Qed.

Lemma phrase_stage_count (L : list (string * string)) :
  forall r n,
    snd (fold_left (fun acc '(ph, rp) => sub_if_found (Lit.plain_ci ph) rp acc) L (r, n))
    <= n + length L.
Proof.
  induction L as [| [ph rp] L IH]; intros r n; [simpl; lia |].
  rewrite HumanizerFacts.fold_left_cons. unfold sub_if_found at 2.
  destruct (Lit.search (Lit.plain_ci ph) r).
  - specialize (IH (Lit.sub (Lit.plain_ci ph) rp r) (S n)). simpl length. lia.
  - specialize (IH r n). simpl length. lia.
Qed.

End MarkerFacts.

(** X10.  On a text without a backslash, none of the 35 word patterns of
    [remove_ai_markers] matches (each ends in a literal backslash and [b]),
    so only the phrase replacements and the whitespace cleanup act, and at
    most 9 replacements (one per phrase) are counted. *)
Theorem remove_ai_markers_phrases_only :
  forall text,
    Py.mem_char "\" text = false ->
    Humanizer.remove_ai_markers text
    = (Py.cleanup (fst (Humanizer.phrase_stage (text, 0))),
       snd (Humanizer.phrase_stage (text, 0)))
    /\ snd (Humanizer.remove_ai_markers text) <= 9.
Proof.
  intros text Hb.
  assert (E : Humanizer.remove_ai_markers text
              = (Py.cleanup (fst (Humanizer.phrase_stage (text, 0))),
                 snd (Humanizer.phrase_stage (text, 0)))).
  { unfold Humanizer.remove_ai_markers.
    rewrite (MarkerFacts.word_stage_identity text Hb).
    unfold Humanizer.phrase_stage.
    destruct (fold_left _ Humanizer.ai_phrase_replacements (text, 0)). reflexivity. }
  split; [exact E |].
  rewrite E. simpl snd.
  exact (MarkerFacts.phrase_stage_count Humanizer.ai_phrase_replacements text 0).
Qed.

Lemma remove_ai_markers_phrases_only_witness :
  Py.mem_char "\" "It plays a vital role in our robust tapestry." = false
  /\ Humanizer.remove_ai_markers "It plays a vital role in our robust tapestry."
     = ("It matters in our robust tapestry.", 1).
Proof.
  assert (Hb : Py.mem_char "\" "It plays a vital role in our robust tapestry." = false)
    by reflexivity.
  split; [exact Hb |].
  destruct (remove_ai_markers_phrases_only _ Hb) as [-> _].
  vm_compute. reflexivity.
Defined.

(** *** The matcher's bookkeeping, search results and summary *)

Module MatcherFacts.

Import Matcher.

Lemma fold_set_key (key : string) (md : Item) :
  forall d v, dict_get key md = None -> dict_get key d = Some v ->
  dict_get key (fold_left (fun d '(k, v) => dict_set k v d) md d) = Some v.
Proof.
  induction md as [| [k w] r IH]; intros d v Hmd Hd; cbn -[String.eqb] in *;
    [exact Hd |].
  destruct (String.eqb key k) eqn:E; [discriminate Hmd |].
  apply IH; [exact Hmd |].
  rewrite AlignFacts.dict_get_set_other by exact E. exact Hd.
Qed.

Lemma id_get_filter (k item_id : string) (m : list (string * nat)) :
  k <> item_id ->
  id_get k (filter (fun '(k', _) => negb (String.eqb item_id k')) m) = id_get k m.
Proof.
  intros Hne. induction m as [| [k' i] r IH]; [reflexivity |].
  cbn -[String.eqb].
  destruct (String.eqb_spec item_id k') as [<- | Hn]; simpl.
  - destruct (String.eqb_spec k item_id); [contradiction | exact IH].
  - destruct (String.eqb k k'); [reflexivity | exact IH].
Qed.

Lemma In_firstn {A : Type} (n : nat) (l : list A) (x : A) :
  In x (firstn n l) -> In x l.
Proof.
  intros H. rewrite <- (firstn_skipn n l). apply in_or_app. left. exact H.
Qed.

Lemma search_loop_from_items (items : list Item) (top_k : Z) (min_score : Q)
  (tenant : option string) (ranked : list (Q * Z)) (hits : list (Q * Z)) :
  (forall h, In h hits -> In h ranked) ->
  forall results rs,
    search_loop items top_k min_score tenant hits results = Some rs ->
    Forall (from_item items tenant ranked) results ->
    Forall (from_item items tenant ranked) rs.
Proof.
  induction hits as [| [sc idx] rest IH]; intros Hsub results rs Hrun Hres.
  - simpl in Hrun. injection Hrun as <-. exact Hres.
  - assert (Hsub' : forall h, In h rest -> In h ranked) by (intros h Hh; apply Hsub; right; exact Hh).
    simpl in Hrun.
    destruct (_ || _ || _); [eapply IH; eauto |].
    destruct (nth_error items (Z.to_nat idx)) as [it |] eqn:Eit; [| eapply IH; eauto].
    destruct (tenant_excluded tenant it) eqn:Et; [eapply IH; eauto |].
    destruct (dict_get "id" it) as [i |] eqn:Ei; [| discriminate].
    destruct (dict_get "content" it) as [c |] eqn:Ec; [| discriminate].
    cbv zeta in Hrun.
    assert (Hres' : Forall (from_item items tenant ranked)
              (results ++ [{| kb_item_id := i; content := c; score := sc;
                              rank := length results + 1 |}])).
    { apply Forall_app; split; [exact Hres |]. constructor; [| constructor].
      exists idx, it. simpl. repeat split; auto. apply Hsub. left. reflexivity. }
    destruct (top_k <=? _)%Z; [injection Hrun as <-; exact Hres' |].
    eapply IH; eauto.
Qed.

Lemma search_from_items {V : Type} (st : State V) (top_k : Z) (min_score : Q)
  (tenant : option string) (ranked : list (Q * Z)) (rs : list MatchResult) :
  search st top_k min_score tenant ranked = Some rs ->
  Forall (from_item (kb_items st) tenant ranked) rs.
Proof.
  unfold search. intros Hrun.
  destruct (_ =? 0)%Z; [injection Hrun as <-; constructor |].
  destruct (_ <=? 0)%Z; [discriminate |].
  eapply search_loop_from_items; [| exact Hrun | constructor].
  intros h Hh. eapply In_firstn; exact Hh.
Qed.

Lemma search_scores {V : Type} (st : State V) (top_k : Z) (min_score : Q)
  (tenant : option string) (ranked : list (Q * Z)) (rs : list MatchResult) :
  search st top_k min_score tenant ranked = Some rs ->
  Forall (fun r => Qle min_score (score r)) rs.
Proof.
  unfold search. intros Hrun.
  destruct (_ =? 0)%Z; [injection Hrun as <-; constructor |].
  destruct (Z.min _ _ <=? 0)%Z eqn:Ek; [discriminate |].
  apply Z.leb_gt in Ek.
  eapply SearchFacts.search_loop_spec; [exact Hrun | | constructor | reflexivity].
  simpl. destruct (truthy tenant); lia.
Qed.

Lemma sumQ_bounds (l : list Q) :
  Forall in_pct l -> (0 <= Detector.sumQ l)%Q /\ (Detector.sumQ l <= 100 * Detector.Qofn (length l))%Q.
Proof.
  induction l as [| x l IH]; intros H; [simpl; unfold Detector.Qofn; simpl; split; discriminate |].
  inversion H as [| ? ? [Hx0 Hx1] Hl]; subst.
  destruct (IH Hl) as [H0 H1]. simpl.
  unfold Detector.Qofn in *. rewrite Nat2Z.inj_succ, <- Z.add_1_r, inject_Z_plus.
  change (inject_Z 1) with 1%Q.
  split; lra.
Qed.

Lemma avg_bounds (l : list Q) : l <> [] -> Forall in_pct l -> in_pct (avg l).
Proof.
  intros Hne H. destruct (sumQ_bounds l H) as [H0 H1].
  assert (Hpos : (0 < Detector.Qofn (length l))%Q).
  { destruct l as [| x l]; [contradiction |]. unfold Detector.Qofn, Qlt. simpl. lia. }
  unfold avg, in_pct. split.
  - apply Qle_shift_div_l; [exact Hpos | lra].
  - apply Qle_shift_div_r; [exact Hpos | lra].
Qed.

Lemma cat_add_ok (cat : option string) (mp : Q) (bc : list (option string * (list Q * nat * nat))) :
  in_pct mp -> Forall bc_ok bc -> Forall bc_ok (cat_add cat mp bc).
Proof.
  intros Hmp. induction bc as [| [c [[sc t] m]] r IH]; intros Hbc; simpl.
  - constructor; [| constructor]. simpl. repeat split; [discriminate | auto |].
    destruct (Qle_bool 50 mp); lia.
  - inversion Hbc as [| ? ? Hx Hr]; subst. simpl in Hx.
    destruct Hx as [Hne [Hsc Hmt]].
    destruct (opt_eqb cat c).
    + constructor; [| exact Hr]. simpl. repeat split.
      * destruct sc; discriminate.
      * apply Forall_app; split; [exact Hsc | constructor; [exact Hmp | constructor]].
      * destruct (Qle_bool 50 mp); lia.
    + constructor; [simpl; auto | apply IH; exact Hr].
Qed.

Lemma by_category_ok (results : list MatchEntry) :
  Forall (fun r => in_pct (match_percentage r)) results ->
  Forall bc_ok (by_category results).
Proof.
  unfold by_category. intros H.
  assert (G : forall bc, Forall bc_ok bc ->
            Forall bc_ok (fold_left (fun bc r => cat_add (m_category r) (match_percentage r) bc)
                            results bc)).
  { induction H as [| r rs Hr Hrs IH]; intros bc Hbc; [exact Hbc |].
    simpl. apply IH. apply cat_add_ok; assumption. }
  apply G. constructor.
Qed.

Lemma summary_loop_ok (bc : list (option string * (list Q * nat * nat))) :
  Forall bc_ok bc -> forall s s', triple_ok s -> summary_loop bc s = Some s' -> triple_ok s'.
Proof.
  induction 1 as [| [c [[sc t] m]] r Hx Hr IH]; intros s s' Hs Hrun; simpl in Hrun.
  - injection Hrun as <-. exact Hs.
  - destruct c as [cat |]; [| discriminate].
    refine (IH _ s' _ Hrun).
    simpl in Hx. destruct Hx as [Hne [Hsc _]].
    destruct sc as [| q sc']; [exact Hs |].
    pose proof (avg_bounds (q :: sc') Hne Hsc) as Ha.
    destruct s as [[e t'] c'].
    unfold set_match. destruct Hs as [He [Ht Hc]].
    destruct (String.eqb _ "eligibility_match"); [simpl; auto |].
    destruct (String.eqb _ "technical_match"); [simpl; auto |].
    destruct (String.eqb _ "compliance_match"); simpl; auto.
Qed.

Lemma breakdown_ok (bc : list (option string * (list Q * nat * nat))) :
  Forall bc_ok bc -> forall b, bd_ok b ->
  bd_ok (fold_left (fun b '(cat, (_, tot, m)) =>
                      match cat with
                      | Some cat => set_bd (Py.lower cat) (tot, m) b
                      | None => b
                      end) bc b).
Proof.
  induction 1 as [| [c [[sc t] m]] r Hx Hr IH]; intros b Hb; [exact Hb |].
  simpl. apply IH.
  destruct c as [cat |]; [| exact Hb].
  simpl in Hx. destruct Hx as [_ [_ Hmt]].
  destruct b as [[[e1 e2] [t1 t2]] [c1 c2]]. unfold set_bd.
  destruct Hb as [H1 [H2 H3]].
  destruct (String.eqb _ "eligibility"); [simpl; auto |].
  destruct (String.eqb _ "technical"); [simpl; auto |].
  destruct (String.eqb _ "compliance"); simpl; auto.
Qed.

Lemma opt_eqb_eq (a b : option string) : opt_eqb a b = true -> a = b.
Proof.
  destruct a, b; simpl; intros H; try discriminate; auto.
  apply String.eqb_eq in H. subst. reflexivity.
Qed.

Lemma cat_add_keys (cat : option string) (mp : Q) (bc : list (option string * (list Q * nat * nat)))
  (k : option string) :
  In k (map fst (cat_add cat mp bc)) <-> cat = k \/ In k (map fst bc).
Proof.
  induction bc as [| [c [[sc t] m]] r IH]; simpl.
  - tauto.
  - destruct (opt_eqb cat c) eqn:E; simpl.
    + apply opt_eqb_eq in E. subst c. tauto.
    + rewrite IH. tauto.
Qed.

Lemma by_category_keys (results : list MatchEntry) (k : option string) :
  In k (map fst (by_category results)) <-> exists r, In r results /\ m_category r = k.
Proof.
  unfold by_category.
  assert (G : forall bc, In k (map fst (fold_left (fun bc r => cat_add (m_category r)
                                                   (match_percentage r) bc) results bc))
                         <-> (exists r, In r results /\ m_category r = k) \/ In k (map fst bc)).
  { induction results as [| r rs IH]; intros bc; simpl.
    - split; [auto | intros [[x [[] _]] | H]; exact H].
    - rewrite IH, cat_add_keys. split.
      + intros [[x [Hx Hk]] | [Hc | H]];
          [left; exists x; auto | left; exists r; auto | right; exact H].
      + intros [[x [[<- | Hx] Hk]] | H]; [right; left; auto | left; exists x; auto | right; right; exact H]. }
  rewrite G. simpl. split; [intros [H | []]; exact H | auto].
Qed.

Lemma summary_loop_none (bc : list (option string * (list Q * nat * nat))) :
  forall s, summary_loop bc s = None <-> In None (map fst bc).
Proof.
  induction bc as [| [c [[sc t] m]] r IH]; intros s; simpl.
  - split; [discriminate | contradiction].
  - destruct c as [cat |].
    + rewrite IH. split; [auto | intros [H | H]; [discriminate H | exact H]].
    + split; auto.
Qed.

Lemma overall_ok (keys : list (option string)) (e t c : Q) :
  in_pct e -> in_pct t -> in_pct c ->
  in_pct (let active :=
            flat_map (fun '(name, v) =>
                        if existsb (opt_eqb (Some name)) keys then [v] else [])
                     [("ELIGIBILITY", e); ("TECHNICAL", t); ("COMPLIANCE", c)] in
          match active with [] => 0%Q | _ => avg active end).
Proof.
  intros He Ht Hc. cbv zeta. simpl flat_map.
  destruct (existsb (opt_eqb (Some "ELIGIBILITY")) keys);
  destruct (existsb (opt_eqb (Some "TECHNICAL")) keys);
  destruct (existsb (opt_eqb (Some "COMPLIANCE")) keys); simpl.
  all: first [ unfold in_pct; split; lra
             | apply avg_bounds; [discriminate |];
               repeat (apply Forall_cons; [assumption |]); apply Forall_nil ].
Qed.

Lemma match_requirements_ok :
  forall (V : Type) (st : Matcher.State V) reqs top_k tenant_id ranking es,
    Matcher.match_requirements st reqs top_k tenant_id ranking = Some es ->
    map Matcher.requirement_id es = map Matcher.req_id reqs
    /\ map Matcher.m_category es = map Matcher.req_category reqs
    /\ Forall (fun e => Matcher.in_pct (Matcher.match_percentage e)) es.
Proof.
  intros V st reqs top_k tenant_id ranking.
  induction reqs as [| req rest IH]; intros es H; simpl in H.
  - injection H as <-. repeat split; constructor.
  - unfold Matcher.match_one in H.
    destruct (Matcher.search st top_k 0%Q tenant_id (ranking (Matcher.req_text req)))
      as [ms |] eqn:Es; [| discriminate].
    destruct (Matcher.match_requirements st rest top_k tenant_id ranking) as [es' |];
      [| discriminate].
    injection H as <-.
    destruct (IH es' eq_refl) as [H1 [H2 H3]].
    simpl. rewrite H1, H2. split; [reflexivity | split; [reflexivity |]].
    constructor; [| exact H3]. simpl.
    apply DetectorFacts.Qmin_bounds.
    destruct ms as [| b ms]; [apply Qle_refl |].
    pose proof (search_scores _ _ _ _ _ _ Es) as Hs.
    inversion Hs; subst. apply Qmult_le_0_compat; [assumption | discriminate].
Qed.

Lemma calculate_summary_ok :
  forall results s b,
    Forall (fun r => Matcher.in_pct (Matcher.match_percentage r)) results ->
    Matcher.calculate_summary results = Some (s, b) ->
    Matcher.in_pct (Matcher.eligibility_match s) /\ Matcher.in_pct (Matcher.technical_match s)
    /\ Matcher.in_pct (Matcher.compliance_match s) /\ Matcher.in_pct (Matcher.overall_match s)
    /\ Matcher.bd_ok b.
Proof.
  intros results s b Hr H. unfold Matcher.calculate_summary in H.
  pose proof (by_category_ok results Hr) as Hbc.
  destruct (Matcher.summary_loop _ _) as [[[e t] c] |] eqn:Es; [| discriminate].
  assert (Ht : Matcher.triple_ok (e, t, c)).
  { eapply summary_loop_ok; [exact Hbc | | exact Es].
    unfold Matcher.triple_ok, Matcher.in_pct. repeat split; discriminate. }
  destruct Ht as [He [Ht' Hc]].
  injection H as <- <-.
  split; [exact He |]. split; [exact Ht' |]. split; [exact Hc |]. split.
  - apply overall_ok; assumption.
  - apply breakdown_ok; [exact Hbc |]. simpl. lia.
Qed.

Lemma calculate_summary_none :
  forall results,
    Matcher.calculate_summary results = None
    <-> exists r, In r results /\ Matcher.m_category r = None.
Proof.
  intros results. unfold Matcher.calculate_summary.
  rewrite <- by_category_keys, <- (summary_loop_none _ (0, 0, 0)%Q).
  destruct (Matcher.summary_loop _ _) as [[[e t] c] |]; split; congruence.
Qed.

End MatcherFacts.

(** X11.  After [add_item(item_id, content, metadata)] (with no [id] key in
    [metadata]), [id_to_index[item_id]] is the new item's position, the
    item stored there has [id] [item_id], and every other id keeps its
    position. *)
Theorem add_item_id_to_index :
  forall (V : Type) (nemb : string -> V) (st : Matcher.State V) item_id c md,
    Matcher.dict_get "id" md = None ->
    let st' := Matcher.add_item V nemb st item_id c md in
    Matcher.id_get item_id (Matcher.id_to_index st') = Some (length (Matcher.kb_items st))
    /\ (exists it, nth_error (Matcher.kb_items st') (length (Matcher.kb_items st)) = Some it
                   /\ Matcher.dict_get "id" it = Some item_id)
    /\ (forall k, k <> item_id ->
          Matcher.id_get k (Matcher.id_to_index st') = Matcher.id_get k (Matcher.id_to_index st)).
Proof.
  intros V nemb st item_id c md Hmd st'. subst st'.
  unfold Matcher.add_item; simpl. split; [| split].
  - rewrite String.eqb_refl, length_app. simpl. f_equal. lia.
  - exists (Matcher.make_item item_id c md). split.
    + rewrite nth_error_app2 by lia. rewrite Nat.sub_diag. reflexivity.
    + unfold Matcher.make_item. apply MatcherFacts.fold_set_key; [exact Hmd | reflexivity].
  - intros k Hk. destruct (String.eqb_spec k item_id); [contradiction |].
    apply MatcherFacts.id_get_filter. exact Hk.
Qed.

Lemma add_item_id_to_index_witness :
  Matcher.dict_get "id" [("tenant_id", "acme")] = None
  /\ Matcher.id_get "kb-b" (Matcher.id_to_index Fixtures.two_tenant_matcher) = Some 1.
Proof.
  assert (Hmd : Matcher.dict_get "id" [("tenant_id", "acme")] = None) by reflexivity.
  split; [exact Hmd |].
  exact (proj1 (add_item_id_to_index unit (fun _ => tt)
                  (Matcher.add_item unit (fun _ => tt) Fixtures.empty_matcher "kb-a"
                     "Alpha content" [("tenant_id", "acme")])
                  "kb-b" "Beta content" [] eq_refl)).
Defined.

(** X12.  [remove_item] of an id absent from [id_to_index] changes
    nothing; of a present id it leaves the index, the item list and the id
    map all empty, since [_rebuild_index] starts with [_create_empty_index]
    (which clears [kb_items]): the other items are dropped too.
    [sync_with_database] likewise always ends with an empty index and item
    list, whatever items it is given. *)
Theorem remove_item_sync_clear :
  forall (V : Type) (nemb : string -> V) (st : Matcher.State V) item_id items,
    Matcher.remove_item V nemb st item_id
    = (if Matcher.id_mem item_id (Matcher.id_to_index st)
       then {| Matcher.index := []; Matcher.kb_items := []; Matcher.id_to_index := [] |}
       else st)
    /\ Matcher.sync_with_database V nemb st items
       = {| Matcher.index := []; Matcher.kb_items := []; Matcher.id_to_index := [] |}.
Proof.
  intros V nemb st item_id items. split; [| reflexivity].
  unfold Matcher.remove_item. destruct (Matcher.id_mem _ _); reflexivity.
Qed.

(** X13.  Every result of [search] comes from a stored item that passes the
    tenant filter: its id, content and score are those of an item
    [kb_items[idx]] for a pair [(score, idx)] of the index ranking. *)
Theorem search_results_from_items :
  forall (V : Type) (st : Matcher.State V) top_k min_score tenant_id ranked rs,
    Matcher.search st top_k min_score tenant_id ranked = Some rs ->
    Forall (Matcher.from_item (Matcher.kb_items st) tenant_id ranked) rs.
Proof.
  intros V st top_k min_score tenant_id ranked rs H.
  exact (MatcherFacts.search_from_items st top_k min_score tenant_id ranked rs H).
Qed.

Lemma search_results_from_items_witness :
  Matcher.search Fixtures.two_tenant_matcher 5%Z 0%Q (Some "other") Fixtures.two_hits
  = Some [{| Matcher.kb_item_id := "kb-b"; Matcher.content := "Beta content";
             Matcher.score := 8#10; Matcher.rank := 1 |}]
  /\ Forall (Matcher.from_item (Matcher.kb_items Fixtures.two_tenant_matcher) (Some "other")
               Fixtures.two_hits)
       [{| Matcher.kb_item_id := "kb-b"; Matcher.content := "Beta content";
           Matcher.score := 8#10; Matcher.rank := 1 |}].
Proof.
  assert (H : Matcher.search Fixtures.two_tenant_matcher 5%Z 0%Q (Some "other") Fixtures.two_hits
    = Some [{| Matcher.kb_item_id := "kb-b"; Matcher.content := "Beta content";
               Matcher.score := 8#10; Matcher.rank := 1 |}]) by reflexivity.
  split; [exact H | exact (search_results_from_items _ _ _ _ _ _ _ H)].
Defined.

(** X14.  [match_requirements] keeps the requirements in order, and the
    [match_percentage] of each is in [0, 100]: the best match's score times
    100 capped at 100 (scores below the default [min_score = 0.0] are
    filtered out), or 0 without match. *)
Theorem match_requirements_percentages :
  forall (V : Type) (st : Matcher.State V) reqs top_k tenant_id ranking es,
    Matcher.match_requirements st reqs top_k tenant_id ranking = Some es ->
    map Matcher.requirement_id es = map Matcher.req_id reqs
    /\ map Matcher.m_category es = map Matcher.req_category reqs
    /\ Forall (fun e => Matcher.in_pct (Matcher.match_percentage e)) es.
Proof.
  exact MatcherFacts.match_requirements_ok.
Qed.

(** X15.  [calculate_summary] fails (the [AttributeError] of [None.lower()])
    exactly when some result has a [None] category. *)
Theorem calculate_summary_none_category :
  forall results,
    Matcher.calculate_summary results = None
    <-> exists r, In r results /\ Matcher.m_category r = None.
Proof.
  exact MatcherFacts.calculate_summary_none.
Qed.

(** X16.  When every [match_percentage] is in [0, 100], the summary of
    [calculate_summary] (the three category averages and the overall
    average) is in [0, 100], and each category of the breakdown has at most
    as many matched requirements as requirements. *)
Theorem calculate_summary_bounds :
  forall results s b,
    Forall (fun r => Matcher.in_pct (Matcher.match_percentage r)) results ->
    Matcher.calculate_summary results = Some (s, b) ->
    Matcher.in_pct (Matcher.eligibility_match s) /\ Matcher.in_pct (Matcher.technical_match s)
    /\ Matcher.in_pct (Matcher.compliance_match s) /\ Matcher.in_pct (Matcher.overall_match s)
    /\ Matcher.bd_ok b.
Proof.
  exact MatcherFacts.calculate_summary_ok.
Qed.

Lemma match_requirements_percentages_witness :
  exists es,
    Matcher.match_requirements Fixtures.two_tenant_matcher
      [{| Matcher.req_id := "r1"; Matcher.req_text := "ISO certificate";
          Matcher.req_category := Some "TECHNICAL" |}]
      5%Z None (fun _ => Fixtures.two_hits) = Some es
    /\ map Matcher.requirement_id es = ["r1"]
    /\ map Matcher.m_category es = [Some "TECHNICAL"]
    /\ Forall (fun e => Matcher.in_pct (Matcher.match_percentage e)) es.
Proof.
  destruct (Matcher.match_requirements Fixtures.two_tenant_matcher
      [{| Matcher.req_id := "r1"; Matcher.req_text := "ISO certificate";
          Matcher.req_category := Some "TECHNICAL" |}]
      5%Z None (fun _ => Fixtures.two_hits)) as [es |] eqn:E;
    [| vm_compute in E; discriminate E].
  exists es. split; [reflexivity |].
  exact (match_requirements_percentages unit Fixtures.two_tenant_matcher _ 5%Z None
           (fun _ => Fixtures.two_hits) es E).
Defined.

Lemma calculate_summary_bounds_witness :
  exists s b,
    Matcher.calculate_summary
      [{| Matcher.requirement_id := "r1"; Matcher.requirement_text := "ISO certificate";
          Matcher.m_category := Some "TECHNICAL"; Matcher.match_percentage := 90%Q;
          Matcher.matches := [] |};
       {| Matcher.requirement_id := "r2"; Matcher.requirement_text := "Turnover";
          Matcher.m_category := Some "ELIGIBILITY"; Matcher.match_percentage := 40%Q;
          Matcher.matches := [] |}] = Some (s, b)
    /\ Matcher.in_pct (Matcher.eligibility_match s) /\ Matcher.in_pct (Matcher.technical_match s)
    /\ Matcher.in_pct (Matcher.compliance_match s) /\ Matcher.in_pct (Matcher.overall_match s)
    /\ Matcher.bd_ok b.
Proof.
  destruct (Matcher.calculate_summary
      [{| Matcher.requirement_id := "r1"; Matcher.requirement_text := "ISO certificate";
          Matcher.m_category := Some "TECHNICAL"; Matcher.match_percentage := 90%Q;
          Matcher.matches := [] |};
       {| Matcher.requirement_id := "r2"; Matcher.requirement_text := "Turnover";
          Matcher.m_category := Some "ELIGIBILITY"; Matcher.match_percentage := 40%Q;
          Matcher.matches := [] |}]) as [[s b] |] eqn:E;
    [| vm_compute in E; discriminate E].
  exists s, b. split; [reflexivity |].
  refine (calculate_summary_bounds _ s b _ E).
  constructor; [| constructor; [| constructor]]; unfold Matcher.in_pct; simpl; split; lra.
Defined.

(** ** The extractor: bookkeeping of the rule-based loop and of the LLM loop *)

Module ExtractorFacts.

Import Extractor.

Lemma StronglySorted_snoc (l : list nat) (x : nat) :
  StronglySorted lt l -> Forall (fun y => y < x) l -> StronglySorted lt (l ++ [x]).
Proof.
  induction l as [| a l IH]; intros Hs Hf; simpl.
  - repeat constructor.
  - inversion Hs; subst. inversion Hf; subst. constructor.
    + apply IH; assumption.
    + apply Forall_app. split; [assumption | constructor; [assumption | constructor]].
Qed.

Section Rule.

Variable is_requirement : string -> bool.
Variable categorize : string -> RequirementCategory * Q * option string.

Lemma rule_loop_inv (pages : list Page) (ss : list string) :
  forall seen o reqs,
    o < 50 -> map order reqs = seq 0 o ->
    seen = rev (map (fun r => Py.lower (r_text r)) reqs) -> NoDup seen ->
    Forall (rule_good is_requirement) reqs ->
    let rs := rule_loop is_requirement categorize pages ss seen o reqs in
    map order rs = seq 0 (length rs) /\ length rs <= 50
    /\ Forall (rule_good is_requirement) rs /\ NoDup (map (fun r => Py.lower (r_text r)) rs).
Proof.
  induction ss as [| s rest IH]; intros seen o reqs Ho Hord Hseen Hnd Hg;
    cbn [rule_loop]; cbv zeta.
  - assert (Hl : length reqs = o).
    { rewrite <- (length_map order reqs), Hord. apply length_seq. }
    rewrite Hl. split; [exact Hord | split; [lia | split; [exact Hg |]]].
    rewrite <- (rev_involutive (map _ reqs)), <- Hseen. apply NoDup_rev. exact Hnd.
  - destruct ((String.length (Py.strip s) <? 20)
              || existsb (String.eqb (Py.lower (Py.strip s))) seen
              || negb (is_requirement (Py.strip s))) eqn:Ec.
    + apply IH; assumption.
    + apply orb_false_iff in Ec as [Ec Hreq]. apply orb_false_iff in Ec as [Hlen Hnew].
      apply negb_false_iff in Hreq. apply Nat.ltb_ge in Hlen.
      destruct (categorize (Py.strip s)) as [[cat conf] sub].
      set (r := {| r_text := Py.strip s; category := cat; subcategory := sub;
                   confidence := conf; page_number := page_of (Py.strip s) pages;
                   order := o |}).
      assert (Hnin : ~ In (Py.lower (Py.strip s)) seen).
      { intros Hin. assert (Hx : existsb (String.eqb (Py.lower (Py.strip s))) seen = true).
        { apply existsb_exists. exists (Py.lower (Py.strip s)). split; [exact Hin |].
          apply String.eqb_refl. }
        congruence. }
      assert (Hord' : map order (reqs ++ [r]) = seq 0 (S o)).
      { rewrite map_app, Hord, seq_S. reflexivity. }
      assert (Hseen' : Py.lower (Py.strip s) :: seen
                       = rev (map (fun r => Py.lower (r_text r)) (reqs ++ [r]))).
      { rewrite map_app, rev_app_distr, <- Hseen. reflexivity. }
      assert (Hnd' : NoDup (Py.lower (Py.strip s) :: seen)) by (constructor; assumption).
      assert (Hg' : Forall (rule_good is_requirement) (reqs ++ [r])).
      { apply Forall_app. split; [exact Hg |]. constructor; [| constructor].
        split; assumption. }
      destruct (50 <=? S o) eqn:E50.
      * assert (Hl : length (reqs ++ [r]) = S o).
        { rewrite <- (length_map order (reqs ++ [r])), Hord'. apply length_seq. }
        rewrite Hl. split; [exact Hord' | split; [lia | split; [exact Hg' |]]].
        rewrite <- (rev_involutive (map _ (reqs ++ [r]))), <- Hseen'.
        apply NoDup_rev. exact Hnd'.
      * apply Nat.leb_gt in E50. apply IH; assumption.
Qed.

Lemma rule_loop_sentences (pages : list Page) (ss : list string) :
  forall seen o reqs r,
    In r (rule_loop is_requirement categorize pages ss seen o reqs) ->
    In r reqs \/ In (r_text r) (map Py.strip ss).
Proof.
  induction ss as [| s rest IH]; intros seen o reqs r Hin;
    cbn [rule_loop map] in Hin |- *.
  - left. exact Hin.
  - destruct (_ || _ || _).
    + destruct (IH _ _ _ _ Hin) as [H | H]; [left; exact H | right; right; exact H].
    + destruct (categorize (Py.strip s)) as [[cat conf] sub].
      assert (Hstep : forall r', In r' (reqs ++ [{| r_text := Py.strip s; category := cat;
                        subcategory := sub; confidence := conf;
                        page_number := page_of (Py.strip s) pages; order := o |}]) ->
                      In r' reqs \/ Py.strip s = r_text r').
      { intros r' H. apply in_app_or in H as [H | [H | []]]; [left; exact H |].
        right. subst r'. reflexivity. }
      destruct (50 <=? S o).
      * destruct (Hstep r Hin) as [H | H]; [left; exact H | right; left; exact H].
      * destruct (IH _ _ _ _ Hin) as [H | H]; [| right; right; exact H].
        destruct (Hstep r H) as [H' | H']; [left; exact H' | right; left; exact H'].
Qed.

End Rule.

Lemma llm_items_loop_inv (pages : list Page) (all : list LlmItem) (items : list LlmItem) :
  forall pre extracted rs,
    all = pre ++ items ->
    StronglySorted lt (map order extracted) ->
    Forall (fun r => order r < length pre) extracted ->
    Forall (llm_good all pages) extracted ->
    llm_items_loop pages (length pre) items extracted = Some rs ->
    StronglySorted lt (map order rs) /\ Forall (llm_good all pages) rs.
Proof.
  induction items as [| item rest IH]; intros pre extracted rs Hall Hs Hlt Hg H;
    simpl in H.
  - injection H as <-. split; assumption.
  - assert (Hpre : all = (pre ++ [item]) ++ rest) by (rewrite <- app_assoc; exact Hall).
    assert (Hlen : S (length pre) = length (pre ++ [item]))
      by (rewrite length_app; simpl; lia).
    assert (Hnth : nth_error all (length pre) = Some item).
    { rewrite Hall, nth_error_app2, Nat.sub_diag by lia. reflexivity. }
    destruct (String.eqb _ EmptyString) eqn:Ee.
    + rewrite Hlen in H. refine (IH _ _ _ Hpre Hs _ Hg H).
      eapply Forall_impl; [| exact Hlt]. intros r Hr. simpl in Hr |- *.
      rewrite length_app. simpl. lia.
    + destruct (category_of_string _) as [c |]; [| discriminate].
      rewrite Hlen in H. refine (IH _ _ _ Hpre _ _ _ H).
      * rewrite map_app. apply StronglySorted_snoc; [exact Hs |].
        rewrite Forall_map. exact Hlt.
      * apply Forall_app. split.
        -- eapply Forall_impl; [| exact Hlt]. intros r Hr. simpl in Hr |- *.
           rewrite length_app. simpl. lia.
        -- constructor; [| constructor]. simpl. rewrite length_app. simpl. lia.
      * apply Forall_app. split; [exact Hg |]. constructor; [| constructor].
        unfold llm_good. simpl.
        destruct (li_text item) as [t |] eqn:Et; [| discriminate].
        apply String.eqb_neq in Ee.
        split; [reflexivity | split; [exact Ee | split; [| reflexivity]]].
        exists item. split; [exact Hnth | exact Et].
Qed.

Lemma llm_items_loop_invalid (pages : list Page) (items : list LlmItem) :
  forall i extracted it t,
    In it items -> li_text it = Some t -> t <> EmptyString ->
    category_of_string (match li_category it with Some c => c | None => "TECHNICAL" end)
      = None ->
    llm_items_loop pages i items extracted = None.
Proof.
  induction items as [| item rest IH]; intros i extracted it t Hin Ht Hne Hc;
    [destruct Hin |].
  simpl. destruct Hin as [<- | Hin].
  - rewrite Ht. apply String.eqb_neq in Hne. rewrite Hne, Hc. reflexivity.
  - destruct (String.eqb _ EmptyString); [exact (IH _ _ _ _ Hin Ht Hne Hc) |].
    destruct (category_of_string
                (match li_category item with Some c => c | None => "TECHNICAL" end));
      [exact (IH _ _ _ _ Hin Ht Hne Hc) | reflexivity].
Qed.

End ExtractorFacts.

(** X17.  Without a Mistral key, [extract] runs the rule-based path only.
    Whatever [_split_sentences], [_is_requirement] and [_categorize] do,
    the orders of the returned requirements are exactly 0, 1, ..., n-1.
    There are at most 50 requirements, and each has at least 20
    characters and passes [_is_requirement]. Each text is a stripped
    sentence of the split, and no two texts are equal up to case. *)
Theorem extract_rule_based_invariants :
  forall split_sentences is_requirement categorize env text pages,
    Extractor.mistral_key env = false ->
    let rs := Extractor.extract split_sentences is_requirement categorize env text pages in
    map Extractor.order rs = seq 0 (length rs) /\ length rs <= 50
    /\ Forall (fun r => 20 <= String.length (Extractor.r_text r)
                        /\ is_requirement (Extractor.r_text r) = true
                        /\ In (Extractor.r_text r) (map Py.strip (split_sentences text))) rs
    /\ NoDup (map (fun r => Py.lower (Extractor.r_text r)) rs).
Proof.
  intros split_sentences is_requirement categorize env text pages Hk rs.
  assert (Hrs : rs = Extractor.rule_loop is_requirement categorize pages
                       (split_sentences text) [] 0 []).
  { subst rs. unfold Extractor.extract. rewrite Hk, !andb_false_r. simpl.
    destruct (Extractor.rule_loop _ _ _ _ _ _ _); reflexivity. }
  destruct (ExtractorFacts.rule_loop_inv is_requirement categorize pages
              (split_sentences text) [] 0 [] ltac:(lia) eq_refl eq_refl
              (NoDup_nil _) (Forall_nil _)) as [H1 [H2 [H3 H4]]].
  rewrite Hrs. split; [exact H1 | split; [exact H2 | split; [| exact H4]]].
  apply Forall_forall. intros r Hin.
  pose proof (proj1 (Forall_forall _ _) H3 r Hin) as [Hl Hreq].
  split; [exact Hl | split; [exact Hreq |]].
  destruct (ExtractorFacts.rule_loop_sentences is_requirement categorize pages _ _ _ _ _ Hin)
    as [[] | H]; exact H.
Qed.

Lemma extract_rule_based_invariants_witness :
  Extractor.mistral_key
    {| Extractor.detect := fun _ => Some "en"; Extractor.mistral_key := false;
       Extractor.llm_extract := fun _ _ => Extractor.XFail |} = false
  /\ let rs := Extractor.extract (fun t => [t; t]) (fun _ => true)
                 (fun _ => (Extractor.TECHNICAL, 1#2, None))
                 {| Extractor.detect := fun _ => Some "en"; Extractor.mistral_key := false;
                    Extractor.llm_extract := fun _ _ => Extractor.XFail |}
                 "The bidder shall submit an ISO certificate." [] in
     map Extractor.order rs = seq 0 (length rs) /\ length rs <= 50
     /\ Forall (fun r => 20 <= String.length (Extractor.r_text r)
                         /\ true = true
                         /\ In (Extractor.r_text r)
                               (map Py.strip ["The bidder shall submit an ISO certificate.";
                                              "The bidder shall submit an ISO certificate."])) rs
     /\ NoDup (map (fun r => Py.lower (Extractor.r_text r)) rs).
Proof.
  split; [reflexivity |].
  exact (extract_rule_based_invariants (fun t => [t; t]) (fun _ => true)
           (fun _ => (Extractor.TECHNICAL, 1#2, None))
           {| Extractor.detect := fun _ => Some "en"; Extractor.mistral_key := false;
              Extractor.llm_extract := fun _ _ => Extractor.XFail |}
           "The bidder shall submit an ISO certificate." [] eq_refl).
Defined.

(** X18.  Whatever the list of items returned by the LLM, the orders of the
    requirements built by [_extract_llm] strictly increase. Each of them
    has confidence 0.95 and a non-empty text. Its [order] is the index of
    an LLM item with exactly that text, and its page is the one found for
    that text. *)
Theorem extract_llm_items_shape :
  forall items pages,
    let rs := Extractor.extract_llm (Extractor.XItems items) pages in
    StronglySorted lt (map Extractor.order rs)
    /\ Forall (Extractor.llm_good items pages) rs.
Proof.
  intros items pages rs. subst rs. unfold Extractor.extract_llm.
  destruct (Extractor.llm_items_loop pages 0 items []) as [rs |] eqn:E.
  - exact (ExtractorFacts.llm_items_loop_inv pages items items [] [] rs eq_refl
             (SSorted_nil _) (Forall_nil _) (Forall_nil _) E).
  - split; constructor.
Qed.

(** X19.  One LLM item with a non-empty text and a category that is not
    ELIGIBILITY, TECHNICAL or COMPLIANCE makes [RequirementCategory(...)]
    raise. The handler of [_extract_llm] then returns an empty list: the
    valid items of the reply are lost too. *)
Theorem extract_llm_invalid_category_empty :
  forall items pages it t,
    In it items -> Extractor.li_text it = Some t -> t <> EmptyString ->
    Extractor.category_of_string
      (match Extractor.li_category it with Some c => c | None => "TECHNICAL" end) = None ->
    Extractor.extract_llm (Extractor.XItems items) pages = [].
Proof.
  intros items pages it t Hin Ht Hne Hc. unfold Extractor.extract_llm.
  rewrite (ExtractorFacts.llm_items_loop_invalid pages items 0 [] it t Hin Ht Hne Hc).
  reflexivity.
Qed.

Lemma extract_llm_invalid_category_empty_witness :
  Extractor.extract_llm
    (Extractor.XItems
       [{| Extractor.li_text := Some "The bidder must hold ISO 9001.";
           Extractor.li_category := Some "TECHNICAL"; Extractor.li_subcategory := None |};
        {| Extractor.li_text := Some "Pay the EMD.";
           Extractor.li_category := Some "FINANCIAL"; Extractor.li_subcategory := None |}])
    [] = [].
Proof.
  refine (extract_llm_invalid_category_empty _ []
            {| Extractor.li_text := Some "Pay the EMD.";
               Extractor.li_category := Some "FINANCIAL"; Extractor.li_subcategory := None |}
            "Pay the EMD." _ eq_refl _ eq_refl).
  - right. left. reflexivity.
  - discriminate.
Defined.

(** X20.  The matching step of [process_document]: its requirements come
    from the database with a category string each. When every requirement
    has a category, [calculate_summary] applied to the results of
    [match_requirements] does not fail. Its four summary values are then
    in [0, 100], and in each category of the breakdown the matched count
    is at most the total. *)
Theorem pipeline_summary_bounds :
  forall (V : Type) (st : Matcher.State V) reqs top_k tenant_id ranking es,
    Matcher.match_requirements st reqs top_k tenant_id ranking = Some es ->
    Forall (fun r => Matcher.req_category r <> None) reqs ->
    exists s b,
      Matcher.calculate_summary es = Some (s, b)
      /\ Matcher.in_pct (Matcher.eligibility_match s)
      /\ Matcher.in_pct (Matcher.technical_match s)
      /\ Matcher.in_pct (Matcher.compliance_match s)
      /\ Matcher.in_pct (Matcher.overall_match s) /\ Matcher.bd_ok b.
Proof.
  intros V st reqs top_k tenant_id ranking es H Hcat.
  destruct (MatcherFacts.match_requirements_ok V st reqs top_k tenant_id ranking es H)
    as [_ [Hc Hp]].
  destruct (Matcher.calculate_summary es) as [[s b] |] eqn:E.
  - exists s, b. split; [reflexivity |].
    exact (MatcherFacts.calculate_summary_ok es s b Hp E).
  - exfalso. apply MatcherFacts.calculate_summary_none in E as [r [Hin Hr]].
    assert (Hin' : In (Matcher.m_category r) (map Matcher.req_category reqs)).
    { rewrite <- Hc. apply in_map. exact Hin. }
    apply in_map_iff in Hin' as [q [Hq Hinq]].
    exact (proj1 (Forall_forall _ _) Hcat q Hinq (eq_trans Hq Hr)).
Qed.

Lemma pipeline_summary_bounds_witness :
  exists s b,
    Matcher.calculate_summary
      match Matcher.match_requirements Fixtures.two_tenant_matcher
              [{| Matcher.req_id := "r1"; Matcher.req_text := "ISO certificate";
                  Matcher.req_category := Some "TECHNICAL" |}]
              5%Z None (fun _ => Fixtures.two_hits) with
      | Some es => es | None => [] end = Some (s, b)
    /\ Matcher.in_pct (Matcher.eligibility_match s)
    /\ Matcher.in_pct (Matcher.technical_match s)
    /\ Matcher.in_pct (Matcher.compliance_match s)
    /\ Matcher.in_pct (Matcher.overall_match s) /\ Matcher.bd_ok b.
Proof.
  destruct (Matcher.match_requirements Fixtures.two_tenant_matcher
              [{| Matcher.req_id := "r1"; Matcher.req_text := "ISO certificate";
                  Matcher.req_category := Some "TECHNICAL" |}]
              5%Z None (fun _ => Fixtures.two_hits)) as [es |] eqn:E;
    [| vm_compute in E; discriminate E].
  refine (pipeline_summary_bounds unit Fixtures.two_tenant_matcher _ 5%Z None
            (fun _ => Fixtures.two_hits) es E _).
  constructor; [discriminate | constructor].
Defined.

(** ** Refinement, sentence ranking and page lookup *)

Module RefineFacts.

Import Composer.

Lemma humanize_keeps (env : Env) (k : nat) (c : ComposedResponse) (mode : string)
  (h : ComposedResponse) (k' : nat) :
  humanize env k c mode = (h, k') ->
  provenance h = provenance c /\ kb_percentage h = kb_percentage c.
Proof.
  unfold humanize.
  destruct (Humanizer.humanize_text _ _ _ _ _) as [[[[t o] n] tags] k0].
  intros E. injection E as <- _. split; reflexivity.
Qed.

Lemma refine_loop_accepted (env : Env) (mode : string) (n : nat) :
  forall attempt current k r k',
    refine_loop env mode n attempt current k = (Some r, k') ->
    (ai_percentage r <= max_ai_percentage env)%Q
    /\ kb_percentage r = 50%Q
    /\ (exists len, provenance r = [{| start := 0; end_ := len; source := KNOWLEDGE_BASE;
                                       prov_kb_item_id := None |}])
    /\ (exists i cur c, attempt <= i < attempt + n
                        /\ refine_llm env i cur = Humanizer.LlmReply c).
Proof.
  induction n as [| n IH]; intros attempt current k r k' H; simpl in H;
    [discriminate |].
  destruct (refine_llm env attempt current) as [c | |] eqn:Ec; try discriminate.
  destruct (humanize env k _ mode) as [h k1] eqn:Eh.
  destruct (Qle_bool (ai_percentage h) (max_ai_percentage env)) eqn:Eq.
  - injection H as <- _. apply Qle_bool_iff in Eq.
    destruct (humanize_keeps _ _ _ _ _ _ Eh) as [Hp Hk]. simpl in Hp, Hk.
    split; [exact Eq | split; [exact Hk | split]].
    + eexists. exact Hp.
    + exists attempt, current, c. split; [lia | exact Ec].
  - destruct (IH _ _ _ _ _ H) as [H1 [H2 [H3 [i [cur [c' [Hi Hc']]]]]]].
    split; [exact H1 | split; [exact H2 | split; [exact H3 |]]].
    exists i, cur, c'. split; [lia | exact Hc'].
Qed.

End RefineFacts.

Module RankFacts.

Import Composer.

Lemma insert_desc_perm (x : nat * string * string) (l : list (nat * string * string)) :
  Permutation (insert_desc x l) (x :: l).
Proof.
  induction l as [| y r IH]; simpl; [reflexivity |].
  destruct (fst (fst y) <? fst (fst x)); [reflexivity |].
  eapply perm_trans; [apply perm_skip; exact IH | apply perm_swap].
Qed.

Lemma sort_desc_perm (l : list (nat * string * string)) : Permutation (sort_desc l) l.
Proof.
  unfold sort_desc. eapply perm_trans; [| apply Permutation_sym, Permutation_rev].
  generalize (rev l) as m. induction m as [| x m IH]; simpl; [reflexivity |].
  eapply perm_trans; [apply insert_desc_perm | apply perm_skip; exact IH].
Qed.

Lemma insert_desc_sorted (x : nat * string * string) (l : list (nat * string * string)) :
  StronglySorted desc_overlap l -> StronglySorted desc_overlap (insert_desc x l).
Proof.
  induction l as [| y r IH]; intros Hs; simpl; [repeat constructor |].
  inversion Hs as [| ? ? Hr Hy]; subst.
  destruct (fst (fst y) <? fst (fst x)) eqn:E.
  - apply Nat.ltb_lt in E. constructor; [exact Hs |].
    constructor; [unfold desc_overlap, overlap_key; lia |].
    eapply Forall_impl; [| exact Hy]. unfold desc_overlap, overlap_key. intros z Hz. lia.
  - apply Nat.ltb_ge in E. constructor; [apply IH; exact Hr |].
    apply Forall_forall. intros z Hz.
    apply (Permutation_in _ (insert_desc_perm x r)) in Hz as [<- | Hz].
    + unfold desc_overlap, overlap_key. lia.
    + exact (proj1 (Forall_forall _ _) Hy z Hz).
Qed.

Lemma sort_desc_sorted (l : list (nat * string * string)) :
  StronglySorted desc_overlap (sort_desc l).
Proof.
  unfold sort_desc. generalize (rev l) as m.
  induction m as [| x m IH]; simpl; [constructor |].
  apply insert_desc_sorted. exact IH.
Qed.

Lemma insert_desc_filter (n : nat) (x : nat * string * string) (s : list (nat * string * string)) :
  StronglySorted desc_overlap s ->
  filter (fun y => overlap_key y =? n) (insert_desc x s)
  = filter (fun y => overlap_key y =? n) s ++ filter (fun y => overlap_key y =? n) [x].
Proof.
  induction s as [| y r IH]; intros Hs; [reflexivity |].
  inversion Hs as [| ? ? Hr Hy]; subst. cbn [insert_desc].
  destruct (fst (fst y) <? fst (fst x)) eqn:E.
  - apply Nat.ltb_lt in E.
    change (filter (fun y => overlap_key y =? n) (x :: y :: r)) with
      (if overlap_key x =? n then x :: filter (fun y => overlap_key y =? n) (y :: r)
       else filter (fun y => overlap_key y =? n) (y :: r)).
    change (filter (fun y => overlap_key y =? n) [x]) with
      (if overlap_key x =? n then [x] else []).
    destruct (overlap_key x =? n) eqn:Ex.
    + apply Nat.eqb_eq in Ex. unfold overlap_key in Ex.
      assert (Hnil : filter (fun y => overlap_key y =? n) (y :: r) = []).
      { simpl. assert (Hyn : (overlap_key y =? n) = false)
          by (apply Nat.eqb_neq; unfold overlap_key; lia).
        rewrite Hyn. clear IH Hs Hyn. induction r as [| z r IHr]; [reflexivity |].
        inversion_clear Hy as [| ? ? Hz Hy']. inversion_clear Hr. simpl.
        assert (Hzn : (overlap_key z =? n) = false)
          by (apply Nat.eqb_neq; unfold desc_overlap, overlap_key in Hz |- *; lia).
        rewrite Hzn. apply IHr; assumption. }
      rewrite Hnil. reflexivity.
    + rewrite app_nil_r. reflexivity.
  - simpl. rewrite IH by exact Hr. destruct (overlap_key y =? n); reflexivity.
Qed.

Lemma sort_desc_stable (n : nat) (l : list (nat * string * string)) :
  filter (fun y => overlap_key y =? n) (sort_desc l) = filter (fun y => overlap_key y =? n) l.
Proof.
  induction l as [| x l IH] using rev_ind; [reflexivity |].
  unfold sort_desc. rewrite rev_unit. simpl.
  rewrite insert_desc_filter by apply sort_desc_sorted.
  fold (sort_desc l). rewrite IH, filter_app. reflexivity.
Qed.

End RankFacts.

Module PageFacts.

Import Extractor.

Lemma find_page_first (needle : string) (pages : list Page) (p : Page) :
  find (fun p => Lit.search (Lit.plain needle) (Py.lower (page_content p))) pages = Some p ->
  exists pre post,
    pages = pre ++ p :: post
    /\ Lit.search (Lit.plain needle) (Py.lower (page_content p)) = true
    /\ Forall (fun q => Lit.search (Lit.plain needle) (Py.lower (page_content q)) = false) pre.
Proof.
  induction pages as [| q rest IH]; simpl; [discriminate |].
  destruct (Lit.search (Lit.plain needle) (Py.lower (page_content q))) eqn:Eq.
  - intros E. injection E as <-. exists [], rest. split; [reflexivity | split; [exact Eq |]].
    constructor.
  - intros E. destruct (IH E) as [pre [post [H1 [H2 H3]]]].
    exists (q :: pre), post. rewrite H1. split; [reflexivity | split; [exact H2 |]].
    constructor; assumption.
Qed.

End PageFacts.

(** X21.  A response accepted by [_refine_for_tender] needs an API key.
    Its [ai_percentage] (the detector score after [_humanize]) is at most
    [max_ai_percentage]. Its [kb_percentage] is the placeholder 50,
    whatever the text. Its provenance is the single knowledge-base span of
    the temporary response, with no [kb_item_id]. It is the answer to one
    of the at most 10 attempts ([range(10)]). *)
Theorem refine_for_tender_accepted :
  forall env k requirement kb_text mode tone r k',
    Composer.refine_for_tender env k requirement kb_text mode tone = (Some r, k') ->
    Composer.api_key env = true
    /\ (Composer.ai_percentage r <= Composer.max_ai_percentage env)%Q
    /\ Composer.kb_percentage r = 50%Q
    /\ (exists len, Composer.provenance r
                    = [{| Composer.start := 0; Composer.end_ := len;
                          Composer.source := Composer.KNOWLEDGE_BASE;
                          Composer.prov_kb_item_id := None |}])
    /\ (exists i cur c, i < 10 /\ Composer.refine_llm env i cur = Humanizer.LlmReply c).
Proof.
  intros env k requirement kb_text mode tone r k' H.
  unfold Composer.refine_for_tender in H.
  destruct (Composer.api_key env); [| discriminate].
  destruct (RefineFacts.refine_loop_accepted env mode 10 0 None k r k' H)
    as [H1 [H2 [H3 [i [cur [c [Hi Hc]]]]]]].
  split; [reflexivity | split; [exact H1 | split; [exact H2 | split; [exact H3 |]]]].
  exists i, cur, c. split; [lia | exact Hc].
Qed.

Lemma refine_for_tender_accepted_witness :
  exists r k',
    Composer.refine_for_tender
      {| Composer.henv := Composer.henv Fixtures.no_llm_env;
         Composer.rng := Composer.rng Fixtures.no_llm_env;
         Composer.api_key := true; Composer.max_ai_percentage := 100;
         Composer.refine_llm := fun _ _ =>
           Humanizer.LlmReply " We hold ISO 9001 certification since 2015. " |}
      0 "ISO certification" "We hold ISO 9001 certification." "balanced" "professional"
    = (Some r, k')
    /\ Composer.kb_percentage r = 50%Q.
Proof.
  destruct (Composer.refine_for_tender
      {| Composer.henv := Composer.henv Fixtures.no_llm_env;
         Composer.rng := Composer.rng Fixtures.no_llm_env;
         Composer.api_key := true; Composer.max_ai_percentage := 100;
         Composer.refine_llm := fun _ _ =>
           Humanizer.LlmReply " We hold ISO 9001 certification since 2015. " |}
      0 "ISO certification" "We hold ISO 9001 certification." "balanced" "professional")
    as [[r |] k'] eqn:E; [| vm_compute in E; discriminate E].
  exists r, k'. split; [reflexivity |].
  exact (proj1 (proj2 (proj2 (refine_for_tender_accepted _ _ _ _ _ _ r k' E)))).
Defined.

(** X22.  [scored_sentences.sort(reverse=True, key=lambda x: x[0])] in
    [_extract_relevant_content] is a stable sort by decreasing overlap.
    Its result is a permutation of the scored sentences with
    non-increasing overlaps. Sentences with equal overlap keep their
    original order, so [scored_sentences[:2]] takes the two best
    sentences, earliest first among ties. *)
Theorem sort_desc_stable_sort :
  forall l : list (nat * string * string),
    Permutation (Composer.sort_desc l) l
    /\ StronglySorted Composer.desc_overlap (Composer.sort_desc l)
    /\ (forall n, filter (fun y => Composer.overlap_key y =? n) (Composer.sort_desc l)
                  = filter (fun y => Composer.overlap_key y =? n) l).
Proof.
  intros l. split; [apply RankFacts.sort_desc_perm |].
  split; [apply RankFacts.sort_desc_sorted |].
  intros n. apply RankFacts.sort_desc_stable.
Qed.

(** X23.  When [_find_page_number] returns a page number, it is the
    [page_num] of the first page whose lowercased content contains the
    first 50 characters of the lowercased sentence; no earlier page
    contains them. *)
Theorem find_page_number_first :
  forall sentence pages n,
    Extractor.find_page_number sentence pages = Some n ->
    exists pre p post,
      pages = pre ++ p :: post
      /\ Extractor.page_num p = Some n
      /\ Lit.search (Lit.plain (substring 0 50 (Py.lower sentence)))
                    (Py.lower (Extractor.page_content p)) = true
      /\ Forall (fun q => Lit.search (Lit.plain (substring 0 50 (Py.lower sentence)))
                                     (Py.lower (Extractor.page_content q)) = false) pre.
Proof.
  intros sentence pages n H. unfold Extractor.find_page_number in H.
  destruct (find _ pages) as [p |] eqn:Ef; [| discriminate].
  destruct (PageFacts.find_page_first _ _ _ Ef) as [pre [post [H1 [H2 H3]]]].
  exists pre, p, post. split; [exact H1 | split; [exact H | split; assumption]].
Qed.

Lemma find_page_number_first_witness :
  Extractor.find_page_number "The bidder must submit an ISO certificate."
    [{| Extractor.page_num := Some 1%Z; Extractor.page_content := "Table of contents" |};
     {| Extractor.page_num := Some 2%Z;
        Extractor.page_content := "2. THE BIDDER MUST SUBMIT AN ISO CERTIFICATE." |}]
  = Some 2%Z
  /\ exists pre p post,
      [{| Extractor.page_num := Some 1%Z; Extractor.page_content := "Table of contents" |};
       {| Extractor.page_num := Some 2%Z;
          Extractor.page_content := "2. THE BIDDER MUST SUBMIT AN ISO CERTIFICATE." |}]
      = pre ++ p :: post
      /\ Extractor.page_num p = Some 2%Z
      /\ Lit.search (Lit.plain (substring 0 50
                      (Py.lower "The bidder must submit an ISO certificate.")))
                    (Py.lower (Extractor.page_content p)) = true
      /\ Forall (fun q => Lit.search (Lit.plain (substring 0 50
                      (Py.lower "The bidder must submit an ISO certificate.")))
                    (Py.lower (Extractor.page_content q)) = false) pre.
Proof.
  assert (H : Extractor.find_page_number "The bidder must submit an ISO certificate."
    [{| Extractor.page_num := Some 1%Z; Extractor.page_content := "Table of contents" |};
     {| Extractor.page_num := Some 2%Z;
        Extractor.page_content := "2. THE BIDDER MUST SUBMIT AN ISO CERTIFICATE." |}]
    = Some 2%Z) by (vm_compute; reflexivity).
  split; [exact H | exact (find_page_number_first _ _ _ H)].
Defined.

Module SynonymFacts.

Import Humanizer.

Lemma synonym_word_draws (g : Rng) (intensity : Q) (w : string) (k : nat) :
  let '(_, hit, k') := synonym_word g intensity w k in
  k' = k + (match lookup (Py.strip_by trail_char (Py.lower w)) synonyms with
            | Some _ => 1 | None => 0 end)
         + (if hit then 1 else 0).
Proof.
  unfold synonym_word.
  destruct (lookup _ synonyms); [| lia].
  destruct (Detector.Qltb _ _); lia.
Qed.

End SynonymFacts.

(** X24.  [apply_synonym_replacement] draws one [random.random()] for each
    word whose lowercased, punctuation-stripped form is a key of
    [SYNONYMS] ([and] short-circuits for the others), plus one
    [random.choice] per replacement it counts. *)
Theorem apply_synonym_replacement_draws :
  forall (g : Humanizer.Rng) k text intensity,
    let '((_, n), k') := Humanizer.apply_synonym_replacement g k text intensity in
    k' = k + length (filter (fun w => match Humanizer.lookup
                                              (Py.strip_by Humanizer.trail_char (Py.lower w))
                                              Humanizer.synonyms with
                                      | Some _ => true | None => false end)
                            (Py.split_ws text))
           + n.
Proof.
  intros g k text intensity. unfold Humanizer.apply_synonym_replacement.
  match goal with |- context [fold_left ?F _ _] => set (f := F) end.
  assert (H : forall L ws n0 k0,
             let '(_, n, k') := fold_left f L (ws, n0, k0) in
             k' + n0 = k0 + length (filter (fun w => match Humanizer.lookup
                                              (Py.strip_by Humanizer.trail_char (Py.lower w))
                                              Humanizer.synonyms with
                                      | Some _ => true | None => false end) L) + n).
  { induction L as [| w L IH]; intros ws n0 k0; [simpl; lia |].
    rewrite HumanizerFacts.fold_left_cons.
    destruct (f (ws, n0, k0) w) as [[ws1 n1] k1] eqn:E.
    unfold f in E.
    pose proof (SynonymFacts.synonym_word_draws g intensity w k0) as Hd.
    destruct (Humanizer.synonym_word g intensity w k0) as [[w' hit] k'].
    injection E as <- <- <-.
    specialize (IH (ws ++ [w']) (if hit then S n0 else n0) k').
    destruct (fold_left f L _) as [[ws2 n2] k2].
    cbn [filter]. revert Hd.
    destruct (Humanizer.lookup (Py.strip_by Humanizer.trail_char (Py.lower w))
                Humanizer.synonyms);
      destruct hit; intros Hd; cbn [length]; lia. }
  specialize (H (Py.split_ws text) [] 0 k).
  destruct (fold_left f (Py.split_ws text) ([], 0, k)) as [[ws n] k'].
  lia.
Qed.

Module BreakdownFacts.

Import Matcher.

Lemma opt_eqb_refl (a : option string) : opt_eqb a a = true.
Proof. destruct a; simpl; [apply String.eqb_refl | reflexivity]. Qed.

Lemma cat_add_sums (cat : option string) (mp : Q)
  (bc : list (option string * (list Q * nat * nat))) :
  Detector.sumn (map (fun e => snd (fst (snd e))) (cat_add cat mp bc))
  = S (Detector.sumn (map (fun e => snd (fst (snd e))) bc))
  /\ Detector.sumn (map (fun e => snd (snd e)) (cat_add cat mp bc))
     = (if Qle_bool 50 mp then 1 else 0) + Detector.sumn (map (fun e => snd (snd e)) bc).
Proof.
  induction bc as [| [c [[sc t] m]] r IH]; simpl.
  - destruct (Qle_bool 50 mp); simpl; lia.
  - destruct (opt_eqb cat c); simpl.
    + destruct (Qle_bool 50 mp); simpl; lia.
    + destruct IH as [H1 H2]. unfold Detector.sumn in *. simpl in *. lia.
Qed.

Lemma by_category_sums (results : list MatchEntry) :
  Detector.sumn (map (fun e => snd (fst (snd e))) (by_category results)) = length results
  /\ Detector.sumn (map (fun e => snd (snd e)) (by_category results))
     = length (filter (fun r => Qle_bool 50 (match_percentage r)) results).
Proof.
  unfold by_category.
  assert (G : forall bc,
    Detector.sumn (map (fun e => snd (fst (snd e)))
      (fold_left (fun bc r => cat_add (m_category r) (match_percentage r) bc) results bc))
    = Detector.sumn (map (fun e => snd (fst (snd e))) bc) + length results
    /\ Detector.sumn (map (fun e => snd (snd e))
      (fold_left (fun bc r => cat_add (m_category r) (match_percentage r) bc) results bc))
    = Detector.sumn (map (fun e => snd (snd e)) bc)
      + length (filter (fun r => Qle_bool 50 (match_percentage r)) results)).
  { induction results as [| r rs IH]; intros bc; simpl; [lia |].
    destruct (IH (cat_add (m_category r) (match_percentage r) bc)) as [H1 H2].
    destruct (cat_add_sums (m_category r) (match_percentage r) bc) as [S1 S2].
    rewrite H1, H2, S1, S2.
    destruct (Qle_bool 50 (match_percentage r)); simpl; lia. }
  destruct (G []) as [H1 H2]. simpl in H1, H2. split; assumption.
Qed.

Lemma cat_add_nodup (cat : option string) (mp : Q)
  (bc : list (option string * (list Q * nat * nat))) :
  NoDup (map fst bc) -> NoDup (map fst (cat_add cat mp bc)).
Proof.
  induction bc as [| [c [[sc t] m]] r IH]; intros Hnd; simpl.
  - repeat constructor. intros [].
  - inversion Hnd as [| ? ? Hnin Hr]; subst.
    destruct (opt_eqb cat c) eqn:E; simpl; [exact Hnd |].
    constructor; [| apply IH; exact Hr].
    intros Hin. apply (proj1 (MatcherFacts.cat_add_keys cat mp r c)) in Hin as [-> | Hin].
    + rewrite opt_eqb_refl in E. discriminate.
    + exact (Hnin Hin).
Qed.

Lemma by_category_nodup (results : list MatchEntry) : NoDup (map fst (by_category results)).
Proof.
  unfold by_category.
  assert (G : forall bc, NoDup (map fst bc) ->
    NoDup (map fst (fold_left (fun bc r => cat_add (m_category r) (match_percentage r) bc)
                              results bc))).
  { induction results as [| r rs IH]; intros bc Hnd; simpl; [exact Hnd |].
    apply IH. apply cat_add_nodup. exact Hnd. }
  apply G. constructor.
Qed.

Lemma breakdown_fold (bc : list (option string * (list Q * nat * nat))) :
  forall b : (nat * nat) * (nat * nat) * (nat * nat),
    NoDup (map fst bc) ->
    (forall k, In k (map fst bc) ->
       (k = Some "ELIGIBILITY" /\ fst (fst b) = (0, 0))
       \/ (k = Some "TECHNICAL" /\ snd (fst b) = (0, 0))
       \/ (k = Some "COMPLIANCE" /\ snd b = (0, 0))) ->
    let b' := fold_left (fun b '(cat, (_, tot, m)) =>
                           match cat with
                           | Some cat => set_bd (Py.lower cat) (tot, m) b
                           | None => b
                           end) bc b in
    fst (fst (fst b')) + fst (snd (fst b')) + fst (snd b')
    = fst (fst (fst b)) + fst (snd (fst b)) + fst (snd b)
      + Detector.sumn (map (fun e => snd (fst (snd e))) bc)
    /\ snd (fst (fst b')) + snd (snd (fst b')) + snd (snd b')
       = snd (fst (fst b)) + snd (snd (fst b)) + snd (snd b)
         + Detector.sumn (map (fun e => snd (snd e)) bc).
Proof.
  induction bc as [| [c [[sc t] m]] r IH]; intros b Hnd Hinv; cbv zeta; [simpl; lia |].
  inversion Hnd as [| ? ? Hnin Hr]; subst.
  destruct b as [[[e1 e2] [t1 t2]] [c1 c2]].
  destruct (Hinv c (or_introl eq_refl)) as [[-> Hs] | [[-> Hs] | [-> Hs]]];
    simpl in Hs; injection Hs as -> ->.
  - assert (HI : forall k, In k (map fst r) ->
       (k = Some "ELIGIBILITY" /\ fst (fst ((t, m), (t1, t2), (c1, c2))) = (0, 0))
       \/ (k = Some "TECHNICAL" /\ snd (fst ((t, m), (t1, t2), (c1, c2))) = (0, 0))
       \/ (k = Some "COMPLIANCE" /\ snd ((t, m), (t1, t2), (c1, c2)) = (0, 0))).
    { intros k Hk. destruct (Hinv k (or_intror Hk)) as [[-> _] | [[-> Hs] | [-> Hs]]];
        [contradiction | right; left | right; right]; split; auto. }
    pose proof (IH _ Hr HI) as HH. cbv zeta in HH. destruct HH as [H1 H2].
    simpl in H1, H2 |- *. lia.
  - assert (HI : forall k, In k (map fst r) ->
       (k = Some "ELIGIBILITY" /\ fst (fst ((e1, e2), (t, m), (c1, c2))) = (0, 0))
       \/ (k = Some "TECHNICAL" /\ snd (fst ((e1, e2), (t, m), (c1, c2))) = (0, 0))
       \/ (k = Some "COMPLIANCE" /\ snd ((e1, e2), (t, m), (c1, c2)) = (0, 0))).
    { intros k Hk. destruct (Hinv k (or_intror Hk)) as [[-> Hs] | [[-> _] | [-> Hs]]];
        [left | contradiction | right; right]; split; auto. }
    pose proof (IH _ Hr HI) as HH. cbv zeta in HH. destruct HH as [H1 H2].
    simpl in H1, H2 |- *. lia.
  - assert (HI : forall k, In k (map fst r) ->
       (k = Some "ELIGIBILITY" /\ fst (fst ((e1, e2), (t1, t2), (t, m))) = (0, 0))
       \/ (k = Some "TECHNICAL" /\ snd (fst ((e1, e2), (t1, t2), (t, m))) = (0, 0))
       \/ (k = Some "COMPLIANCE" /\ snd ((e1, e2), (t1, t2), (t, m)) = (0, 0))).
    { intros k Hk. destruct (Hinv k (or_intror Hk)) as [[-> Hs] | [[-> Hs] | [-> _]]];
        [left | right; left | contradiction]; split; auto. }
    pose proof (IH _ Hr HI) as HH. cbv zeta in HH. destruct HH as [H1 H2].
    simpl in H1, H2 |- *. lia.
Qed.

End BreakdownFacts.

(** X25.  When every category is exactly ELIGIBILITY, TECHNICAL or
    COMPLIANCE, the breakdown of [calculate_summary] accounts for every
    result once. Its three totals add up to the number of results, and
    its three matched counts add up to the number of results with
    [match_percentage >= 50]. That number is what [process_document]
    stores as [matched_requirements]. *)
Theorem calculate_summary_breakdown_counts :
  forall results s e1 e2 t1 t2 c1 c2,
    Forall (fun r => In (Matcher.m_category r)
                        [Some "ELIGIBILITY"; Some "TECHNICAL"; Some "COMPLIANCE"]) results ->
    Matcher.calculate_summary results = Some (s, ((e1, e2), (t1, t2), (c1, c2))) ->
    e1 + t1 + c1 = length results
    /\ e2 + t2 + c2
       = length (filter (fun r => Qle_bool 50 (Matcher.match_percentage r)) results).
Proof.
  intros results s e1 e2 t1 t2 c1 c2 Hcat H. unfold Matcher.calculate_summary in H.
  destruct (Matcher.summary_loop _ _) as [[[e t] c] |]; [| discriminate].
  injection H as _ Hb.
  assert (HI : forall k, In k (map fst (Matcher.by_category results)) ->
       (k = Some "ELIGIBILITY" /\ fst (fst ((0, 0), (0, 0), (0, 0))) = (0, 0))
       \/ (k = Some "TECHNICAL" /\ snd (fst ((0, 0), (0, 0), (0, 0))) = (0, 0))
       \/ (k = Some "COMPLIANCE" /\ snd ((0, 0), (0, 0), (0, 0)) = (0, 0))).
  { intros k Hk. apply MatcherFacts.by_category_keys in Hk as [r [Hr <-]].
    destruct (proj1 (Forall_forall _ _) Hcat r Hr) as [-> | [-> | [-> | []]]];
      [left | right; left | right; right]; split; reflexivity. }
  pose proof (BreakdownFacts.breakdown_fold _ _ (BreakdownFacts.by_category_nodup results) HI)
    as HH.
  cbv zeta in HH. rewrite Hb in HH. destruct HH as [H1 H2].
  destruct (BreakdownFacts.by_category_sums results) as [S1 S2].
  simpl in H1, H2. split; lia.
Qed.

Lemma calculate_summary_breakdown_counts_witness :
  exists s e1 e2 t1 t2 c1 c2,
    Matcher.calculate_summary
      [{| Matcher.requirement_id := "r1"; Matcher.requirement_text := "ISO certificate";
          Matcher.m_category := Some "TECHNICAL"; Matcher.match_percentage := 90%Q;
          Matcher.matches := [] |};
       {| Matcher.requirement_id := "r2"; Matcher.requirement_text := "Turnover";
          Matcher.m_category := Some "ELIGIBILITY"; Matcher.match_percentage := 40%Q;
          Matcher.matches := [] |}] = Some (s, ((e1, e2), (t1, t2), (c1, c2)))
    /\ e1 + t1 + c1 = 2 /\ e2 + t2 + c2 = 1.
Proof.
  destruct (Matcher.calculate_summary
      [{| Matcher.requirement_id := "r1"; Matcher.requirement_text := "ISO certificate";
          Matcher.m_category := Some "TECHNICAL"; Matcher.match_percentage := 90%Q;
          Matcher.matches := [] |};
       {| Matcher.requirement_id := "r2"; Matcher.requirement_text := "Turnover";
          Matcher.m_category := Some "ELIGIBILITY"; Matcher.match_percentage := 40%Q;
          Matcher.matches := [] |}]) as [[s [[[e1 e2] [t1 t2]] [c1 c2]]] |] eqn:E;
    [| vm_compute in E; discriminate E].
  exists s, e1, e2, t1, t2, c1, c2. split; [reflexivity |].
  refine (calculate_summary_breakdown_counts _ s e1 e2 t1 t2 c1 c2 _ E).
  constructor; [right; left; reflexivity |].
  constructor; [left; reflexivity | constructor].
Defined.

Module WsFacts.

Import Humanizer.

Lemma of_rev_chars (acc : list ascii) (c : ascii) :
  In c (list_ascii_of_string (Py.of_rev acc)) <-> In c acc.
Proof.
  unfold Py.of_rev. rewrite list_ascii_of_string_of_list_ascii. split.
  - apply in_rev.
  - apply in_rev.
Qed.

Lemma of_rev_nonempty (a : ascii) (acc : list ascii) : Py.of_rev (a :: acc) <> EmptyString.
Proof.
  unfold Py.of_rev. intros H.
  apply (f_equal list_ascii_of_string) in H.
  rewrite list_ascii_of_string_of_list_ascii in H. simpl in H.
  destruct (rev acc); discriminate H.
Qed.

Lemma split_ws_acc_words (s : string) :
  forall acc, (forall c, In c acc -> Py.is_space c = false) ->
  Forall (fun w => w <> EmptyString
                   /\ forall c, In c (list_ascii_of_string w) -> Py.is_space c = false)
         (Py.split_ws_acc s acc).
Proof.
  induction s as [| c s IH]; intros acc Hacc; simpl.
  - destruct acc as [| a acc]; [constructor |].
    constructor; [| constructor]. split; [apply of_rev_nonempty |].
    intros d Hd. apply (proj1 (of_rev_chars _ _)) in Hd. exact (Hacc d Hd).
  - destruct (Py.is_space c) eqn:Ec.
    + destruct acc as [| a acc]; [apply IH; intros _ [] |].
      constructor; [| apply IH; intros _ []].
      split; [apply of_rev_nonempty |].
      intros d Hd. apply (proj1 (of_rev_chars _ _)) in Hd. exact (Hacc d Hd).
    + apply IH. intros d [<- | Hd]; [exact Ec | exact (Hacc d Hd)].
Qed.

Lemma split_ws_acc_app (w rest : string) :
  forall acc, (forall c, In c (list_ascii_of_string w) -> Py.is_space c = false) ->
  Py.split_ws_acc (w ++ rest) acc = Py.split_ws_acc rest (rev (list_ascii_of_string w) ++ acc).
Proof.
  induction w as [| c w IH]; intros acc Hw; simpl; [reflexivity |].
  rewrite (Hw c (or_introl eq_refl)).
  rewrite IH by (intros d Hd; exact (Hw d (or_intror Hd))).
  rewrite <- app_assoc. reflexivity.
Qed.

Lemma append_empty (w : string) : (w ++ EmptyString)%string = w.
Proof. induction w as [| c w IH]; simpl; [reflexivity | rewrite IH; reflexivity]. Qed.

Lemma of_rev_rev (w : string) : Py.of_rev (rev (list_ascii_of_string w)) = w.
Proof.
  unfold Py.of_rev. rewrite rev_involutive. apply string_of_list_ascii_of_string.
Qed.

Lemma rev_chars_nonempty (w : string) :
  w <> EmptyString -> exists a l, rev (list_ascii_of_string w) = a :: l.
Proof.
  intros Hw. destruct (rev (list_ascii_of_string w)) as [| a l] eqn:E; [| eauto].
  exfalso. apply Hw. apply (f_equal (@rev ascii)) in E. rewrite rev_involutive in E.
  rewrite <- (string_of_list_ascii_of_string w), E. reflexivity.
Qed.

Lemma split_ws_join (ws : list string) :
  Forall (fun w => w <> EmptyString
                   /\ forall c, In c (list_ascii_of_string w) -> Py.is_space c = false) ws ->
  Py.split_ws (join " " ws) = ws.
Proof.
  unfold Py.split_ws.
  induction ws as [| w ws IH]; intros Hws; [reflexivity |].
  inversion Hws as [| ? ? [Hne Hw] Hrest]; subst.
  destruct (rev_chars_nonempty w Hne) as [a [l Hrev]].
  destruct ws as [| w' ws].
  - simpl join. rewrite <- (append_empty w) at 1.
    rewrite split_ws_acc_app by exact Hw. rewrite app_nil_r, Hrev. simpl.
    rewrite <- Hrev, of_rev_rev. reflexivity.
  - change (join " " (w :: w' :: ws)) with (w ++ " " ++ join " " (w' :: ws))%string.
    rewrite split_ws_acc_app by exact Hw. rewrite app_nil_r, Hrev.
    cbn [Py.split_ws_acc append]. replace (Py.is_space " ") with true by reflexivity.
    rewrite <- Hrev, of_rev_rev, (IH Hrest). reflexivity.
Qed.

End WsFacts.

(** X26.  With [intensity <= 0] (and draws in [[0, 1)]),
    [apply_synonym_replacement] keeps the words of its input: the words
    of its output are exactly [text.split()]. Applied again to its own
    output, it returns that output unchanged, with a count of 0. *)
Theorem apply_synonym_replacement_zero_intensity_idempotent :
  forall (g : Humanizer.Rng) k k' text intensity,
    (intensity <= 0)%Q -> (forall j, 0 <= Humanizer.rnd g j)%Q ->
    let t1 := fst (fst (Humanizer.apply_synonym_replacement g k text intensity)) in
    Py.split_ws t1 = Py.split_ws text
    /\ fst (Humanizer.apply_synonym_replacement g k' t1 intensity) = (t1, 0).
Proof.
  intros g k k' text intensity Hi Hr t1.
  assert (Ht1 : t1 = Humanizer.join " " (Py.split_ws text)).
  { subst t1. rewrite (HumanizerFacts.zero_intensity g k text intensity Hi Hr). reflexivity. }
  assert (Hw : Py.split_ws t1 = Py.split_ws text).
  { rewrite Ht1. apply WsFacts.split_ws_join. apply WsFacts.split_ws_acc_words.
    intros _ []. }
  split; [exact Hw |].
  rewrite (HumanizerFacts.zero_intensity g k' t1 intensity Hi Hr), Hw, <- Ht1.
  reflexivity.
Qed.

Lemma apply_synonym_replacement_zero_intensity_idempotent_witness :
  (0 <= 0)%Q /\ (forall j : nat, 0 <= Humanizer.rnd
     {| Humanizer.rnd := fun _ => 1#2; Humanizer.pick := fun _ _ => 0%nat |} j)%Q /\
  let t1 := fst (fst (Humanizer.apply_synonym_replacement
                        {| Humanizer.rnd := fun _ => 1#2; Humanizer.pick := fun _ _ => 0%nat |}
                        0 " We  utilize robust tools. " 0)) in
  Py.split_ws t1 = Py.split_ws " We  utilize robust tools. "
  /\ fst (Humanizer.apply_synonym_replacement
            {| Humanizer.rnd := fun _ => 1#2; Humanizer.pick := fun _ _ => 0%nat |}
            5 t1 0) = (t1, 0).
Proof.
  assert (Hr : forall j : nat, (0 <= Humanizer.rnd
     {| Humanizer.rnd := fun _ => 1#2; Humanizer.pick := fun _ _ => 0%nat |} j)%Q)
    by (intros j; simpl; discriminate).
  split; [apply Qle_refl |]. split; [exact Hr |].
  exact (apply_synonym_replacement_zero_intensity_idempotent _ 0 5 " We  utilize robust tools. "
           0 (Qle_refl 0) Hr).
Defined.

Module KbOnlyFacts.

Import Composer.

Lemma take_long_sentences_spec (ss : list string) :
  forall sel, length sel < 2 ->
  let out := take_long_sentences ss sel in
  length out <= 2
  /\ forall x, In x out -> In x sel
                 \/ exists s, In s ss /\ 20 <= String.length s /\ x = Py.strip s.
Proof.
  induction ss as [| s ss IH]; intros sel Hl; cbv zeta; cbn [take_long_sentences].
  - split; [lia | auto].
  - set (sel' := if 20 <=? String.length s then sel ++ [Py.strip s] else sel).
    assert (Hsel' : length sel' <= 2
                    /\ forall x, In x sel' -> In x sel
                         \/ exists s', In s' (s :: ss) /\ 20 <= String.length s'
                                       /\ x = Py.strip s').
    { subst sel'. destruct (20 <=? String.length s) eqn:E.
      - apply Nat.leb_le in E. rewrite length_app. simpl. split; [lia |].
        intros x Hx. apply in_app_or in Hx as [Hx | [<- | []]]; [left; exact Hx |].
        right. exists s. split; [left; reflexivity | split; [exact E | reflexivity]].
      - split; [lia | intros x Hx; left; exact Hx]. }
    destruct Hsel' as [Hl' Hin'].
    destruct (2 <=? length sel') eqn:E2.
    + split; [exact Hl' | exact Hin'].
    + apply Nat.leb_gt in E2. destruct (IH sel' E2) as [H1 H2].
      split; [exact H1 |]. intros x Hx.
      destruct (H2 x Hx) as [Hx' | [s' [Hs' Hrest]]].
      * exact (Hin' x Hx').
      * right. exists s'. split; [right; exact Hs' | exact Hrest].
Qed.

End KbOnlyFacts.

(** X27.  For a non-empty [kb_content], [_compose_kb_only] uses only the
    first entry. Its text is either the join of at most two stripped
    sentences of that entry of length at least 20, or the first 200
    characters of the content. Its provenance is the single
    knowledge-base span [[0, len(text)]] crediting that entry. *)
Theorem compose_kb_only_shape :
  forall best rest matches,
    let r := Composer.compose_kb_only (best :: rest) matches in
    ((exists sel, length sel <= 2
                  /\ Forall (fun x => exists s, In s (Composer.split_sentences
                                                          (Composer.e_content best))
                                              /\ 20 <= String.length s /\ x = Py.strip s) sel
                  /\ Composer.text r = Humanizer.join " " sel)
     \/ Composer.text r = substring 0 200 (Composer.e_content best))
    /\ Composer.provenance r
       = [{| Composer.start := 0; Composer.end_ := String.length (Composer.text r);
             Composer.source := Composer.KNOWLEDGE_BASE;
             Composer.prov_kb_item_id := Some (Composer.e_id best) |}].
Proof.
  intros best rest matches r. subst r. unfold Composer.compose_kb_only. cbv zeta.
  destruct (KbOnlyFacts.take_long_sentences_spec
              (Composer.split_sentences (Composer.e_content best)) [] ltac:(simpl; lia))
    as [Hl Hin].
  split; [| reflexivity]. simpl Composer.text.
  destruct (String.eqb _ EmptyString); [right; reflexivity | left].
  eexists. split; [exact Hl | split; [| reflexivity]].
  apply Forall_forall. intros x Hx. destruct (Hin x Hx) as [[] | H]. exact H.
Qed.

(** X28.  The second LLM call of [extract] (no rule-based result, language
    [hi] and a Mistral key) is never reached: with [hi] and a key, the
    first test [lang != "en" and self.mistral_key] has already returned
    [_extract_llm]. So [extract] is [_extract_llm] when the language is not
    English and a key is set, and the rule-based loop otherwise. *)
Theorem extract_hindi_fallback_unreachable :
  forall split_sentences is_requirement categorize env text pages,
    Extractor.extract split_sentences is_requirement categorize env text pages
    = let lang := match Extractor.detect env (substring 0 2000 text) with
                  | Some l => l | None => "en" end in
      if negb (String.eqb lang "en") && Extractor.mistral_key env
      then Extractor.extract_llm (Extractor.llm_extract env text lang) pages
      else Extractor.rule_loop is_requirement categorize pages (split_sentences text) [] 0 [].
Proof.
  intros split_sentences is_requirement categorize env text pages.
  unfold Extractor.extract. cbv zeta.
  set (lang := match Extractor.detect env (substring 0 2000 text) with
               | Some l => l | None => "en" end).
  destruct (negb (String.eqb lang "en") && Extractor.mistral_key env) eqn:E; [reflexivity |].
  assert (Hh : (String.eqb lang "hi" && Extractor.mistral_key env) = false).
  { destruct (String.eqb lang "hi") eqn:Eh; [| reflexivity].
    apply String.eqb_eq in Eh. rewrite Eh in E. exact E. }
  rewrite Hh. destruct (Extractor.rule_loop _ _ _ _ _ _ _); reflexivity.
Qed.

Module WsNormFacts.

Lemma collapse_ws_acc_norm (s : string) :
  forall b,
    let out := list_ascii_of_string (Py.collapse_ws_acc s b) in
    (forall x, In x out -> Py.is_space x = true -> x = " "%char)
    /\ (forall l1 l2 x y, out = l1 ++ x :: y :: l2 ->
          Py.is_space x = false \/ Py.is_space y = false)
    /\ (b = true -> forall x r, out = x :: r -> Py.is_space x = false).
Proof.
  induction s as [| c s IH]; intros b; cbv zeta; simpl.
  - split; [intros _ [] |]. split; [intros [| ? ?] ? ? ? H; discriminate H |].
    intros _ x r H. discriminate H.
  - destruct (Py.is_space c) eqn:Ec; [destruct b |]; simpl.
    + exact (IH true).
    + destruct (IH true) as [H1 [H2 H3]].
      split; [intros x [<- | Hx] Hs; [reflexivity | exact (H1 x Hx Hs)] |].
      split; [| intros Hf; discriminate Hf].
      intros [| z l1] l2 x y H.
      * injection H as <- Hy. right.
        exact (H3 eq_refl y l2 Hy).
      * injection H as _ H. exact (H2 l1 l2 x y H).
    + destruct (IH false) as [H1 [H2 H3]].
      split; [intros x [<- | Hx] Hs; [congruence | exact (H1 x Hx Hs)] |].
      split; [| intros _ x r H; injection H as <- _; exact Ec].
      intros [| z l1] l2 x y H.
      * injection H as <- _. left. exact Ec.
      * injection H as _ H. exact (H2 l1 l2 x y H).
Qed.

Lemma lstrip_by_suffix (p : ascii -> bool) (s : string) :
  exists pre, list_ascii_of_string s = pre ++ list_ascii_of_string (Py.lstrip_by p s)
  /\ forall x r, list_ascii_of_string (Py.lstrip_by p s) = x :: r -> p x = false.
Proof.
  induction s as [| c s IH]; simpl.
  - exists []. split; [reflexivity | intros x r H; discriminate H].
  - destruct (p c) eqn:E.
    + destruct IH as [pre [H1 H2]]. exists (c :: pre). rewrite H1. split; [reflexivity | exact H2].
    + exists []. split; [reflexivity |]. intros x r H. injection H as <- _. exact E.
Qed.

Lemma rev_string_chars (s : string) :
  list_ascii_of_string (Py.rev_string s) = rev (list_ascii_of_string s).
Proof. unfold Py.rev_string. apply list_ascii_of_string_of_list_ascii. Qed.

Lemma strip_collapse_norm (t : string) :
  let out := list_ascii_of_string (Py.strip (Py.collapse_ws t)) in
  (forall x, In x out -> Py.is_space x = true -> x = " "%char)
  /\ (forall l1 l2 x y, out = l1 ++ x :: y :: l2 ->
        Py.is_space x = false \/ Py.is_space y = false)
  /\ (forall x r, out = x :: r -> Py.is_space x = false)
  /\ (forall x r, out = r ++ [x] -> Py.is_space x = false).
Proof.
  cbv zeta. unfold Py.strip, Py.strip_by. rewrite rev_string_chars.
  set (L0 := list_ascii_of_string (Py.collapse_ws t)).
  destruct (collapse_ws_acc_norm t false) as [Sp0 [Adj0 _]].
  change (Py.collapse_ws_acc t false) with (Py.collapse_ws t) in Sp0, Adj0.
  fold L0 in Sp0, Adj0.
  destruct (lstrip_by_suffix Py.is_space (Py.collapse_ws t)) as [pre0 [E0 Hd1]].
  fold L0 in E0.
  set (s1 := Py.lstrip_by Py.is_space (Py.collapse_ws t)) in *.
  set (L1 := list_ascii_of_string s1) in *.
  destruct (lstrip_by_suffix Py.is_space (Py.rev_string s1)) as [pre2 [E2 Hd3]].
  rewrite rev_string_chars in E2. fold L1 in E2.
  set (L3 := list_ascii_of_string (Py.lstrip_by Py.is_space (Py.rev_string s1))) in *.
  split; [| split; [| split]].
  - intros x Hx Hs. apply Sp0; [| exact Hs].
    rewrite E0. apply in_or_app. right.
    rewrite <- (rev_involutive L1), E2, rev_app_distr. apply in_or_app. left.
    exact Hx.
  - intros l1 l2 x y H.
    apply (Adj0 (pre0 ++ l1) (l2 ++ rev pre2) x y).
    rewrite E0, <- (rev_involutive L1), E2, rev_app_distr, H.
    rewrite <- !app_assoc. reflexivity.
  - intros x r H.
    assert (HL3 : L3 = rev r ++ [x]).
    { rewrite <- (rev_involutive L3), H. reflexivity. }
    apply (Hd1 x (rev (pre2 ++ rev r))).
    fold L1. rewrite <- (rev_involutive L1), E2, HL3, app_assoc, rev_app_distr.
    reflexivity.
  - intros x r H.
    assert (HL3 : L3 = x :: rev r).
    { rewrite <- (rev_involutive L3), H, rev_app_distr. reflexivity. }
    exact (Hd3 x (rev r) HL3).
Qed.

End WsNormFacts.

(** X29.  The text returned by [_humanize] is in whitespace normal form:
    every whitespace character in it is a plain space, no two whitespace
    characters are adjacent, and it neither starts nor ends with
    whitespace ([re.sub(r'\s+', ' ', text).strip()] is its last step). *)
Theorem humanize_whitespace_normal :
  forall env k composed mode,
    let out := list_ascii_of_string
                 (Composer.text (fst (Composer.humanize env k composed mode))) in
    (forall x, In x out -> Py.is_space x = true -> x = " "%char)
    /\ (forall l1 l2 x y, out = l1 ++ x :: y :: l2 ->
          Py.is_space x = false \/ Py.is_space y = false)
    /\ (forall x r, out = x :: r -> Py.is_space x = false)
    /\ (forall x r, out = r ++ [x] -> Py.is_space x = false).
Proof.
  intros env k composed mode. unfold Composer.humanize.
  destruct (Humanizer.humanize_text _ _ _ _ _) as [[[[t o] n] tags] k'].
  apply WsNormFacts.strip_collapse_norm.
Qed.

(** X30.  The [kb_percentage] returned by [compose] is never measured on
    the text. The result is the minimal response of
    [_generate_minimal_response] (with 0), an LLM-refined response (with
    the fixed value 50), or a knowledge-base response (with 100). This
    holds because [_humanize] keeps the [kb_percentage] it is given. *)
Theorem compose_kb_percentage_values :
  forall env k requirement matches style mode tone,
    let r := fst (Composer.compose env k requirement matches style mode tone) in
    Composer.kb_percentage r = 50%Q \/ Composer.kb_percentage r = 100%Q
    \/ r = Composer.generate_minimal_response requirement.
Proof.
  intros env k requirement matches style mode tone. cbv zeta.
  unfold Composer.compose.
  destruct matches as [| m rest]; [right; right; reflexivity |].
  destruct (Composer.select_kb_content (m :: rest)) as [| best others];
    [right; right; reflexivity |].
  match goal with
  | |- context [match ?e with (_, _) => _ end] => destruct e as [[r |] k1] eqn:Er
  end.
  - left. simpl.
    destruct (30 <=? _); [| discriminate].
    unfold Composer.refine_for_tender in Er.
    destruct (negb (Composer.api_key env)); [discriminate |].
    apply RefineFacts.refine_loop_accepted in Er. tauto.
  - right; left.
    destruct (_ && _).
    + destruct (Composer.humanize env k1 _ mode) as [h k2] eqn:Eh.
      apply RefineFacts.humanize_keeps in Eh. simpl. rewrite (proj2 Eh). reflexivity.
    + destruct (Composer.humanize env k1 _ mode) as [h k2] eqn:Eh.
      apply RefineFacts.humanize_keeps in Eh. simpl. rewrite (proj2 Eh). reflexivity.
Qed.
